(* ===== verification/_CoqProject ===== *)
-Q . S2P
Prelude.v
PyStr.v
Stream.v
Api.v
Thread.v
Context.v
Ncbi.v
Distill.v
Synthesis.v
Page.v
App.v
