(* ===== verification/Prelude.v ===== *)
(** * ParentAssistingDemo: a verification development of [src/app.py]

    PROGRAM.  [src/app.py] is a Streamlit page that turns a parenting
    question into a citation-backed answer.  On every script run it
    creates (once per browser session) an OpenAI assistant and a thread;
    when the user submits, it
    - distils the question into keywords with two assistant turns
      ([optimize_question], [extract_keywords]);
    - searches PubMed through NCBI's esearch/efetch endpoints with a
      relevance query and a broader OR fallback ([search_ncbi],
      [fetch_article_details]);
    - assembles a context block from the eligible articles (main script,
      lines 644-648), which [generate_prompt] splits again, ranks by a
      best-effort year key ([safe_sort_key]) and rejoins;
    - asks the assistant for the answer and a short text-message
      version ([generate_response]); every turn goes through
      [add_message_to_thread], which polls until no run of the thread is
      [queued] or [in_progress] before appending, and streams the reply
      through an [EventHandler] that accumulates the text deltas.

    LAYOUT (one file per component, in dependency order; each file
    opens with a comment naming the source lines it models).
    - [Prelude]   this header; the exception/state monad [M] (outcomes
                  [Done], [Raised] with a Python exception, [Diverged]
                  when a loop the source does not bound runs out of fuel),
                  its notation in [pa_scope], laws, [map_M]/[iter_M] for
                  comprehensions and loops, the [preserves],
                  [preserves_post] and [terminates] combinators and the
                  hint database [pa]; string append lemmas in the
                  rewrite database [pystr]; tactics [solve_preserves],
                  [simpl_str], [invc].
    - [PyStr]     Python [str] builtins on Latin-1 strings: [split] with a
                  separator (leftmost non-overlapping scan), [join],
                  [strip], [isdigit] (with the superscript digits),
                  truthiness, [in], [str(int)], f-string [None]; the
                  split/join round trips.
    - [Stream]    Module [EventHandler] (lines 116-140): the handler
                  record, [on_text_delta] and the drain of a stream.
    - [Api]       the world a request runs in: run statuses, threads,
                  JSON, parsed PubMed records, HTTP responses, the log of
                  API calls and of displays; the servers as type classes
                  [AssistantServer] (with [AssistantServerLaws]) and
                  [HttpServer], so that every theorem holds for every
                  server, and concrete servers instantiate them in the
                  witnesses.
    - [Thread]    Section [Sequencer]: [create_assistant],
                  [create_thread], [add_message_to_thread] and its
                  polling loop [wait_idle], [run_assistant], each API call
                  as a state update that logs the call.
    - [Context]   the context expression of the main script,
                  [safe_sort_key], [sorted(..., reverse=True)] as a stable
                  insertion sort with its contract [sorted_rev_spec], and
                  the ranking step [sort_context].
    - [Ncbi]      Section [Lookup]: [search_ncbi], [fetch_article_details]
                  and the HTTP/JSON/XML primitives they use.
    - [Distill]   [optimize_question], [extract_keywords] and their
                  prompts.
    - [Synthesis] the two prompt templates verbatim, [generate_prompt]
                  and [generate_response].
    - [Page]      the presentation code: the style sheets and the
                  Enter-key script as the source's literals, the article
                  card ([display_article_card]), and [load_lottiefile]
                  against a [FileSystem] type class.
    - [App]       the Streamlit script as a state machine on the session
                  state and the world: page rendering and configuration
                  ([render_page]), session initialisation
                  ([init_session], [ensure_session]), the submit guard
                  ([script_run]) and [handle_request]; reachable states of
                  a browser session.

    THEOREMS (claims C1-C37, in order of importance).
    - Turn serialisation: every sequencer operation and a whole request
      keep the call log [serial] (each message creation comes right after
      an idle listing of its thread); a returned [add_message_to_thread]
      appended after an idle poll; a finished turn leaves the thread idle
      on a server that keeps [AssistantServerLaws].
    - Termination and divergence of the polling loop: enough fuel when
      the server brings the runs to rest, divergence for every fuel when
      it never does (the source has no bound).
    - Streaming: the handler's text equals the concatenation of the
      deltas; the placeholder shows one growing prefix per delta.
    - Ranking: the insertion sort is exactly the list meeting the
      contract of a stable descending sort (refinement); on clean
      articles the ranking step yields the eligible articles sorted by
      year key; the key is read after the first "Published: " of a
      block and is "0" or digits; a blank line inside an abstract cuts
      its block.
    - Lookup: no request without keywords; relevance query first, OR
      query only after an empty result; at most four HTTP GETs (counted
      by [gets_at_most] in [Api]); placeholders for missing elements,
      and which fetched articles the context keeps (composition with
      [Context]); a textless author name aborts the batch; a failed
      connection raises; any status but 200 gives no articles.
    - Distillation and synthesis: the exact sequence of turns and what
      each returns; the keywords are the stripped comma-separated pieces
      of the reply, unbounded in number; prompt selection; blank
      questions rejected.
    - Script: one assistant and one thread per session over all reachable
      states; a rerun keeps the session's thread, which exists, and
      addresses no other thread (a type invariant proved with
      [preserves_post]); a non-empty input (blanks included) runs exactly
      [handle_request]; a request runs once per click or commit; what a
      request displays; every rerun ends on a server whose runs settle
      ([AssistantServerSettles]) when the fuel covers the settling time
      (termination); empty-input, missing-configuration and
      broken-animation paths; the card shows exactly the first three
      lines of the abstract.
    - The spec's scenarios and some findings are also kept as examples
      on fixed inputs ([spec_scenario_order], [spec_end_to_end],
      [year_keys_compare_as_strings], [abstract_blank_line_splits_block]).

    FUEL.  Only [wait_idle] takes fuel: the number of one-second sleeps
    it may make.  Liveness is stated for any fuel at least the number of
    seconds the server needs; divergence is stated for every fuel.  The
    witnesses use fuel 1 to 100 on servers whose runs finish within two
    seconds or never.  The termination of a whole rerun assumes the
    server class [AssistantServerSettles] and a fuel at least its
    settling time; it is then proved for every state.

    NOT MODELLED.  What the browser does with the rendered CSS, HTML and
    JavaScript (they are kept as the strings the script renders), the
    Lottie spinner shown during a request, logging, the 200-character
    cap of the text box (enforced by the browser), and the OpenAI, NCBI
    and file-system services themselves (they are the type-class
    parameters).  Strings are 8-bit: a character is a Latin-1 code
    point, and Python's string functions are modelled on that range
    (see [PyStr]); text outside Latin-1 is not modelled as input.  The
    one literal of the source outside it, the warning sign of the
    empty-input message, is kept as its UTF-8 bytes, which are only
    ever displayed. *)

From stdpp Require Export base list strings sorting sets.
From Stdlib Require Export Ascii.

(** ** Python exceptions that can escape a step of the program *)

Inductive py_exn :=
| TypeError          (** [None + " "]: a [None] text in a name element *)
| JSONDecodeError    (** [response.json()] on a body that is not JSON *)
| XMLParseError      (** [ElementTree.fromstring] on a body that is not XML *)
| RequestException   (** [requests.get] failing to connect *)
| KeyError           (** a missing key of [st.secrets] *)
| AssertionError     (** a failed [assert] *)
| APIError           (** an error status of the OpenAI API (unknown id) *)
| AttributeError.    (** [.get] on a JSON value that is not an object *)

#[export] Instance py_exn_eq_dec : EqDecision py_exn.
Proof. solve_decision. Qed.

(** ** An exception/state monad with divergence *)

(** A computation on a state [S] either returns, raises a Python
    exception, or runs out of fuel in a loop that the source does not
    bound (the polling loop of [add_message_to_thread]).  Each outcome
    carries the state reached, because side effects already performed
    (messages appended, HTTP requests sent) are not rolled back. *)

Inductive outcome (S A : Type) : Type :=
| Done (a : A) (s : S)
| Raised (e : py_exn) (s : S)
| Diverged (s : S).
Arguments Done {S A} a s.
Arguments Raised {S A} e s.
Arguments Diverged {S A} s.

Definition M (S A : Type) : Type := S -> outcome S A.

Definition ret {S A} (a : A) : M S A := fun s => Done a s.

Definition bind {S A B} (c : M S A) (k : A -> M S B) : M S B :=
  fun s =>
    match c s with
    | Done a s' => k a s'
    | Raised e s' => Raised e s'
    | Diverged s' => Diverged s'
    end.

Definition raise {S A} (e : py_exn) : M S A := fun s => Raised e s.
Definition get {S} : M S S := fun s => Done s s.
Definition modify {S} (f : S -> S) : M S unit := fun s => Done tt (f s).
Definition diverge {S A} : M S A := fun s => Diverged s.

(** [[f(x) for x in l]], evaluated left to right. *)
Fixpoint map_M {S A B} (f : A -> M S B) (l : list A) : M S (list B) :=
  match l with
  | [] => ret []
  | x :: l' => bind (f x) (fun y => bind (map_M f l') (fun ys => ret (y :: ys)))
  end.

(** [for x in l: f(x)]. *)
Fixpoint iter_M {S A} (f : A -> M S unit) (l : list A) : M S unit :=
  match l with
  | [] => ret tt
  | x :: l' => bind (f x) (fun _ => iter_M f l')
  end.

Definition final_state {S A} (o : outcome S A) : S :=
  match o with Done _ s | Raised _ s | Diverged s => s end.

Declare Scope pa_scope.
Delimit Scope pa_scope with pa.
Notation "x <- c ;; k" := (bind c (fun x => k))
  (at level 100, c at next level, right associativity) : pa_scope.
Notation "c ;; k" := (bind c (fun _ => k))
  (at level 100, right associativity) : pa_scope.
Open Scope pa_scope.

Section MonadLaws.
Context {S : Type}.

Lemma bind_ret_l {A B} (a : A) (k : A -> M S B) s : bind (ret a) k s = k a s.
Proof. reflexivity. Qed.

Lemma bind_ret_r {A} (c : M S A) s : bind c ret s = c s.
Proof. unfold bind, ret. by destruct (c s). Qed.

Lemma bind_assoc {A B C} (c : M S A) (f : A -> M S B) (g : B -> M S C) s :
  bind (bind c f) g s = bind c (fun a => bind (f a) g) s.
Proof. unfold bind. by destruct (c s). Qed.

Lemma bind_Done {A B} (c : M S A) (k : A -> M S B) s a s' :
  c s = Done a s' -> bind c k s = k a s'.
Proof. unfold bind. by intros ->. Qed.

Lemma bind_Raised {A B} (c : M S A) (k : A -> M S B) s e s' :
  c s = Raised e s' -> bind c k s = Raised e s'.
Proof. unfold bind. by intros ->. Qed.

Lemma bind_Diverged {A B} (c : M S A) (k : A -> M S B) s s' :
  c s = Diverged s' -> bind c k s = Diverged s'.
Proof. unfold bind. by intros ->. Qed.

Lemma bind_Done_inv {A B} (c : M S A) (k : A -> M S B) s b s' :
  bind c k s = Done b s' -> exists a s1, c s = Done a s1 /\ k a s1 = Done b s'.
Proof. unfold bind. destruct (c s) as [a s1| |]; [by exists a, s1|done|done]. Qed.

(** A state predicate that a computation keeps, whatever it returns. *)
Definition preserves {A} (P : S -> Prop) (c : M S A) : Prop :=
  forall s, P s -> P (final_state (c s)).

Lemma preserves_ret {A} P (a : A) : preserves P (ret a).
Proof. by intros s. Qed.

Lemma preserves_raise {A} P e : preserves P (@raise S A e).
Proof. by intros s. Qed.

Lemma preserves_get P : preserves P get.
Proof. by intros s. Qed.

Lemma preserves_diverge {A} P : preserves P (@diverge S A).
Proof. by intros s. Qed.

Lemma preserves_bind {A B} P (c : M S A) (k : A -> M S B) :
  preserves P c -> (forall a, preserves P (k a)) -> preserves P (bind c k).
Proof.
  intros Hc Hk s Hs. specialize (Hc s Hs). unfold bind.
  destruct (c s) as [a s'|e s'|s']; simpl in *; auto. by apply Hk.
Qed.

Lemma preserves_map_M {A B} P (f : A -> M S B) l :
  (forall x, preserves P (f x)) -> preserves P (map_M f l).
Proof.
  intros Hf. induction l as [|x l IH]; simpl; [apply preserves_ret|].
  apply preserves_bind; [done|]. intros y. apply preserves_bind; [done|]. intros ys.
  apply preserves_ret.
Qed.

Lemma preserves_iter_M {A} P (f : A -> M S unit) l :
  (forall x, preserves P (f x)) -> preserves P (iter_M f l).
Proof.
  intros Hf. induction l as [|x l IH]; simpl; [apply preserves_ret|].
  by apply preserves_bind.
Qed.

(** A state predicate that a computation keeps, and a property of the
    value it returns when it returns. *)
Definition preserves_post {A} (P : S -> Prop) (c : M S A) (R : A -> Prop) : Prop :=
  forall s, P s -> P (final_state (c s)) /\ match c s with Done a _ => R a | _ => True end.

Lemma preserves_bind_post {A B} P (c : M S A) (k : A -> M S B) R :
  preserves_post P c R -> (forall a, R a -> preserves P (k a)) -> preserves P (bind c k).
Proof.
  intros Hc Hk s Hs. destruct (Hc s Hs) as [HP HR]. unfold bind.
  destruct (c s) as [a s'|e s'|s']; simpl in *; auto. by apply Hk.
Qed.

(** [[f(x) for x in l]] has one element per element of [l]. *)
Lemma map_M_Done_length {A B} (f : A -> M S B) l s ys s' :
  map_M f l s = Done ys s' -> length ys = length l.
Proof.
  revert s ys. induction l as [|x l IH]; intros s ys H; simpl in H.
  - by injection H as <- <-.
  - apply bind_Done_inv in H as (y & s1 & _ & H). apply bind_Done_inv in H as (ys' & s2 & Hm & H).
    injection H as <- <-. simpl. by rewrite (IH _ _ Hm).
Qed.

(** [[f(x) for x in l]] raises the first exception of the element
    it reaches, when the elements before it return. *)
Lemma map_M_raise_at {A B} (f : A -> M S B) l1 x l2 s e :
  Forall (fun y => exists b, f y s = Done b s) l1 -> f x s = Raised e s ->
  map_M f (l1 ++ x :: l2) s = Raised e s.
Proof.
  intros Hl1 Hx. induction Hl1 as [|y l1 [b Hy] _ IH]; simpl.
  - by rewrite (bind_Raised _ _ _ _ _ Hx).
  - by rewrite (bind_Done _ _ _ _ _ Hy), (bind_Raised _ _ _ _ _ IH).
Qed.
(** A computation that never runs out of fuel: from every state it
    returns or raises. *)
Definition terminates {A} (c : M S A) : Prop :=
  forall s, match c s with Diverged _ => False | _ => True end.

Lemma terminates_ret {A} (a : A) : terminates (ret a).
Proof. by intros s. Qed.

Lemma terminates_raise {A} e : terminates (@raise S A e).
Proof. by intros s. Qed.

Lemma terminates_get : terminates get.
Proof. by intros s. Qed.

Lemma terminates_modify f : terminates (modify f).
Proof. by intros s. Qed.

Lemma terminates_bind {A B} (c : M S A) (k : A -> M S B) :
  terminates c -> (forall a, terminates (k a)) -> terminates (bind c k).
Proof.
  intros Hc Hk s. specialize (Hc s). unfold bind.
  destruct (c s) as [a s'|e s'|s']; [apply Hk|done|done].
Qed.

Lemma terminates_map_M {A B} (f : A -> M S B) l :
  (forall x, terminates (f x)) -> terminates (map_M f l).
Proof.
  intros Hf. induction l as [|x l IH]; simpl; [apply terminates_ret|].
  apply terminates_bind; [done|]. intros y. apply terminates_bind; [done|]. intros ys.
  apply terminates_ret.
Qed.

Lemma terminates_iter_M {A} (f : A -> M S unit) l :
  (forall x, terminates (f x)) -> terminates (iter_M f l).
Proof.
  intros Hf. induction l as [|x l IH]; simpl; [apply terminates_ret|].
  by apply terminates_bind.
Qed.
End MonadLaws.

Create HintDb pa discriminated.
#[export] Hint Resolve preserves_ret preserves_raise preserves_get preserves_diverge
  preserves_bind preserves_iter_M preserves_map_M : pa.
#[export] Hint Resolve terminates_ret terminates_raise terminates_get terminates_modify
  terminates_bind terminates_iter_M terminates_map_M : pa.

(** ** Strings: append lemmas shared by the string builtins *)

Create Rewrite HintDb pystr.

Lemma str_app_nil_l (s : string) : "" +:+ s = s.
Proof. reflexivity. Qed.

Lemma str_app_cons (c : ascii) (s t : string) : String c s +:+ t = String c (s +:+ t).
Proof. reflexivity. Qed.

Lemma str_app_nil_r (s : string) : s +:+ "" = s.
Proof. induction s as [|c s IH]; [done|]. by rewrite str_app_cons, IH. Qed.

Lemma str_app_assoc (s t u : string) : (s +:+ t) +:+ u = s +:+ (t +:+ u).
Proof. induction s as [|c s IH]; [done|]. by rewrite !str_app_cons, IH. Qed.

Lemma str_length_app (s t : string) :
  String.length (s +:+ t) = String.length s + String.length t.
Proof. induction s as [|c s IH]; [done|]. rewrite str_app_cons. simpl. by rewrite IH. Qed.

#[export] Hint Rewrite str_app_nil_l str_app_cons str_app_nil_r str_app_assoc
  str_length_app : pystr.

Ltac simpl_str := autorewrite with pystr in *.

(** Close a [preserves] goal from the [pa] hints, or split it along
    the binds and case splits of a composed computation and close the
    pieces. *)
Ltac solve_preserves :=
  repeat (intros; first
    [ solve [eauto with pa]
    | apply preserves_bind
    | apply preserves_map_M
    | apply preserves_iter_M
    | match goal with |- preserves _ (match ?x with _ => _ end) => destruct x end
    | match goal with |- preserves _ (if ?x then _ else _) => destruct x end ]);
  eauto with pa.
(** The same for a [terminates] goal. *)
Ltac solve_terminates :=
  repeat (intros; first
    [ solve [eauto with pa]
    | apply terminates_bind
    | apply terminates_map_M
    | apply terminates_iter_M
    | match goal with |- terminates (match ?x with _ => _ end) => destruct x end
    | match goal with |- terminates (if ?x then _ else _) => destruct x end ]);
  eauto with pa.
Ltac invc H := inversion H; subst; clear H.
