(* ===== verification/PyStr.v ===== *)
(** * PyStr: the Python [str] builtins that [src/app.py] relies on

    Strings are Stdlib [string]s whose characters are read as the
    Latin-1 code points 0-255 of Python's [str]; input text outside
    Latin-1 is not modelled (the one such literal of the source, a
    warning sign that is only displayed, is kept as its UTF-8 bytes).  The character classes are Python's on that range:
    [str.isspace] also holds for the separators 0x1C-0x1F, NEL (0x85)
    and NBSP (0xA0), and [str.isdigit] also holds for the superscripts
    ¹ ² ³.  [str.split(sep)] is modelled for a non-empty separator (all
    separators in the source are non-empty literals) as the leftmost,
    non-overlapping scan CPython performs; [sep.join] is Stdlib's
    [String.concat]. *)

From S2P Require Import Prelude.
From Stdlib Require Import DecimalString.

(** ** Character classes and predicates *)

Definition py_isspace_char (c : ascii) : bool :=
  let n := nat_of_ascii c in
  ((9 <=? n) && (n <=? 13)) || ((28 <=? n) && (n <=? 32))
  || (n =? 133) || (n =? 160).

Definition py_isdigit_char (c : ascii) : bool :=
  let n := nat_of_ascii c in
  ((48 <=? n) && (n <=? 57)) || (n =? 178) || (n =? 179) || (n =? 185).

Fixpoint str_forallb (p : ascii -> bool) (s : string) : bool :=
  match s with
  | EmptyString => true
  | String c s' => p c && str_forallb p s'
  end.

(** [s.isdigit()]: non-empty and every character a digit. *)
Definition py_isdigit (s : string) : bool :=
  match s with
  | EmptyString => false
  | _ => str_forallb py_isdigit_char s
  end.

(** Truthiness of a [str]: [if s:] holds for every non-empty string. *)
Definition py_truthy (s : string) : bool :=
  match s with EmptyString => false | _ => true end.

(** [sub in s]. *)
Fixpoint py_contains (sub s : string) : bool :=
  String.prefix sub s ||
  match s with
  | EmptyString => false
  | String _ s' => py_contains sub s'
  end.

(** ** [str.strip()] with no argument *)

Fixpoint py_lstrip (s : string) : string :=
  match s with
  | EmptyString => EmptyString
  | String c s' => if py_isspace_char c then py_lstrip s' else s
  end.

Fixpoint py_rstrip (s : string) : string :=
  match s with
  | EmptyString => EmptyString
  | String c s' =>
      match py_rstrip s' with
      | EmptyString => if py_isspace_char c then EmptyString else String c EmptyString
      | r => String c r
      end
  end.

Definition py_strip (s : string) : string := py_rstrip (py_lstrip s).

(** ** [s.split(sep)] and [sep.join(l)] *)

(** [split_go sep s skip] scans [s]; [skip] counts the characters of a
    separator occurrence still to be passed over.  The head of the
    result is the piece being built at the current position. *)
Fixpoint split_go (sep s : string) (skip : nat) : list string :=
  match s with
  | EmptyString => [EmptyString]
  | String c s' =>
      match skip with
      | S k => split_go sep s' k
      | O =>
          if String.prefix sep s then EmptyString :: split_go sep s' (pred (String.length sep))
          else match split_go sep s' 0 with
               | p :: ps => String c p :: ps
               | [] => [String c EmptyString]
               end
      end
  end.

Definition py_split (sep s : string) : list string := split_go sep s 0.

Definition py_join (sep : string) (l : list string) : string := String.concat sep l.

(** [s.count(c)] for a one-character [c]. *)
Fixpoint py_count_char (c : ascii) (s : string) : nat :=
  match s with
  | EmptyString => 0
  | String d s' => (if bool_decide (c = d) then 1 else 0) + py_count_char c s'
  end.

(** Whether an occurrence of [sep] starts at a position of [x] in the
    string [x ++ z]. *)
Fixpoint sep_starts_in (sep x z : string) : bool :=
  match x with
  | EmptyString => false
  | String c x' => String.prefix sep (String c (x' +:+ z)) || sep_starts_in sep x' z
  end.

(** All characters but the last one. *)
Fixpoint str_init (s : string) : string :=
  match s with
  | EmptyString | String _ EmptyString => EmptyString
  | String c s' => String c (str_init s')
  end.

(** ** Formatting *)

(** The newline character, ["\n"] in the source. *)
Definition nl : string := String "010"%char EmptyString.

(** [str(n)] of a non-negative [int]. *)
Definition py_str_nat (n : nat) : string :=
  NilEmpty.string_of_uint (Nat.to_uint n).

(** A value that is a [str] or [None], as an f-string renders it. *)
Definition py_fmt_opt (o : option string) : string :=
  match o with Some s => s | None => "None" end.

(** ** Lemmas *)

Lemma prefix_nil (s : string) : String.prefix EmptyString s = true.
Proof. by destruct s. Qed.

Lemma prefix_app (p t : string) : String.prefix p (p +:+ t) = true.
Proof.
  induction p as [|c p IH]; [by destruct t|]. rewrite str_app_cons. simpl.
  destruct (ascii_dec c c); [done|congruence].
Qed.

Lemma prefix_app_inv (p s : string) :
  String.prefix p s = true -> exists t, s = p +:+ t.
Proof.
  revert s; induction p as [|c p IH]; intros [|d s] H; simpl in H; try discriminate.
  - by exists EmptyString.
  - by exists (String d s).
  - destruct (ascii_dec c d) as [->|]; [|discriminate].
    destruct (IH s H) as [t ->]. exists t. by rewrite str_app_cons.
Qed.

Lemma prefix_app_l (p a b : string) :
  String.length p <= String.length a ->
  String.prefix p (a +:+ b) = true -> String.prefix p a = true.
Proof.
  revert a; induction p as [|c p IH]; intros [|d a] Hl H; rewrite ?str_app_cons in H;
    simpl in *; try done; try lia.
  destruct (ascii_dec c d); [|discriminate]. apply IH; [lia|done].
Qed.

Lemma prefix_contains (p s : string) : String.prefix p s = true -> py_contains p s = true.
Proof. intros H. destruct s; cbn [py_contains]; by rewrite H. Qed.

Lemma contains_cons_inv (p : string) (c : ascii) (s : string) :
  py_contains p (String c s) = false -> py_contains p s = false.
Proof. simpl. by intros [_ ?]%orb_false_iff. Qed.

Lemma contains_app_inv (p a b : string) :
  py_contains p (a +:+ b) = false -> py_contains p a = false.
Proof.
  induction a as [|c a IH]; intros H.
  - destruct p; [by destruct b|]. reflexivity.
  - rewrite str_app_cons in H. cbn [py_contains] in H |- *. apply orb_false_iff in H as [H1 H2].
    apply orb_false_iff. split; [|by apply IH].
    destruct (String.prefix p (String c a)) eqn:E; [|done].
    apply prefix_app_inv in E as [t Et].
    rewrite <- str_app_cons, Et, str_app_assoc, prefix_app in H1. discriminate.
Qed.

Lemma split_go_nonempty sep s k : split_go sep s k <> [].
Proof.
  revert k; induction s as [|c s IH]; intros [|k]; cbn [split_go]; try done.
  destruct (String.prefix sep (String c s)); [done|]. by destruct (split_go sep s 0).
Qed.

Lemma split_go_skip sep t u :
  split_go sep (t +:+ u) (String.length t) = split_go sep u 0.
Proof. induction t as [|c t IH]; [done|]. rewrite str_app_cons. apply IH. Qed.

Lemma str_init_snoc (s : string) :
  s <> EmptyString -> exists c, s = str_init s +:+ String c EmptyString.
Proof.
  induction s as [|c s IH]; [done|]. intros _. destruct s as [|d s].
  - by exists c.
  - destruct IH as [e He]; [done|]. exists e.
    change (str_init (String c (String d s))) with (String c (str_init (String d s))).
    rewrite str_app_cons. by rewrite <- He.
Qed.

Lemma str_length_init (s : string) : String.length (str_init s) = pred (String.length s).
Proof. induction s as [|c [|d s] IH]; simpl in *; try done. rewrite IH. done. Qed.

Lemma concat_cons (sep x : string) (l : list string) :
  l <> [] -> String.concat sep (x :: l) = x +:+ sep +:+ String.concat sep l.
Proof. by destruct l. Qed.

#[export] Hint Resolve split_go_nonempty : pa.

Lemma concat_cons_char (sep p : string) (c : ascii) (ps : list string) :
  String.concat sep (String c p :: ps) = String c (String.concat sep (p :: ps)).
Proof. destruct ps; [done|]. cbn [String.concat]. by rewrite str_app_cons. Qed.

(** A string that does not contain the separator is not split. *)
Lemma py_split_free sep s : py_contains sep s = false -> py_split sep s = [s].
Proof.
  unfold py_split. induction s as [|c s IH]; intros H; [done|].
  cbn [py_contains] in H. apply orb_false_iff in H as [Hp Hs].
  cbn [split_go]. by rewrite Hp, IH.
Qed.

(** Splitting [x ++ sep ++ y] cuts at the separator after [x], provided
    no occurrence of [sep] starts inside [x]: that is, [sep] does not
    occur in [x] followed by all but the last character of [sep]. *)
Lemma py_split_app_sep sep x y :
  sep <> EmptyString -> py_contains sep (x +:+ str_init sep) = false ->
  py_split sep (x +:+ sep +:+ y) = x :: py_split sep y.
Proof.
  unfold py_split. intros Hsep. induction x as [|c x IH]; intros Hx.
  - destruct sep as [|d sep']; [done|].
    rewrite str_app_nil_l, str_app_cons. cbn [split_go].
    rewrite <- str_app_cons, prefix_app. cbn [String.length pred].
    by rewrite split_go_skip.
  - rewrite !str_app_cons. cbn [split_go].
    destruct (String.prefix sep (String c (x +:+ sep +:+ y))) eqn:E.
    + exfalso. destruct (str_init_snoc sep Hsep) as [e He].
      assert (Hs : String c (x +:+ sep +:+ y)
                   = String c (x +:+ str_init sep) +:+ String e y).
      { rewrite He at 1. by autorewrite with pystr. }
      rewrite Hs in E. apply prefix_app_l in E.
      * rewrite prefix_contains in Hx; [done|]. by rewrite str_app_cons.
      * rewrite He at 1. simpl. autorewrite with pystr. rewrite !str_length_init. simpl. lia.
    + rewrite str_app_cons in Hx. rewrite IH; [done|]. by eapply contains_cons_inv.
Qed.

(** Splitting [x ++ z] when no occurrence of [sep] starts inside [x]:
    [x] is glued in front of the first piece of [z]. *)
Lemma py_split_app_free sep x z :
  sep_starts_in sep x z = false ->
  py_split sep (x +:+ z) =
    match py_split sep z with p :: ps => (x +:+ p) :: ps | [] => [x] end.
Proof.
  unfold py_split. induction x as [|c x IH]; intros Hx.
  - rewrite str_app_nil_l. destruct (split_go sep z 0) eqn:E; [by apply split_go_nonempty in E|by rewrite str_app_nil_l].
  - cbn [sep_starts_in] in Hx. apply orb_false_iff in Hx as [Hp Hx].
    rewrite str_app_cons. cbn [split_go]. rewrite Hp, IH by done.
    destruct (split_go sep z 0) eqn:E; [by apply split_go_nonempty in E|by rewrite str_app_cons].
Qed.

Lemma py_split_cons sep s :
  py_split sep s = hd EmptyString (py_split sep s) :: tail (py_split sep s).
Proof. unfold py_split. destruct (split_go sep s 0) eqn:E; [by apply split_go_nonempty in E|done]. Qed.

(** The first piece and the remaining pieces of [x ++ z], when no
    occurrence of [sep] starts inside [x]. *)
Lemma py_split_first sep x z :
  sep_starts_in sep x z = false ->
  hd EmptyString (py_split sep (x +:+ z)) = x +:+ hd EmptyString (py_split sep z)
  /\ tail (py_split sep (x +:+ z)) = tail (py_split sep z).
Proof.
  intros Hx. rewrite (py_split_app_free _ _ _ Hx), (py_split_cons sep z). done.
Qed.

Lemma prefix_app_char (p a b : string) (c : ascii) :
  String.prefix p (a +:+ String c b) = true ->
  String.prefix p a = true \/ py_contains (String c EmptyString) p = true.
Proof.
  revert p. induction a as [|d a IH]; intros [|e p] H; simpl in *; try by left.
  - destruct (ascii_dec e c) as [->|]; [right|done].
    cbn [py_contains]. simpl. destruct (ascii_dec c c); [by destruct p|congruence].
  - destruct (ascii_dec e d) as [->|]; [|done].
    destruct (IH p H) as [Hl|Hr]; [by left|right]. by rewrite Hr, orb_true_r.
Qed.

(** A character that the separator does not contain stops every
    occurrence: if [sep] does not occur in [x], none starts inside [x]
    when [x] is followed by that character. *)
Lemma sep_starts_in_stop sep x c z :
  py_contains (String c EmptyString) sep = false -> py_contains sep x = false ->
  sep_starts_in sep x (String c z) = false.
Proof.
  intros Hc. induction x as [|d x IH]; intros Hx; [done|].
  cbn [py_contains] in Hx. apply orb_false_iff in Hx as [Hp Hx].
  cbn [sep_starts_in]. rewrite IH by done. rewrite orb_false_r.
  rewrite <- str_app_cons. destruct (String.prefix sep (String d x +:+ String c z)) eqn:E; [|done].
  destruct (prefix_app_char _ _ _ _ E) as [E'|E']; congruence.
Qed.

(** For a one-character separator, an occurrence starts inside [x] iff
    the character occurs in [x]. *)
Lemma sep_starts_in_char c x z :
  sep_starts_in (String c EmptyString) x z = py_contains (String c EmptyString) x.
Proof.
  induction x as [|d x IH]; [done|]. cbn [sep_starts_in py_contains]. rewrite IH.
  simpl. destruct (ascii_dec c d); [by rewrite !prefix_nil|done].
Qed.

Lemma sep_starts_in_app sep a b z :
  sep_starts_in sep (a +:+ b) z = sep_starts_in sep a (b +:+ z) || sep_starts_in sep b z.
Proof.
  induction a as [|c a IH]; [done|]. rewrite str_app_cons. cbn [sep_starts_in].
  by rewrite IH, str_app_assoc, orb_assoc.
Qed.

(** A separator whose first character does not occur again in it
    cannot overlap itself: if it does not occur in [x], no occurrence
    starts inside [x] when [x] is followed by the separator. *)
Lemma sep_starts_in_sep d sep' x y :
  py_contains (String d EmptyString) sep' = false -> py_contains (String d sep') x = false ->
  sep_starts_in (String d sep') x (String d sep' +:+ y) = false.
Proof.
  intros Hd. induction x as [|c x IH]; intros Hx; [done|].
  cbn [py_contains] in Hx. apply orb_false_iff in Hx as [Hp Hx].
  cbn [sep_starts_in]. rewrite IH by done. rewrite orb_false_r.
  destruct (String.prefix (String d sep') (String c (x +:+ String d sep' +:+ y))) eqn:E; [|done].
  cbn in E, Hp. destruct (ascii_dec d c) as [<-|]; [|discriminate].
  rewrite str_app_cons in E. destruct (prefix_app_char _ _ _ _ E); congruence.
Qed.

Lemma py_split_sep_head sep y :
  sep <> EmptyString -> py_split sep (sep +:+ y) = EmptyString :: py_split sep y.
Proof.
  intros Hsep. unfold py_split. destruct sep as [|d sep']; [done|].
  rewrite str_app_cons. cbn [split_go]. rewrite <- str_app_cons, prefix_app.
  cbn [String.length pred]. by rewrite split_go_skip.
Qed.

(** Round trip 1: joining the pieces of a split gives the string back. *)
Theorem py_join_split sep s : sep <> EmptyString -> py_join sep (py_split sep s) = s.
Proof.
  intros Hsep. unfold py_join, py_split.
  remember (String.length s) as n eqn:Hn. assert (Hle : String.length s <= n) by lia.
  clear Hn. revert s Hle. induction n as [|n IH]; intros [|c s] Hle; simpl in Hle; try done; [lia|].
  cbn [split_go]. destruct (String.prefix sep (String c s)) eqn:E.
  - apply prefix_app_inv in E as [t Et]. destruct sep as [|d sep']; [done|].
    rewrite str_app_cons in Et. injection Et as -> ->. cbn [String.length pred].
    rewrite split_go_skip, concat_cons by apply split_go_nonempty.
    rewrite IH; [done|]. rewrite str_length_app in Hle. lia.
  - destruct (split_go sep s 0) as [|p ps] eqn:Es; [by apply split_go_nonempty in Es|].
    rewrite concat_cons_char, <- Es, IH; [done|lia].
Qed.

(** Round trip 2: splitting a join gives the pieces back, provided no
    piece lets an occurrence of the separator start inside it. *)
Theorem py_split_join sep l :
  sep <> EmptyString -> l <> [] ->
  Forall (fun e => py_contains sep (e +:+ str_init sep) = false) l ->
  py_split sep (py_join sep l) = l.
Proof.
  intros Hsep. unfold py_join. induction l as [|x l IH]; intros Hne Hall; [done|].
  apply Forall_cons in Hall as [Hx Hl]. destruct l as [|y l].
  - apply py_split_free. by eapply contains_app_inv.
  - rewrite concat_cons by done. rewrite py_split_app_sep by done. by rewrite IH.
Qed.

(** The pieces of a split on one character do not contain it. *)
Lemma prefix_char_cons (c d : ascii) (x : string) :
  String.prefix (String c EmptyString) (String d x) = bool_decide (c = d).
Proof. simpl. rewrite prefix_nil. by destruct (ascii_dec c d); case_bool_decide. Qed.

Lemma py_split_char_free (c : ascii) (s : string) :
  Forall (fun e => py_contains (String c EmptyString) e = false) (py_split (String c EmptyString) s).
Proof.
  unfold py_split. induction s as [|d s IH]; [by repeat constructor|]. cbn [split_go].
  rewrite prefix_char_cons. case_bool_decide as E.
  - constructor; [done|]. exact IH.
  - destruct (split_go _ s 0) as [|p ps] eqn:Es; [by apply split_go_nonempty in Es|].
    apply Forall_cons in IH as [Hp Hps]. constructor; [|done].
    cbn [py_contains]. rewrite prefix_char_cons, Hp. by case_bool_decide.
Qed.

(** A split on one character has one piece more than the string has
    occurrences of it. *)
Lemma py_split_char_length (c : ascii) (s : string) :
  length (py_split (String c EmptyString) s) = S (py_count_char c s).
Proof.
  unfold py_split. induction s as [|d s IH]; [done|]. cbn [split_go py_count_char].
  rewrite prefix_char_cons. case_bool_decide; simpl; [by rewrite IH|].
  destruct (split_go _ s 0) as [|p ps] eqn:Es; [by apply split_go_nonempty in Es|done].
Qed.

(** Splitting the join of the first pieces of a split on one character
    gives those pieces back. *)
Lemma py_split_join_firstn (c : ascii) (n : nat) (s : string) :
  0 < n ->
  py_split (String c EmptyString) (py_join (String c EmptyString) (firstn n (py_split (String c EmptyString) s)))
  = firstn n (py_split (String c EmptyString) s).
Proof.
  intros Hn. apply py_split_join; [done| |].
  - unfold py_split. destruct (split_go _ s 0) eqn:E; [by apply split_go_nonempty in E|].
    destruct n; [lia|done].
  - apply Forall_forall. intros e (i & Hi & _)%elem_of_take.
    cbn [str_init]. rewrite str_app_nil_r.
    exact (Forall_lookup_1 _ _ _ _ (py_split_char_free c s) Hi).
Qed.

