(* ===== verification/Stream.v ===== *)
(** * Stream: the [EventHandler] of [src/app.py] (lines 116-140)

    The handler receives the events of one streamed assistant run in
    arrival order.  Its state is the accumulated text, the [first_chunk]
    flag, and whether a Streamlit placeholder was given; every text
    delta re-renders the placeholder with the whole text so far, which
    is recorded here as the list [rendered] of markdown updates.
    Text-created and text-done events only log.  The delta value is
    modelled as a [str] (the SDK's [Optional[str]] is never [None] for a
    text delta of the assistants API). *)

From S2P Require Import Prelude PyStr.

Module EventHandler.

Record t := mk {
  text_accumulated : string;
  placeholder : bool;
  first_chunk : bool;
  rendered : list string
}.

(** [EventHandler(placeholder)]: [__init__]. *)
Definition init (placeholder : bool) : t := mk "" placeholder true [].

(** [on_text_delta]: the first delta replaces the (empty) text, later
    ones are appended; the placeholder, when present, shows the text. *)
Definition on_text_delta (h : t) (delta : string) : t :=
  let acc := if first_chunk h then delta else text_accumulated h +:+ delta in
  mk acc (placeholder h) false
     (if placeholder h then rendered h ++ [acc] else rendered h).

(** The events a run stream delivers to the handler. *)
Inductive event :=
| TextCreated (value : string)
| TextDelta (value : string)
| TextDone (value : string).

(** [on_text_created] and [on_text_done] only log. *)
Definition on_event (h : t) (e : event) : t :=
  match e with
  | TextDelta v => on_text_delta h v
  | TextCreated _ | TextDone _ => h
  end.

(** [stream.until_done()]: every event in arrival order. *)
Definition drain (h : t) (evs : list event) : t := foldl on_event h evs.

(** The text values of the deltas of a stream. *)
Definition deltas (evs : list event) : list string :=
  omap (fun e => match e with TextDelta v => Some v | _ => None end) evs.

(** Reference: the plain concatenation of the deltas. *)
Definition concat_deltas (evs : list event) : string :=
  String.concat "" (deltas evs).

(** The texts a placeholder shows: one prefix per delta. *)
Fixpoint prefixes_from (acc : string) (ds : list string) : list string :=
  match ds with
  | [] => []
  | d :: ds' => (acc +:+ d) :: prefixes_from (acc +:+ d) ds'
  end.

(** Invariant: while no delta has arrived, the text is empty. *)
Definition wf (h : t) : Prop := first_chunk h = true -> text_accumulated h = "".

(** ** Lemmas *)

Lemma concat_empty_cons (d : string) (ds : list string) :
  String.concat "" (d :: ds) = d +:+ String.concat "" ds.
Proof. destruct ds; [by rewrite str_app_nil_r | done]. Qed.

Lemma drain_cons h e evs : drain h (e :: evs) = drain (on_event h e) evs.
Proof. reflexivity. Qed.

Lemma deltas_cons_delta v evs : deltas (TextDelta v :: evs) = v :: deltas evs.
Proof. reflexivity. Qed.

Lemma wf_init p : wf (init p).
Proof. done. Qed.

Lemma on_event_wf h e : wf h -> wf (on_event h e).
Proof. destruct e; simpl; try done. Qed.

(** The [first_chunk] special case is an optimised append: on a
    well-formed handler, a delta is appended to the text. *)
Lemma on_text_delta_text h d :
  wf h -> text_accumulated (on_text_delta h d) = text_accumulated h +:+ d.
Proof. unfold wf. simpl. destruct (first_chunk h); [by intros -> | done]. Qed.

Lemma on_text_delta_rendered h d :
  rendered (on_text_delta h d)
  = if placeholder h then rendered h ++ [text_accumulated (on_text_delta h d)]
    else rendered h.
Proof. reflexivity. Qed.

Lemma drain_general h evs :
  wf h ->
  text_accumulated (drain h evs) = text_accumulated h +:+ concat_deltas evs
  /\ placeholder (drain h evs) = placeholder h
  /\ rendered (drain h evs)
     = rendered h ++ (if placeholder h
                      then prefixes_from (text_accumulated h) (deltas evs) else []).
Proof.
  unfold concat_deltas. revert h. induction evs as [|[v|v|v] evs IH]; intros h Hwf.
  - simpl. rewrite str_app_nil_r. destruct (placeholder h); by rewrite app_nil_r.
  - by apply IH.
  - rewrite drain_cons, deltas_cons_delta, concat_empty_cons.
    destruct (IH (on_event h (TextDelta v))) as (-> & -> & ->); [by apply on_event_wf|].
    simpl on_event. rewrite on_text_delta_text, str_app_assoc by done.
    split; [done|]. split; [done|].
    pose proof (on_text_delta_text h v Hwf) as Ht. simpl in Ht |- *. rewrite Ht.
    destruct (placeholder h); simpl; [by rewrite <- app_assoc | by rewrite app_nil_r].
  - by apply IH.
Qed.

Lemma prefixes_from_step acc ds i x y :
  prefixes_from acc ds !! i = Some x -> prefixes_from acc ds !! S i = Some y ->
  exists d, ds !! S i = Some d /\ y = x +:+ d.
Proof.
  revert acc i. induction ds as [|d ds IH]; intros acc i Hx Hy; [done|].
  destruct i as [|i]; simpl in Hx, Hy.
  - injection Hx as <-. destruct ds as [|d' ds]; [done|]. simpl in Hy.
    injection Hy as <-. exists d'. by rewrite str_app_assoc.
  - destruct (IH _ _ Hx Hy) as (d' & Hd & ->). by exists d'.
Qed.

Lemma prefixes_from_last acc ds :
  last (prefixes_from acc ds) = match ds with [] => None | _ => Some (acc +:+ String.concat "" ds) end.
Proof.
  revert acc. induction ds as [|d ds IH]; intros acc; [done|].
  cbn [prefixes_from]. rewrite last_cons, IH. destruct ds as [|d' ds].
  - done.
  - by rewrite (concat_empty_cons d), str_app_assoc.
Qed.

(** ** Properties of the handler *)

(** C4: draining a stream into a fresh handler accumulates exactly the
    concatenation of the text deltas, in arrival order, whether or not
    a placeholder is attached: the [first_chunk] special case is
    equivalent to plain appending. *)
Theorem drain_text_concat p evs :
  text_accumulated (drain (init p) evs) = concat_deltas evs.
Proof. by destruct (drain_general (init p) evs (wf_init p)) as (-> & _). Qed.

(** C17: with a placeholder, the handler renders once per delta, each
    render showing the text so far; without one it renders nothing. *)
Theorem drain_rendered p evs :
  rendered (drain (init p) evs) = if p then prefixes_from "" (deltas evs) else [].
Proof. by destruct (drain_general (init p) evs (wf_init p)) as (_ & _ & ->). Qed.

(** C18: streamed display is append-only: each placeholder update
    extends the previous one by exactly the next delta, and the last
    update is the final accumulated text. *)
Theorem drain_rendered_monotone evs i x y :
  rendered (drain (init true) evs) !! i = Some x ->
  rendered (drain (init true) evs) !! S i = Some y ->
  (exists d, deltas evs !! S i = Some d /\ y = x +:+ d)
  /\ last (rendered (drain (init true) evs)) = Some (text_accumulated (drain (init true) evs)).
Proof.
  destruct (drain_general (init true) evs (wf_init true)) as (Ht & _ & Hr).
  rewrite Ht, Hr. cbn [init rendered placeholder text_accumulated app]. intros Hx Hy. split.
  - by eapply prefixes_from_step.
  - rewrite prefixes_from_last. unfold concat_deltas.
    destruct (deltas evs); [done|]. by rewrite str_app_nil_l.
Qed.

Example drain_rendered_monotone_witness :
  rendered (drain (init true) [TextCreated ""; TextDelta "Peanut"; TextDelta " butter"; TextDone ""]) !! 0
    = Some "Peanut" /\
  rendered (drain (init true) [TextCreated ""; TextDelta "Peanut"; TextDelta " butter"; TextDone ""]) !! 1
    = Some "Peanut butter" /\
  (exists d, deltas [TextCreated ""; TextDelta "Peanut"; TextDelta " butter"; TextDone ""] !! 1 = Some d
             /\ "Peanut butter" = "Peanut" +:+ d)
  /\ last (rendered (drain (init true) [TextCreated ""; TextDelta "Peanut"; TextDelta " butter"; TextDone ""]))
     = Some (text_accumulated (drain (init true) [TextCreated ""; TextDelta "Peanut"; TextDelta " butter"; TextDone ""])).
Proof.
  split; [reflexivity|]. split; [reflexivity|].
  apply (drain_rendered_monotone _ 0); reflexivity.
Defined.

End EventHandler.
