(* ===== verification/Api.v ===== *)
(** * Api: the external services [src/app.py] talks to, and the world
    a request runs in

    - The OpenAI Assistants API: assistants, threads holding messages
      and runs, run statuses, streamed runs.  What the server does is a
      type class, [AssistantServer]: how in-flight runs progress while
      the client sleeps ([srv_tick]) and which events a run streams
      ([srv_reply]); [AssistantServerLaws] is what the client relies on.
    - NCBI's E-utilities over HTTP: responses with a status code and a
      body that is JSON (esearch), PubMed XML (efetch) or anything else;
      [HttpServer] answers a URL, or fails to connect.
    - The Streamlit page, as the log of what the script displays.

    The [world] is what a request changes: the server-side threads (a
    thread id is an index of [w_threads]), the number of assistants
    created, the log of API calls in order, and the display log.  The
    predicates on the call log shared by the components are here:
    [calls_extend] (the log only grows), [calls_on] (new calls address
    one thread) and [gets_at_most] (at most [n] new calls, all HTTP
    GETs), with the hints that carry them through a computation. *)

From S2P Require Import Prelude PyStr Stream.

(** ** Assistants API data *)

Inductive run_status :=
| Queued | InProgress | RequiresAction | Cancelling | Cancelled
| Failed | Completed | Incomplete | Expired.

#[export] Instance run_status_eq_dec : EqDecision run_status.
Proof. solve_decision. Qed.

Definition run_status_str (r : run_status) : string :=
  match r with
  | Queued => "queued" | InProgress => "in_progress"
  | RequiresAction => "requires_action" | Cancelling => "cancelling"
  | Cancelled => "cancelled" | Failed => "failed" | Completed => "completed"
  | Incomplete => "incomplete" | Expired => "expired"
  end.

(** [run.status in ["queued", "in_progress"]] (lines 175 and 181). *)
Definition is_active (r : run_status) : bool :=
  bool_decide (run_status_str r ∈ ["queued"; "in_progress"]).

(** [next((run for run in runs if ...), None)] is not [None]. *)
Fixpoint find_active (runs : list run_status) : option run_status :=
  match runs with
  | [] => None
  | r :: rs => if is_active r then Some r else find_active rs
  end.

Record message := mk_message { msg_role : string; msg_content : string }.

(** A thread as the server holds it: messages oldest first, runs newest
    first (the order of [runs.list]). *)
Record thread := mk_thread { th_messages : list message; th_runs : list run_status }.

Definition empty_thread : thread := mk_thread [] [].

(** Overrides passed to [runs.stream]: [model] and [temperature]. *)
Record run_params := mk_params { rp_model : option string; rp_temperature : option string }.

(** ** JSON values, as [response.json()] returns them *)

#[local] Set Warnings "-register-all".
Inductive json :=
| JNull | JBool (b : bool) | JNum (n : Z) | JStr (s : string)
| JArr (l : list json) | JObj (fields : list (string * json)).

(** ** PubMed XML, as [ElementTree] finds its elements *)

(** The first descendant element of a given tag: absent ([None]),
    present without text ([Some None]) or with text. *)
Definition xml_text := option (option string).

Record author_elem := mk_author { au_last : xml_text; au_fore : xml_text }.

(** One [PubmedArticle] record: the first [ArticleTitle], [AbstractText],
    [ArticleId[@IdType="pubmed"]] and [PubDate/Year] it contains, and
    all its [Author] elements. *)
Record pubmed_article := mk_pubmed {
  px_title : xml_text;
  px_abstract : xml_text;
  px_pmid : xml_text;
  px_year : xml_text;
  px_authors : list author_elem
}.

Inductive http_body :=
| JsonBody (j : json)
| XmlBody (records : list pubmed_article)
| OtherBody (text : string).

Record http_response := mk_response { status_code : Z; body : http_body }.

(** ** The article dictionary built by [fetch_article_details] *)

Record article := mk_article {
  a_title : option string;
  a_abstract : option string;
  a_id : option string;
  a_published : option string;
  a_authors : list string;
  a_source : string;
  a_url : string
}.

(** ** What the client observes and displays *)

Inductive api_call :=
| CreateAssistant (name instructions model : string)
| CreateThread
| ListRuns (thread_id : nat) (observed : list run_status)
| Sleep (seconds : nat)
| CreateMessage (thread_id : nat) (role content : string)
| StreamRun (thread_id assistant_id : nat) (params : run_params) (status : run_status)
| HttpGet (url : string).

Inductive ui_event :=
| UiWidget (label : string)
| UiHtml (html : string)
| UiWarning (text : string)
| UiError (text : string)
| UiMarkdown (text : string)
| UiSubheader (text : string)
| UiPlaceholder (text : string).

(** ** The servers *)

Class AssistantServer := {
  (** The runs of a thread after one second of wall-clock time. *)
  srv_tick : list run_status -> list run_status;
  (** The events a run streams, given the thread's messages, and the
      status it ends in. *)
  srv_reply : run_params -> list message -> list EventHandler.event * run_status
}.

(** What the client assumes of the server: a stream ends only once its
    run has left [queued]/[in_progress]. *)
Class AssistantServerLaws `{AssistantServer} := {
  srv_reply_final p msgs : is_active (snd (srv_reply p msgs)) = false
}.

(** A server whose runs all leave [queued]/[in_progress] within
    [srv_settle_time] seconds, whatever the runs of the thread. *)
Class AssistantServerSettles `{AssistantServer} := {
  srv_settle_time : nat;
  srv_settles rs : find_active (Nat.iter srv_settle_time srv_tick rs) = None
}.

Class HttpServer := {
  (** [requests.get(url)]: a response, or [None] when it raises. *)
  http_get : string -> option http_response
}.

(** ** The world of a request *)

Record world := mk_world {
  w_threads : list thread;
  w_assistants : nat;
  w_calls : list api_call;
  w_ui : list ui_event
}.

Definition W := M world.

Definition log_call (c : api_call) : W unit :=
  modify (fun w => mk_world (w_threads w) (w_assistants w) (w_calls w ++ [c]) (w_ui w)).

Definition show (u : ui_event) : W unit :=
  modify (fun w => mk_world (w_threads w) (w_assistants w) (w_calls w) (w_ui w ++ [u])).

Definition set_threads (ts : list thread) : W unit :=
  modify (fun w => mk_world ts (w_assistants w) (w_calls w) (w_ui w)).

(** ** The call log only grows *)

(** The calls of [w] extend the log [L]. *)
Definition calls_extend (L : list api_call) (w : world) : Prop :=
  exists l, w_calls w = L ++ l.

Lemma calls_extend_refl w : calls_extend (w_calls w) w.
Proof. exists []. by rewrite app_nil_r. Qed.

Lemma preserves_log_call_ext L c : preserves (calls_extend L) (log_call c).
Proof. intros w [l Hl]. exists (l ++ [c]). simpl. by rewrite Hl, app_assoc. Qed.

Lemma preserves_show_ext L u : preserves (calls_extend L) (show u).
Proof. intros w [l Hl]. by exists l. Qed.

Lemma preserves_set_threads_ext L ts : preserves (calls_extend L) (set_threads ts).
Proof. intros w [l Hl]. by exists l. Qed.

#[export] Hint Resolve preserves_log_call_ext preserves_show_ext preserves_set_threads_ext : pa.

(** ** Counting HTTP requests *)

Definition is_http_get (c : api_call) : Prop := exists url, c = HttpGet url.

(** The calls of [w] extend [L] by at most [k] calls, all HTTP GETs. *)
Definition gets_after (L : list api_call) (k : nat) (w : world) : Prop :=
  exists l, w_calls w = L ++ l /\ Forall is_http_get l /\ length l <= k.

(** A computation that adds at most [n] calls to the log, all HTTP GETs,
    whatever it returns, raises or leaves unfinished. *)
Definition gets_at_most {A} (n : nat) (c : W A) : Prop :=
  forall L k w, gets_after L k w -> gets_after L (k + n) (final_state (c w)).

Lemma gets_after_mono L k k' w : k <= k' -> gets_after L k w -> gets_after L k' w.
Proof. intros Hk (l & Hl & Hf & Hn). exists l. split_and!; [done|done|lia]. Qed.

Lemma gets_at_most_mono {A} n m (c : W A) : n <= m -> gets_at_most n c -> gets_at_most m c.
Proof. intros Hnm Hc L k w Hw. eapply gets_after_mono, Hc, Hw. lia. Qed.

Lemma gets_at_most_ret {A} (a : A) : gets_at_most 0 (ret a).
Proof. intros L k w Hw. by rewrite Nat.add_0_r. Qed.

Lemma gets_at_most_raise {A} e : gets_at_most 0 (@raise world A e).
Proof. intros L k w Hw. by rewrite Nat.add_0_r. Qed.

Lemma gets_at_most_show u : gets_at_most 0 (show u).
Proof. intros L k w (l & Hl & Hf & Hn). exists l. split_and!; [done|done|lia]. Qed.

Lemma gets_at_most_http_get url : gets_at_most 1 (log_call (HttpGet url)).
Proof.
  intros L k w (l & Hl & Hf & Hn). exists (l ++ [HttpGet url]). simpl. rewrite Hl, app_assoc.
  split_and!; [done| |rewrite length_app; simpl; lia]. apply Forall_app. split; [done|]. by repeat econstructor.
Qed.

Lemma gets_at_most_bind {A B} n m (c : W A) (f : A -> W B) :
  gets_at_most n c -> (forall a, gets_at_most m (f a)) -> gets_at_most (n + m) (bind c f).
Proof.
  intros Hc Hf L k w Hw. specialize (Hc L k w Hw). unfold bind.
  destruct (c w) as [a w1|e w1|w1]; simpl in *; [rewrite Nat.add_assoc; by apply Hf|..];
    (eapply gets_after_mono; [|exact Hc]; lia).
Qed.

Lemma gets_at_most_map_M {A B} (f : A -> W B) l :
  (forall x, gets_at_most 0 (f x)) -> gets_at_most 0 (map_M f l).
Proof.
  intros Hf. induction l as [|x l IH]; [apply gets_at_most_ret|]. simpl.
  apply (gets_at_most_bind 0 0); [done|]. intros y.
  apply (gets_at_most_bind 0 0); [done|]. intros ys. apply gets_at_most_ret.
Qed.

#[export] Hint Resolve gets_at_most_ret gets_at_most_raise gets_at_most_show gets_at_most_http_get
  gets_at_most_map_M : pa.

(** The thread a call addresses, if any. *)
Definition call_thread (c : api_call) : option nat :=
  match c with
  | ListRuns tid _ | CreateMessage tid _ _ | StreamRun tid _ _ _ => Some tid
  | _ => None
  end.

(** The calls of [w] extend the log [L] by calls that address no thread
    but [tid]. *)
Definition calls_on (L : list api_call) (tid : nat) (w : world) : Prop :=
  exists l, w_calls w = L ++ l /\ Forall (fun c => call_thread c = None \/ call_thread c = Some tid) l.

Lemma calls_on_refl tid w : calls_on (w_calls w) tid w.
Proof. exists []. by rewrite app_nil_r. Qed.

Lemma preserves_log_call_on L tid c :
  call_thread c = None \/ call_thread c = Some tid -> preserves (calls_on L tid) (log_call c).
Proof.
  intros Hc w (l & Hl & Hf). exists (l ++ [c]). simpl. rewrite Hl, app_assoc.
  split; [done|]. apply Forall_app. by split; [|constructor].
Qed.

Lemma preserves_show_on L tid u : preserves (calls_on L tid) (show u).
Proof. intros w (l & Hl & Hf). by exists l. Qed.

Lemma preserves_set_threads_on L tid ts : preserves (calls_on L tid) (set_threads ts).
Proof. intros w (l & Hl & Hf). by exists l. Qed.

#[export] Hint Resolve preserves_log_call_on preserves_show_on preserves_set_threads_on : pa.
#[export] Hint Extern 1 (call_thread _ = None \/ call_thread _ = Some _) =>
  first [left; reflexivity | right; reflexivity] : pa.

Lemma final_state_bind_Done {A B} (c : W A) (k : A -> W B) w a w1 :
  c w = Done a w1 -> final_state (bind c k w) = final_state (k a w1).
Proof. intros Hc. by rewrite (bind_Done _ _ _ _ _ Hc). Qed.
