(* ===== verification/Thread.v ===== *)
(** * Thread: the assistant turn sequencer of [src/app.py]

    [create_assistant] (lines 142-151), [run_assistant] (153-165),
    [create_thread] (167-170) and [add_message_to_thread] (172-189), on
    top of the Assistants API calls they make ([runs.list],
    [time.sleep], [messages.create], [runs.stream]), all against an
    [AssistantServer].  The polling loop of [add_message_to_thread] has
    no bound in the source; [wait_idle] takes a fuel that bounds the
    number of one-second sleeps and reports [Diverged] when it runs out. *)

From S2P Require Import Prelude PyStr Stream Api.

(** ** Servers used by the witnesses *)

(** A server on which a queued run starts within a second and a run in
    progress completes within the next; every run replies "ok". *)
Definition progress_run (r : run_status) : run_status :=
  match r with Queued => InProgress | InProgress => Completed | r => r end.

Definition demo_server : AssistantServer := {|
  srv_tick := map progress_run;
  srv_reply := fun _ _ => ([EventHandler.TextDelta "ok"], Completed)
|}.

(** A server whose runs never progress. *)
Definition stuck_server : AssistantServer := {|
  srv_tick := fun rs => rs;
  srv_reply := fun _ _ => ([], Completed)
|}.

(** A session thread with a run still in progress, e.g. left by a
    previous script run that Streamlit interrupted. *)
Definition demo_thread : thread := mk_thread [] [InProgress; Completed].
Definition demo_world : world := mk_world [demo_thread] 1 [] [].

Section Sequencer.
Context `{AssistantServer}.

(** ** API primitives *)

Definition thread_of (tid : nat) : W thread :=
  w <- get ;;
  match w_threads w !! tid with
  | Some t => ret t
  | None => raise APIError
  end.

Definition update_thread (tid : nat) (t : thread) : W unit :=
  w <- get ;; set_threads (<[tid := t]> (w_threads w)).

(** [client.beta.threads.runs.list(thread_id=tid)]. *)
Definition runs_list (tid : nat) : W (list run_status) :=
  t <- thread_of tid ;;
  log_call (ListRuns tid (th_runs t)) ;;
  ret (th_runs t).

Definition tick_thread (t : thread) : thread :=
  mk_thread (th_messages t) (srv_tick (th_runs t)).

(** [time.sleep(1)]: one second passes on the server. *)
Definition sleep1 : W unit :=
  log_call (Sleep 1) ;;
  w <- get ;; set_threads (map tick_thread (w_threads w)).

(** [client.beta.threads.messages.create(thread_id, role, content)]. *)
Definition messages_create (tid : nat) (role content : string) : W message :=
  t <- thread_of tid ;;
  let m := mk_message role content in
  update_thread tid (mk_thread (th_messages t ++ [m]) (th_runs t)) ;;
  log_call (CreateMessage tid role content) ;;
  ret m.

(** The reply the server adds to the thread when a run completes. *)
Definition reply_messages (text : string) : list message :=
  if py_truthy text then [mk_message "assistant" text] else [].

(** [with client.beta.threads.runs.stream(...) as stream:
    stream.until_done()]: the run streams its events into the handler,
    ends in its final status, and its reply joins the thread. *)
Definition runs_stream (tid aid : nat) (p : run_params) (h : EventHandler.t)
  : W EventHandler.t :=
  t <- thread_of tid ;;
  let '(evs, st) := srv_reply p (th_messages t) in
  let h' := EventHandler.drain h evs in
  update_thread tid
    (mk_thread (th_messages t ++ reply_messages (EventHandler.concat_deltas evs))
               (st :: th_runs t)) ;;
  log_call (StreamRun tid aid p st) ;;
  iter_M (fun s => show (UiPlaceholder s))
         (drop (length (EventHandler.rendered h)) (EventHandler.rendered h')) ;;
  ret h'.

(** ** The functions of [src/app.py] *)

Definition assistant_instructions : string := "
        You are a research assistant. Accuracy is of the utmost importance
        ".

(** [create_assistant()]: the id is the number of assistants so far. *)
Definition create_assistant : W nat :=
  w <- get ;;
  let aid := w_assistants w in
  modify (fun w => mk_world (w_threads w) (S aid) (w_calls w) (w_ui w)) ;;
  log_call (CreateAssistant "Research Assistant" assistant_instructions "gpt-4o-mini") ;;
  ret aid.

(** [create_thread()]: the id is the index of the new thread. *)
Definition create_thread : W nat :=
  w <- get ;;
  let tid := length (w_threads w) in
  set_threads (w_threads w ++ [empty_thread]) ;;
  log_call CreateThread ;;
  ret tid.

(** The polling loop of [add_message_to_thread]: list the runs; while
    one is queued or in progress, sleep a second and list again. *)
Fixpoint wait_idle (fuel tid : nat) : W unit :=
  runs <- runs_list tid ;;
  match find_active runs with
  | None => ret tt
  | Some _ =>
      match fuel with
      | O => diverge
      | S fuel' => sleep1 ;; wait_idle fuel' tid
      end
  end.

(** [add_message_to_thread(thread_id, content, role="user")]; every
    caller in the source uses the default role ["user"]. *)
Definition add_message_to_thread (fuel tid : nat) (content role : string) : W message :=
  wait_idle fuel tid ;;
  messages_create tid role content.

(** [run_assistant(thread_id, assistant_id, task, placeholder=None)]:
    [task] is only logged; the run uses [gpt-4o-mini] at temperature
    0.3. *)
Definition run_assistant (tid aid : nat) (task : string) (placeholder : bool) : W string :=
  h <- runs_stream tid aid (mk_params (Some "gpt-4o-mini") (Some "0.3"))
                   (EventHandler.init placeholder) ;;
  ret (EventHandler.text_accumulated h).

(** The calls a completed polling loop makes: busy observations each
    followed by a one-second sleep, then one idle observation. *)
Inductive poll_log (tid : nat) : list api_call -> Prop :=
| poll_idle obs :
    find_active obs = None -> poll_log tid [ListRuns tid obs]
| poll_busy obs r log :
    find_active obs = Some r -> poll_log tid log ->
    poll_log tid (ListRuns tid obs :: Sleep 1 :: log).

(** Serialisation of the call log: every message creation comes right
    after a listing of the same thread that saw no active run. *)
Definition appends_after_idle_poll (calls : list api_call) : Prop :=
  forall i tid role content,
    calls !! S i = Some (CreateMessage tid role content) ->
    exists obs, calls !! i = Some (ListRuns tid obs) /\ find_active obs = None.

Definition serial (w : world) : Prop := appends_after_idle_poll (w_calls w).

Definition is_create_message (c : api_call) : bool :=
  match c with CreateMessage _ _ _ => true | _ => false end.

(** What one turn (a message, then a run with parameters [p]) did:
    it polled until idle, appended the message, and streamed a reply
    [r] that the server computed from a history ending with the
    message. *)
Definition turn_result (tid aid : nat) (p : run_params) (content r : string)
    (log : list api_call) : Prop :=
  exists poll msgs evs st,
    poll_log tid poll /\ last msgs = Some (mk_message "user" content)
    /\ srv_reply p msgs = (evs, st) /\ r = EventHandler.concat_deltas evs
    /\ log = poll ++ [CreateMessage tid "user" content; StreamRun tid aid p st].

(** ** Step equations of the primitives *)

Lemma thread_of_ok tid w t :
  w_threads w !! tid = Some t -> thread_of tid w = Done t w.
Proof. intros Ht. unfold thread_of, bind, get. by rewrite Ht. Qed.

Lemma thread_of_missing tid w :
  w_threads w !! tid = None -> thread_of tid w = Raised APIError w.
Proof. intros Ht. unfold thread_of, bind, get. by rewrite Ht. Qed.

Lemma runs_list_ok tid w t :
  w_threads w !! tid = Some t ->
  runs_list tid w
  = Done (th_runs t) (mk_world (w_threads w) (w_assistants w)
                        (w_calls w ++ [ListRuns tid (th_runs t)]) (w_ui w)).
Proof. intros Ht. unfold runs_list. by rewrite (bind_Done _ _ _ _ _ (thread_of_ok _ _ _ Ht)). Qed.

Lemma sleep1_eq w :
  sleep1 w = Done tt (mk_world (map tick_thread (w_threads w)) (w_assistants w)
                        (w_calls w ++ [Sleep 1]) (w_ui w)).
Proof. reflexivity. Qed.

Lemma messages_create_ok tid role content w t :
  w_threads w !! tid = Some t ->
  messages_create tid role content w
  = Done (mk_message role content)
      (mk_world (<[tid := mk_thread (th_messages t ++ [mk_message role content]) (th_runs t)]>
                   (w_threads w))
                (w_assistants w) (w_calls w ++ [CreateMessage tid role content]) (w_ui w)).
Proof.
  intros Ht. unfold messages_create. by rewrite (bind_Done _ _ _ _ _ (thread_of_ok _ _ _ Ht)).
Qed.

Lemma runs_list_missing tid w :
  w_threads w !! tid = None -> runs_list tid w = Raised APIError w.
Proof. intros Ht. unfold runs_list. by rewrite (bind_Raised _ _ _ _ _ (thread_of_missing _ _ Ht)). Qed.

Lemma wait_idle_eq fuel tid :
  wait_idle fuel tid
  = (runs <- runs_list tid ;;
     match find_active runs with
     | None => ret tt
     | Some _ => match fuel with O => diverge | S fuel' => sleep1 ;; wait_idle fuel' tid end
     end).
Proof. by destruct fuel. Qed.

Lemma messages_tick (ts : list thread) :
  map th_messages (map tick_thread ts) = map th_messages ts.
Proof. rewrite map_map. by apply map_ext. Qed.

Lemma lookup_tick (ts : list thread) tid t :
  ts !! tid = Some t -> map tick_thread ts !! tid = Some (tick_thread t).
Proof. intros Ht. by rewrite list_lookup_fmap, Ht. Qed.

(** What a polling loop that returns has done: it ends on an idle
    observation of the thread, its calls form a [poll_log], and it
    changed nothing but the runs (by the server's progress). *)
Lemma wait_idle_done fuel tid w w' :
  wait_idle fuel tid w = Done tt w' ->
  (exists t, w_threads w' !! tid = Some t /\ find_active (th_runs t) = None)
  /\ (exists log, poll_log tid log /\ w_calls w' = w_calls w ++ log)
  /\ w_ui w' = w_ui w /\ w_assistants w' = w_assistants w
  /\ map th_messages (w_threads w') = map th_messages (w_threads w).
Proof.
  revert w. induction fuel as [|f IH]; intros w Hrun; rewrite wait_idle_eq in Hrun;
    (destruct (w_threads w !! tid) as [t|] eqn:Ht;
     [rewrite (bind_Done _ _ _ _ _ (runs_list_ok _ _ _ Ht)) in Hrun
     |by rewrite (bind_Raised _ _ _ _ _ (runs_list_missing _ _ Ht)) in Hrun]);
    destruct (find_active (th_runs t)) as [r|] eqn:E; try discriminate.
  1,3: unfold ret in Hrun; injection Hrun as <-; split; [by exists t|]; split; [|done];
    exists [ListRuns tid (th_runs t)]; split; [by constructor|done].
  rewrite (bind_Done _ _ _ _ _ (sleep1_eq _)) in Hrun.
  destruct (IH _ Hrun) as (Hidle & (log & Hlog & Hcalls) & Hui & Has & Hmsg).
  simpl in Hcalls, Hui, Has, Hmsg. split; [done|]. split.
  - exists (ListRuns tid (th_runs t) :: Sleep 1 :: log). split; [by econstructor|].
    rewrite Hcalls, <- !app_assoc. done.
  - split; [done|]. split; [done|]. by rewrite Hmsg, messages_tick.
Qed.

Lemma wait_idle_terminates n fuel tid w t :
  w_threads w !! tid = Some t ->
  find_active (Nat.iter n srv_tick (th_runs t)) = None -> n <= fuel ->
  exists w', wait_idle fuel tid w = Done tt w'.
Proof.
  revert fuel w t. induction n as [|n IH]; intros fuel w t Ht Hn Hle;
    rewrite wait_idle_eq, (bind_Done _ _ _ _ _ (runs_list_ok _ _ _ Ht));
    destruct (find_active (th_runs t)) as [r|] eqn:E; try by eexists.
  - simpl in Hn. congruence.
  - destruct fuel as [|f]; [lia|].
    rewrite (bind_Done _ _ _ _ _ (sleep1_eq _)).
    apply (IH f _ (tick_thread t)); [by apply lookup_tick | | lia].
    cbn [tick_thread th_runs]. by rewrite <- Nat.iter_succ_r.
Qed.

Lemma wait_idle_diverges fuel tid w t :
  w_threads w !! tid = Some t -> find_active (th_runs t) <> None ->
  (forall rs, find_active rs <> None -> find_active (srv_tick rs) <> None) ->
  exists w', wait_idle fuel tid w = Diverged w'.
Proof.
  intros Ht Hact Hstuck. revert w t Ht Hact. induction fuel as [|f IH]; intros w t Ht Hact;
    rewrite wait_idle_eq, (bind_Done _ _ _ _ _ (runs_list_ok _ _ _ Ht));
    destruct (find_active (th_runs t)) as [r|] eqn:E; try done.
  - by eexists.
  - rewrite (bind_Done _ _ _ _ _ (sleep1_eq _)).
    apply (IH _ (tick_thread t)); [by apply lookup_tick|]. simpl. apply Hstuck. by rewrite E.
Qed.

Lemma iter_show_eq (l : list string) w :
  iter_M (fun s => show (UiPlaceholder s)) l w
  = Done tt (mk_world (w_threads w) (w_assistants w) (w_calls w)
                      (w_ui w ++ map UiPlaceholder l)).
Proof.
  revert w. induction l as [|x l IH]; intros [ts na cs ui]; simpl.
  - by rewrite app_nil_r.
  - unfold bind at 1. simpl. rewrite IH. simpl. by rewrite <- app_assoc.
Qed.

Lemma runs_stream_ok tid aid p h w t :
  w_threads w !! tid = Some t ->
  runs_stream tid aid p h w =
    let '(evs, st) := srv_reply p (th_messages t) in
    Done (EventHandler.drain h evs)
      (mk_world (<[tid := mk_thread (th_messages t ++ reply_messages (EventHandler.concat_deltas evs))
                                    (st :: th_runs t)]> (w_threads w))
                (w_assistants w) (w_calls w ++ [StreamRun tid aid p st])
                (w_ui w ++ map UiPlaceholder
                   (drop (length (EventHandler.rendered h))
                         (EventHandler.rendered (EventHandler.drain h evs))))).
Proof.
  intros Ht. unfold runs_stream. rewrite (bind_Done _ _ _ _ _ (thread_of_ok _ _ _ Ht)).
  destruct (srv_reply p (th_messages t)) as [evs st]. unfold bind at 1.
  unfold update_thread, bind at 1, get, set_threads, modify. cbn.
  unfold bind. cbn. by rewrite iter_show_eq.
Qed.

Lemma poll_log_shape tid log :
  poll_log tid log ->
  Forall (fun c => is_create_message c = false) log
  /\ exists obs, last log = Some (ListRuns tid obs) /\ find_active obs = None.
Proof.
  induction 1 as [obs Hobs|obs r log Hobs Hlog (Hfree & obs' & Hlast & Hidle)].
  - split; [by repeat constructor|]. by exists obs.
  - split; [by repeat constructor|]. exists obs'. split; [|done].
    destruct log as [|c log]; [done|]. by rewrite !last_cons_cons.
Qed.

Lemma appends_app_free l l' :
  appends_after_idle_poll l -> Forall (fun c => is_create_message c = false) l' ->
  appends_after_idle_poll (l ++ l').
Proof.
  intros Hl Hl' i tid role content Hi. destruct (decide (S i < length l)).
  - rewrite lookup_app_l in Hi by lia. destruct (Hl _ _ _ _ Hi) as (obs & Ho & Hf).
    exists obs. by rewrite lookup_app_l by lia.
  - rewrite lookup_app_r in Hi by lia. by pose proof (Forall_lookup_1 _ _ _ _ Hl' Hi).
Qed.

Lemma appends_snoc_message l tid role content obs :
  appends_after_idle_poll l -> last l = Some (ListRuns tid obs) -> find_active obs = None ->
  appends_after_idle_poll (l ++ [CreateMessage tid role content]).
Proof.
  intros Hl Hlast Hidle i tid' role' content' Hi. destruct (decide (S i < length l)).
  - rewrite lookup_app_l in Hi by lia. destruct (Hl _ _ _ _ Hi) as (o & Ho & Hf).
    exists o. by rewrite lookup_app_l by lia.
  - rewrite lookup_app_r in Hi by lia. apply lookup_lt_Some in Hi as Hlt. simpl in Hlt.
    assert (Hi' : S i = length l) by lia. rewrite Hi', Nat.sub_diag in Hi.
    injection Hi as <- <- <-. exists obs. split; [|done].
    rewrite lookup_app_l by lia. rewrite last_lookup in Hlast. by replace i with (pred (length l)) by lia.
Qed.

Lemma serial_ext w w' l' :
  serial w -> w_calls w' = w_calls w ++ l' ->
  Forall (fun c => is_create_message c = false) l' -> serial w'.
Proof. unfold serial. intros Hs -> Hf. by apply appends_app_free. Qed.

Lemma preserves_modify_calls (f : world -> world) :
  (forall w, exists l', w_calls (f w) = w_calls w ++ l'
                        /\ Forall (fun c => is_create_message c = false) l') ->
  preserves serial (modify f).
Proof. intros Hf w Hw. destruct (Hf w) as (l' & Hc & Hl'). by eapply serial_ext. Qed.

Lemma preserves_log_call c : is_create_message c = false -> preserves serial (log_call c).
Proof. intros Hc. apply preserves_modify_calls. intros w. exists [c]. by split; [|constructor]. Qed.

Lemma preserves_show u : preserves serial (show u).
Proof. apply preserves_modify_calls. intros w. exists []. by rewrite app_nil_r. Qed.

Lemma preserves_set_threads ts : preserves serial (set_threads ts).
Proof. apply preserves_modify_calls. intros w. exists []. by rewrite app_nil_r. Qed.

Lemma preserves_thread_of tid : preserves serial (thread_of tid).
Proof. unfold thread_of. solve_preserves. Qed.

Lemma preserves_update_thread tid t : preserves serial (update_thread tid t).
Proof. unfold update_thread. solve_preserves. Qed.

Hint Resolve preserves_log_call preserves_show preserves_set_threads
  preserves_thread_of preserves_update_thread : pa.
Hint Extern 1 (is_create_message _ = false) => reflexivity : pa.

Lemma preserves_runs_list tid : preserves serial (runs_list tid).
Proof. unfold runs_list. solve_preserves. Qed.

Lemma preserves_sleep1 : preserves serial sleep1.
Proof. unfold sleep1. solve_preserves. Qed.

Lemma preserves_runs_stream tid aid p h : preserves serial (runs_stream tid aid p h).
Proof. unfold runs_stream. solve_preserves. Qed.

Hint Resolve preserves_runs_list preserves_sleep1 preserves_runs_stream : pa.

Lemma preserves_wait_idle fuel tid : preserves serial (wait_idle fuel tid).
Proof. induction fuel; rewrite wait_idle_eq; solve_preserves. Qed.

Lemma add_message_serial fuel tid content role :
  preserves serial (add_message_to_thread fuel tid content role).
Proof.
  intros w Hw. unfold add_message_to_thread, bind at 1.
  destruct (wait_idle fuel tid w) as [[] w1|e w1|w1] eqn:E;
    try (pose proof (preserves_wait_idle fuel tid w Hw) as Hp; by rewrite E in Hp).
  destruct (wait_idle_done _ _ _ _ E) as ((t & Ht & _) & (log & Hlog & Hcalls) & _).
  destruct (poll_log_shape _ _ Hlog) as (Hfree & obs & Hlast & Hidle).
  rewrite (messages_create_ok _ _ _ _ _ Ht). unfold serial. simpl. rewrite Hcalls.
  eapply appends_snoc_message; [by apply appends_app_free| |done].
  by rewrite last_app, Hlast.
Qed.

Lemma create_thread_eq w :
  create_thread w = Done (length (w_threads w))
    (mk_world (w_threads w ++ [empty_thread]) (w_assistants w)
              (w_calls w ++ [CreateThread]) (w_ui w)).
Proof. reflexivity. Qed.

Lemma create_assistant_eq w :
  create_assistant w = Done (w_assistants w)
    (mk_world (w_threads w) (S (w_assistants w))
              (w_calls w ++ [CreateAssistant "Research Assistant" assistant_instructions "gpt-4o-mini"])
              (w_ui w)).
Proof. reflexivity. Qed.

(** Once the polling loop returns, the message is appended. *)
Lemma add_message_after_wait fuel tid content role w w1 :
  wait_idle fuel tid w = Done tt w1 ->
  exists t, w_threads w1 !! tid = Some t /\ find_active (th_runs t) = None
    /\ add_message_to_thread fuel tid content role w
       = Done (mk_message role content)
           (mk_world (<[tid := mk_thread (th_messages t ++ [mk_message role content]) (th_runs t)]>
                        (w_threads w1))
                     (w_assistants w1) (w_calls w1 ++ [CreateMessage tid role content]) (w_ui w1)).
Proof.
  intros Hw. destruct (wait_idle_done _ _ _ _ Hw) as ((t & Ht & Hidle) & _).
  exists t. split; [done|]. split; [done|].
  unfold add_message_to_thread. rewrite (bind_Done _ _ _ _ _ Hw). by apply messages_create_ok.
Qed.

(** When [add_message_to_thread] returns, the thread's runs are idle. *)
Lemma add_message_idle fuel tid content role w m w' :
  add_message_to_thread fuel tid content role w = Done m w' ->
  exists t, w_threads w' !! tid = Some t /\ find_active (th_runs t) = None.
Proof.
  unfold add_message_to_thread. intros Hrun.
  destruct (wait_idle fuel tid w) as [[] w1|e w1|w1] eqn:Hw;
    [|by rewrite (bind_Raised _ _ _ _ _ Hw) in Hrun|by rewrite (bind_Diverged _ _ _ _ Hw) in Hrun].
  destruct (add_message_after_wait fuel tid content role _ _ Hw) as (t & Ht & Hidle & Hadd).
  unfold add_message_to_thread in Hadd. rewrite Hadd in Hrun. injection Hrun as <- <-.
  eexists. cbn [w_threads]. rewrite list_lookup_insert_eq by (by eapply lookup_lt_Some). done.
Qed.

(** One turn: [add_message_to_thread(tid, content)] followed by a
    stream into a fresh handler.  The calls are a polling log, the
    message creation and the stream, and the handler's text is the
    concatenated deltas the server streams for a history that ends
    with the message. *)
Lemma turn_stream_ok fuel tid aid p content ph w h w' :
  (add_message_to_thread fuel tid content "user" ;;
   runs_stream tid aid p (EventHandler.init ph)) w = Done h w' ->
  exists log, turn_result tid aid p content (EventHandler.text_accumulated h) log
              /\ w_calls w' = w_calls w ++ log.
Proof.
  intros Hturn. apply bind_Done_inv in Hturn as (m & w1 & Hadd & Hs).
  unfold add_message_to_thread in Hadd. apply bind_Done_inv in Hadd as ([] & w0 & Hw & Hmc).
  destruct (wait_idle_done _ _ _ _ Hw) as ((t & Ht & _) & (poll & Hpoll & Hcalls) & _).
  rewrite (messages_create_ok _ _ _ _ _ Ht) in Hmc. injection Hmc as <- <-.
  rewrite (runs_stream_ok _ _ _ _ _ (mk_thread (th_messages t ++ [mk_message "user" content]) (th_runs t))) in Hs
    by (cbn [w_threads]; rewrite list_lookup_insert_eq by (by eapply lookup_lt_Some); done).
  cbn [th_messages th_runs] in Hs.
  destruct (srv_reply _ _) as [evs st] eqn:Er. injection Hs as <- <-. eexists. split.
  - exists poll, (th_messages t ++ [mk_message "user" content]), evs, st.
    split_and!; [done|by rewrite last_snoc|done| |done].
    by destruct (EventHandler.drain_general (EventHandler.init ph) evs
                   (EventHandler.wf_init ph)) as (-> & _).
  - cbn [w_calls]. rewrite Hcalls, <- !app_assoc. done.
Qed.

(** The same for [add_message_to_thread] followed by [run_assistant]. *)
Lemma turn_ok fuel tid aid content task ph w r w' :
  (add_message_to_thread fuel tid content "user" ;; run_assistant tid aid task ph) w = Done r w' ->
  exists log, turn_result tid aid (mk_params (Some "gpt-4o-mini") (Some "0.3")) content r log
              /\ w_calls w' = w_calls w ++ log.
Proof.
  unfold run_assistant. rewrite <- bind_assoc. intros Hturn.
  apply bind_Done_inv in Hturn as (h & w1 & Hs & Hret). unfold ret in Hret.
  injection Hret as <- <-. by apply turn_stream_ok in Hs.
Qed.

(** ** Properties of the sequencer *)

(** C2: when [add_message_to_thread] returns, the message is the last
    one of the thread, no run of the thread is queued or in progress,
    and the calls it made are a polling log (busy listings each
    followed by a one-second sleep, then an idle listing) followed by
    the message creation. *)
Theorem add_message_appends_when_idle fuel tid content role w m w' :
  add_message_to_thread fuel tid content role w = Done m w' ->
  m = mk_message role content
  /\ (exists t, w_threads w' !! tid = Some t /\ find_active (th_runs t) = None
                /\ last (th_messages t) = Some m)
  /\ (exists log, poll_log tid log
                  /\ w_calls w' = w_calls w ++ log ++ [CreateMessage tid role content]).
Proof.
  unfold add_message_to_thread. intros Hrun.
  destruct (wait_idle fuel tid w) as [[] w1|e w1|w1] eqn:Hw;
    [|by rewrite (bind_Raised _ _ _ _ _ Hw) in Hrun|by rewrite (bind_Diverged _ _ _ _ Hw) in Hrun].
  rewrite (bind_Done _ _ _ _ _ Hw) in Hrun.
  destruct (wait_idle_done _ _ _ _ Hw) as ((t & Ht & Hidle) & (log & Hlog & Hcalls) & _).
  rewrite (messages_create_ok _ _ _ _ _ Ht) in Hrun. injection Hrun as <- <-.
  split; [done|]. split.
  - eexists. cbn [w_threads]. rewrite list_lookup_insert_eq by (by eapply lookup_lt_Some).
    split; [done|]. split; [exact Hidle|]. cbn [th_messages]. by rewrite last_snoc.
  - exists log. split; [done|]. simpl. by rewrite Hcalls, <- app_assoc.
Qed.

(** C9: the polling loop terminates once the server has brought the
    thread's runs to rest: if after [n] seconds no run of the thread is
    queued or in progress, a fuel of [n] sleeps is enough for
    [add_message_to_thread] to append the message. *)
Theorem add_message_terminates n fuel tid content role w t :
  w_threads w !! tid = Some t ->
  find_active (Nat.iter n srv_tick (th_runs t)) = None -> n <= fuel ->
  exists w', add_message_to_thread fuel tid content role w = Done (mk_message role content) w'.
Proof.
  intros Ht Hn Hle. destruct (wait_idle_terminates n fuel tid w t Ht Hn Hle) as [w1 Hw].
  destruct (add_message_after_wait fuel tid content role _ _ Hw) as (t1 & Ht1 & Hi1 & Hadd). rewrite Hadd. by eexists.
Qed.

(** C10: the wait has no upper bound: if the server never lets an
    active run of the thread finish, [add_message_to_thread] never
    appends, whatever the number of sleeps allowed. *)
Theorem add_message_blocks_forever fuel tid content role w t :
  w_threads w !! tid = Some t -> find_active (th_runs t) <> None ->
  (forall rs, find_active rs <> None -> find_active (srv_tick rs) <> None) ->
  exists w', add_message_to_thread fuel tid content role w = Diverged w'.
Proof.
  intros Ht Hact Hstuck. destruct (wait_idle_diverges fuel tid w t Ht Hact Hstuck) as [w1 Hw].
  unfold add_message_to_thread. rewrite (bind_Diverged _ _ _ _ Hw). by eexists.
Qed.

(** C1: turn serialisation as an invariant of the call log: every
    operation of the sequencer keeps the property that each message
    creation comes right after a listing of the same thread in which
    no run was queued or in progress, whatever it returns. *)
Theorem sequencer_preserves_serial fuel tid aid content role task placeholder :
  preserves serial (add_message_to_thread fuel tid content role)
  /\ preserves serial (run_assistant tid aid task placeholder)
  /\ preserves serial create_thread
  /\ preserves serial create_assistant.
Proof.
  split; [apply add_message_serial|]. split; [unfold run_assistant; solve_preserves|].
  split; intros w Hw; [rewrite create_thread_eq | rewrite create_assistant_eq];
    eapply serial_ext; eauto; repeat constructor.
Qed.

(** C16: a turn leaves its thread idle.  On a server that keeps its
    contract (a stream ends only once its run is over), after
    [add_message_to_thread] and [run_assistant] the next
    [add_message_to_thread] appends at once, without sleeping. *)
Theorem turn_leaves_thread_idle `{!AssistantServerLaws} fuel tid aid content content' task
    placeholder w m w1 s w2 :
  add_message_to_thread fuel tid content "user" w = Done m w1 ->
  run_assistant tid aid task placeholder w1 = Done s w2 ->
  exists w3, add_message_to_thread 0 tid content' "user" w2 = Done (mk_message "user" content') w3.
Proof.
  intros Hadd Hrun.
  destruct (add_message_idle _ _ _ _ _ _ _ Hadd) as (t & Ht & Hidle).
  pose proof (runs_stream_ok tid aid (mk_params (Some "gpt-4o-mini") (Some "0.3"))
                (EventHandler.init placeholder) w1 t Ht) as Hs.
  pose proof (srv_reply_final (mk_params (Some "gpt-4o-mini") (Some "0.3")) (th_messages t)) as Hfin.
  destruct (srv_reply _ (th_messages t)) as [evs st]. simpl in Hfin.
  unfold run_assistant in Hrun. rewrite (bind_Done _ _ _ _ _ Hs) in Hrun.
  unfold ret in Hrun. injection Hrun as _ <-.
  match goal with |- exists _, add_message_to_thread _ _ _ _ ?W = _ =>
    edestruct (wait_idle_terminates 0 0 tid W) as [w3 Hw3]; [|simpl|lia|] end.
  - cbn [w_threads]. rewrite list_lookup_insert_eq by (by eapply lookup_lt_Some). done.
  - simpl. by rewrite Hfin.
  - destruct (add_message_after_wait 0 tid content' "user" _ _ Hw3) as (t1 & Ht1 & Hi1 & Ha).
    rewrite Ha. by eexists.
Qed.

End Sequencer.

(** ** Termination of the polling loop on a server whose runs settle *)

Section Settling.
Context `{AssistantServer} `{!AssistantServerSettles}.

(** With at least [srv_settle_time] sleeps of fuel, the polling loop
    returns, or raises when the thread does not exist. *)
Lemma wait_idle_total fuel tid : srv_settle_time <= fuel -> terminates (wait_idle fuel tid).
Proof.
  intros Hle w. destruct (w_threads w !! tid) as [t|] eqn:Ht.
  - by destruct (wait_idle_terminates srv_settle_time fuel tid w t Ht (srv_settles _) Hle) as [w' ->].
  - by rewrite wait_idle_eq, (bind_Raised _ _ _ _ _ (runs_list_missing _ _ Ht)).
Qed.
End Settling.

#[export] Hint Resolve preserves_log_call preserves_show preserves_set_threads preserves_thread_of
  preserves_update_thread preserves_runs_list preserves_sleep1 preserves_runs_stream
  preserves_wait_idle add_message_serial : pa.
#[export] Hint Extern 1 (is_create_message _ = false) => reflexivity : pa.

Lemma add_message_appends_when_idle_witness :
  exists m w',
    @add_message_to_thread demo_server 1 0 "q" "user" demo_world = Done m w' /\
    (m = mk_message "user" "q"
     /\ (exists t, w_threads w' !! 0 = Some t /\ find_active (th_runs t) = None
                   /\ last (th_messages t) = Some m)
     /\ (exists log, poll_log 0 log
                     /\ w_calls w' = w_calls demo_world ++ log ++ [CreateMessage 0 "user" "q"])).
Proof.
  eexists _, _. split; [cbv; reflexivity|].
  apply (@add_message_appends_when_idle demo_server 1 0 "q" "user" demo_world). reflexivity.
Defined.

Lemma add_message_terminates_witness :
  w_threads demo_world !! 0 = Some demo_thread /\
  find_active (Nat.iter 1 (@srv_tick demo_server) (th_runs demo_thread)) = None /\ 1 <= 1 /\
  exists w', @add_message_to_thread demo_server 1 0 "q" "user" demo_world
             = Done (mk_message "user" "q") w'.
Proof.
  split; [reflexivity|]. split; [reflexivity|]. split; [lia|].
  apply (@add_message_terminates demo_server 1 1 0 "q" "user" demo_world demo_thread);
    [reflexivity|reflexivity|lia].
Defined.

Lemma add_message_blocks_forever_witness :
  w_threads demo_world !! 0 = Some demo_thread /\
  find_active (th_runs demo_thread) <> None /\
  (forall rs, find_active rs <> None -> find_active (@srv_tick stuck_server rs) <> None) /\
  exists w', @add_message_to_thread stuck_server 100 0 "q" "user" demo_world = Diverged w'.
Proof.
  split; [reflexivity|]. split; [discriminate|]. split; [intros rs Hrs; exact Hrs|].
  apply (@add_message_blocks_forever stuck_server 100 0 "q" "user" demo_world demo_thread);
    [reflexivity|discriminate|intros rs Hrs; exact Hrs].
Defined.

#[export] Instance demo_server_laws : @AssistantServerLaws demo_server.
Proof. by constructor. Qed.

Lemma demo_server_settles_in_2 rs : find_active (Nat.iter 2 (@srv_tick demo_server) rs) = None.
Proof. induction rs as [|r rs IH]; [done|]. simpl in *. by destruct r. Qed.

(** On [demo_server] every run settles within two seconds. *)
#[export] Instance demo_server_settles : @AssistantServerSettles demo_server :=
  {| srv_settle_time := 2; srv_settles := demo_server_settles_in_2 |}.

Lemma turn_leaves_thread_idle_witness :
  exists m w1 s w2,
    @add_message_to_thread demo_server 1 0 "q" "user" demo_world = Done m w1 /\
    @run_assistant demo_server 0 0 "q" false w1 = Done s w2 /\
    exists w3, @add_message_to_thread demo_server 0 0 "q2" "user" w2
               = Done (mk_message "user" "q2") w3.
Proof.
  eexists _, _, _, _. split; [cbv; reflexivity|]. split; [cbv; reflexivity|].
  eapply (@turn_leaves_thread_idle demo_server demo_server_laws 1 0 0 "q" "q2" "q" false demo_world);
    cbv; reflexivity.
Defined.
