(* ===== verification/Context.v ===== *)
(** * Context: assembling and ranking the article context

    - [build_context] is the main script's context expression (lines
      644-648): the eligible articles (non-empty title, abstract and
      author list) each formatted as a four-line block, joined by blank
      lines, or a fixed sentence when there is none.
    - [safe_sort_key] (lines 387-398) reads the year of a block: the text
      after the first ["Published: "] up to the next newline, kept when
      it is all digits and replaced by ["0"] otherwise.
    - [py_sorted_rev] is [sorted(..., key=..., reverse=True)] (line 401):
      Python's sort is stable, and [reverse=True] keeps equal keys in
      their original order.  It is written here as an insertion sort;
      [sorted_rev_spec] is the documented contract of [sorted] and the
      theorems show the insertion sort is the one list meeting it.
    - [sort_context] is the ranking step of [generate_prompt] (lines
      385-404): split the context on blank lines, sort the pieces by
      [safe_sort_key], join them again. *)

From S2P Require Import Prelude PyStr Api.

(** ** Context assembly (main script, lines 644-648) *)

Definition sentinel_context : string :=
  "No specific articles found. Please provide a general response based on your knowledge.".

(** Truthiness of a value that is a [str] or [None]. *)
Definition py_truthy_opt (o : option string) : bool :=
  match o with Some s => py_truthy s | None => false end.

(** [article['title'] and article['abstract'] and article['authors']]. *)
Definition eligible (a : article) : bool :=
  py_truthy_opt (a_title a) && py_truthy_opt (a_abstract a)
  && negb (bool_decide (a_authors a = [])).

(** [f"Title: {title}\nAuthors: {', '.join(authors)}\nPublished:
    {published}\nAbstract: {abstract}"]. *)
Definition format_article (a : article) : string :=
  "Title: " +:+ py_fmt_opt (a_title a) +:+ nl
  +:+ "Authors: " +:+ py_join ", " (a_authors a) +:+ nl
  +:+ "Published: " +:+ py_fmt_opt (a_published a) +:+ nl
  +:+ "Abstract: " +:+ py_fmt_opt (a_abstract a).

Definition blank_line : string := nl +:+ nl.

(** [context = "\n\n".join(... if eligible) or "No specific ..."]. *)
Definition build_context (arts : list article) : string :=
  let s := py_join blank_line (map format_article (filter (fun a => eligible a = true) arts)) in
  if py_truthy s then s else sentinel_context.

(** ** The year key (lines 387-398) *)

Definition safe_sort_key (article : string) : string :=
  match py_split "Published: " article with
  | _ :: part1 :: _ =>
      let date_part := hd "" (py_split nl part1) in
      if py_isdigit date_part then date_part else "0"
  | _ => "0"
  end.

(** The key the code means to compute for an article: its year when
    that is all digits, else ["0"]. *)
Definition year_key (a : article) : string :=
  let p := py_fmt_opt (a_published a) in
  if py_isdigit p then p else "0".

(** When a block's key is the article's year: ["Published: "] occurs
    neither in the title/authors lines nor in the year, and the year has
    no newline. *)
Definition key_clean (a : article) : bool :=
  negb (py_contains "Published: "
          ("Title: " +:+ py_fmt_opt (a_title a) +:+ nl +:+ "Authors: " +:+ py_join ", " (a_authors a)))
  && negb (py_contains "Published: " (py_fmt_opt (a_published a)))
  && negb (py_contains nl (py_fmt_opt (a_published a))).

(** When a block survives the split on blank lines: it contains no
    blank line and does not end with a newline. *)
Definition block_clean (a : article) : bool :=
  negb (py_contains blank_line (format_article a +:+ nl)).

(** ** [sorted(l, key=key, reverse=True)] *)

Section SortedRev.
Context {A : Type} (key : A -> string).

(** Insert [x], which comes before every element of [l] in the input,
    in front of the first element whose key is not greater. *)
Fixpoint insert_desc (x : A) (l : list A) : list A :=
  match l with
  | [] => [x]
  | y :: l' => if String.ltb (key x) (key y) then y :: insert_desc x l' else x :: y :: l'
  end.

Definition py_sorted_rev (l : list A) : list A := foldr insert_desc [] l.

(** Descending order of keys, as Python compares [str]s. *)
Definition desc_by (x y : A) : Prop := String.le (key y) (key x).

(** The contract of [sorted(l, key=key, reverse=True)]: a permutation
    of [l], in descending key order, keeping the input order among
    equal keys. *)
Definition sorted_rev_spec (l r : list A) : Prop :=
  r ≡ₚ l /\ Sorted desc_by r
  /\ forall k, filter (fun x => key x = k) r = filter (fun x => key x = k) l.
End SortedRev.

(** ** The ranking step of [generate_prompt] (lines 385-404) *)

Definition sort_context (context : string) : string :=
  py_join blank_line (py_sorted_rev safe_sort_key (py_split blank_line context)).

(** ** Articles used by the witnesses *)

Definition sample_article (title year : string) (abstract : string) : article :=
  mk_article (Some title) (Some abstract) (Some "1") (Some year) ["Smith John"] "PubMed"
             "https://pubmed.ncbi.nlm.nih.gov/1/".

(** The scenario of the spec: years 2020 and 2023, a non-numeric year,
    and a year element without text. *)
Definition spec_articles : list article :=
  [sample_article "A" "2020" "Abs."; sample_article "B" "2023" "Abs.";
   sample_article "C" "N/A" "Abs.";
   mk_article (Some "D") (Some "Abs.") (Some "4") None ["Doe Jane"] "PubMed"
              "https://pubmed.ncbi.nlm.nih.gov/4/"].

(** ** The stable descending sort meets the contract of [sorted] *)

Section SortedRevProofs.
Context {A : Type} (key : A -> string).

#[local] Instance desc_by_trans : Transitive (desc_by key).
Proof. intros x y z Hxy Hyz. unfold desc_by in *. by trans (key y). Qed.

Lemma ltb_desc (a b : string) : String.ltb a b = true -> String.le a b.
Proof.
  unfold String.ltb, String.le, String.leb. by destruct (String.compare a b).
Qed.

Lemma not_ltb_desc (a b : string) : String.ltb a b = false -> String.le b a.
Proof.
  unfold String.ltb, String.le, String.leb. rewrite String.compare_antisym.
  by destruct (String.compare b a).
Qed.

Lemma str_compare_refl (s : string) : String.compare s s = Eq.
Proof.
  induction s as [|c s IH]; [done|]. simpl.
  unfold Ascii.compare. by rewrite N.compare_refl.
Qed.

Lemma ltb_neq (a b : string) : String.ltb a b = true -> a <> b.
Proof. intros H ->. unfold String.ltb in H. by rewrite str_compare_refl in H. Qed.

Lemma insert_desc_perm x l : insert_desc key x l ≡ₚ x :: l.
Proof.
  induction l as [|y l IH]; simpl; [done|].
  destruct (String.ltb (key x) (key y)); [|done].
  rewrite IH. by constructor.
Qed.

Lemma insert_desc_hd x y l :
  desc_by key y x -> HdRel (desc_by key) y l -> HdRel (desc_by key) y (insert_desc key x l).
Proof.
  intros Hyx Hl. destruct l as [|z l]; simpl; [by constructor|].
  destruct (String.ltb (key x) (key z)); constructor; [by inversion Hl|done].
Qed.

Lemma insert_desc_sorted x l : Sorted (desc_by key) l -> Sorted (desc_by key) (insert_desc key x l).
Proof.
  induction 1 as [|y l Hl IH Hhd]; simpl; [by repeat constructor|].
  destruct (String.ltb (key x) (key y)) eqn:E.
  - constructor; [done|]. apply insert_desc_hd; [by apply ltb_desc|done].
  - constructor; [by constructor|]. constructor. by apply not_ltb_desc.
Qed.

Lemma insert_desc_filter k x l :
  filter (fun z => key z = k) (insert_desc key x l) = filter (fun z => key z = k) (x :: l).
Proof.
  induction l as [|y l IH]; simpl; [done|].
  destruct (String.ltb (key x) (key y)) eqn:E; [|done].
  rewrite filter_cons, IH, !filter_cons.
  apply ltb_neq in E. repeat case_decide; congruence.
Qed.

Lemma py_sorted_rev_spec l : sorted_rev_spec key l (py_sorted_rev key l).
Proof.
  induction l as [|x l (Hp & Hs & Hf)]; simpl.
  - split; [done|]. split; [constructor|done].
  - split; [by rewrite insert_desc_perm, Hp|]. split; [by apply insert_desc_sorted|].
    intros k. by rewrite insert_desc_filter, !filter_cons, Hf.
Qed.

(** Two lists in descending key order with the same elements and the
    same order among equal keys are equal. *)
Lemma sorted_rev_unique_aux r1 r2 :
  r1 ≡ₚ r2 -> Sorted (desc_by key) r1 -> Sorted (desc_by key) r2 ->
  (forall k, filter (fun x => key x = k) r1 = filter (fun x => key x = k) r2) ->
  r1 = r2.
Proof.
  revert r2. induction r1 as [|a r1 IH]; intros r2 Hp Hs1 Hs2 Hf.
  - by apply Permutation_nil in Hp.
  - destruct r2 as [|b r2]; [by symmetry in Hp; apply Permutation_nil_cons in Hp|].
    apply Sorted_StronglySorted in Hs1, Hs2; [|apply _|apply _].
    apply StronglySorted_inv in Hs1 as [Hs1 Ha], Hs2 as [Hs2 Hb].
    assert (Hab : key a = key b).
    { apply (anti_symm String.le).
      - assert (Ha' : a ∈ b :: r2) by (rewrite <- Hp; left).
        apply elem_of_cons in Ha' as [->|Ha']; [done|].
        rewrite Forall_forall in Hb. by apply Hb.
      - assert (Hb' : b ∈ a :: r1) by (rewrite Hp; left).
        apply elem_of_cons in Hb' as [->|Hb']; [done|].
        rewrite Forall_forall in Ha. by apply Ha. }
    pose proof (Hf (key a)) as Hk. rewrite !filter_cons in Hk.
    repeat case_decide; try congruence. injection Hk as <- Hk. f_equal.
    apply IH; [by eapply Permutation_cons_inv| by apply StronglySorted_Sorted
              | by apply StronglySorted_Sorted |].
    intros k. specialize (Hf k). rewrite !filter_cons in Hf. by case_decide; [injection Hf|].
Qed.
End SortedRevProofs.

(** ** Properties of the ranking *)

(** C5: refinement of Python's [sorted(..., reverse=True)]: a list
    meets the contract of a stable descending sort of [l] (a permutation
    of [l], keys descending, input order kept among equal keys) exactly
    when it is [py_sorted_rev key l]. *)
Theorem sorted_rev_refines_spec {A} (key : A -> string) (l r : list A) :
  sorted_rev_spec key l r <-> r = py_sorted_rev key l.
Proof.
  split; [|intros ->; apply py_sorted_rev_spec].
  intros (Hp & Hs & Hf). destruct (py_sorted_rev_spec key l) as (Hp' & Hs' & Hf').
  apply sorted_rev_unique_aux with key; [by rewrite Hp, Hp'|done|done|].
  intros k. by rewrite Hf, Hf'.
Qed.

Lemma format_article_eq a :
  format_article a =
    ("Title: " +:+ py_fmt_opt (a_title a) +:+ nl +:+ "Authors: " +:+ py_join ", " (a_authors a))
    +:+ String "010" ("Published: " +:+ py_fmt_opt (a_published a)
                       +:+ String "010" ("Abstract: " +:+ py_fmt_opt (a_abstract a))).
Proof. unfold format_article, nl. by autorewrite with pystr. Qed.

(** [safe_sort_key] reads the first line after the first occurrence of
    ["Published: "]: when no occurrence starts inside [x], the key of
    [x ++ "Published: " ++ p ++ "\n" ++ z] is [p] if that is all digits,
    else ["0"]. *)
Lemma safe_sort_key_at x p z :
  sep_starts_in "Published: " x ("Published: " +:+ p +:+ String "010" z) = false ->
  py_contains "Published: " p = false -> py_contains nl p = false ->
  safe_sort_key (x +:+ "Published: " +:+ p +:+ String "010" z) = if py_isdigit p then p else "0".
Proof.
  intros Hx Hp Hnl. unfold safe_sort_key.
  rewrite py_split_cons, (proj2 (py_split_first _ _ _ Hx)), py_split_sep_head by done.
  rewrite (py_split_cons _ (p +:+ _)).
  rewrite (proj1 (py_split_first _ _ _ (sep_starts_in_stop "Published: " p "010"%char _ eq_refl Hp))).
  change (String "010" z) with (String "010" EmptyString +:+ z).
  rewrite (proj1 (py_split_first "Published: " (String "010" EmptyString) z eq_refl)).
  assert (Hn : forall w, sep_starts_in nl p w = false) by (intros w; unfold nl in *; by rewrite sep_starts_in_char).
  cbn [tail]. rewrite (proj1 (py_split_first nl _ _ (Hn _))).
  change (String "010" EmptyString) with nl.
  rewrite py_split_sep_head by done. simpl hd. by rewrite str_app_nil_r.
Qed.

(** On a block built from an article whose title/authors lines and
    year do not contain ["Published: "] and whose year has no newline,
    [safe_sort_key] reads exactly the article's year, or ["0"] when the
    year is not all digits. *)
Lemma safe_sort_key_format a :
  key_clean a = true -> safe_sort_key (format_article a) = year_key a.
Proof.
  unfold key_clean. intros [[H1 H2]%andb_true_iff H3]%andb_true_iff.
  apply negb_true_iff in H1, H2, H3.
  rewrite format_article_eq. change (String "010" ?R) with (nl +:+ R) at 1.
  rewrite <- str_app_assoc. apply safe_sort_key_at; [|done|done].
  rewrite sep_starts_in_app. apply orb_false_iff.
  split; [exact (sep_starts_in_stop "Published: " _ "010"%char _ eq_refl H1)|reflexivity].
Qed.

Lemma insert_desc_map {A B} (k1 : B -> string) (k2 : A -> string) (f : A -> B) x m :
  (forall y, y ∈ x :: m -> k1 (f y) = k2 y) ->
  insert_desc k1 (f x) (map f m) = map f (insert_desc k2 x m).
Proof.
  induction m as [|y m IH]; intros Hk; [done|]. simpl.
  rewrite (Hk x), (Hk y) by set_solver.
  destruct (String.ltb (k2 x) (k2 y)); [|done]. simpl. f_equal. apply IH. set_solver.
Qed.

Lemma sorted_rev_map {A B} (k1 : B -> string) (k2 : A -> string) (f : A -> B) l :
  (forall x, x ∈ l -> k1 (f x) = k2 x) ->
  py_sorted_rev k1 (map f l) = map f (py_sorted_rev k2 l).
Proof.
  induction l as [|x l IH]; intros Hk; [done|]. simpl. rewrite IH by set_solver.
  apply insert_desc_map. intros y Hy.
  destruct (py_sorted_rev_spec k2 l) as (Hp & _). apply Hk.
  apply elem_of_cons in Hy as [->|Hy]; [set_solver|]. rewrite Hp in Hy. set_solver.
Qed.

Lemma build_context_eq arts :
  build_context arts =
    match filter (fun a => eligible a = true) arts with
    | [] => sentinel_context
    | l => py_join blank_line (map format_article l)
    end.
Proof.
  unfold build_context. destruct (filter _ arts) as [|a [|b l]]; reflexivity.
Qed.

(** C6: ranking of the context.  When every eligible article gives a
    clean block (no blank line inside or newline at the end, no
    ["Published: "] before its year, a one-line year), the ranking step
    of [generate_prompt] turns the assembled context into the blocks of
    the eligible articles stably sorted by descending year key: the
    split on blank lines recovers the blocks, and each block's key is its
    article's year, or ["0"] when that is not all digits. *)
Theorem sort_context_build arts :
  Forall (fun a => key_clean a = true /\ block_clean a = true)
         (filter (fun a => eligible a = true) arts) ->
  filter (fun a => eligible a = true) arts <> [] ->
  sort_context (build_context arts)
  = py_join blank_line (map format_article
                          (py_sorted_rev year_key (filter (fun a => eligible a = true) arts))).
Proof.
  intros Hclean Hne. rewrite build_context_eq.
  destruct (filter _ arts) as [|a l] eqn:E; [done|]. rewrite <- E in *. clear E.
  unfold sort_context. rewrite py_split_join.
  - f_equal. apply sorted_rev_map. intros x Hx.
    apply safe_sort_key_format. by eapply Forall_forall in Hclean as [? ?].
  - done.
  - by destruct (filter _ arts).
  - apply Forall_fmap, (Forall_impl _ _ _ Hclean). intros b [_ Hb].
    by apply negb_true_iff in Hb.
Qed.

Lemma sort_context_build_witness :
  Forall (fun a => key_clean a = true /\ block_clean a = true)
         (filter (fun a => eligible a = true) spec_articles) /\
  filter (fun a => eligible a = true) spec_articles <> [] /\
  sort_context (build_context spec_articles)
  = py_join blank_line (map format_article
                          (py_sorted_rev year_key (filter (fun a => eligible a = true) spec_articles))).
Proof.
  split; [vm_compute; repeat constructor|]. split; [vm_compute; discriminate|].
  apply sort_context_build; [vm_compute; repeat constructor | vm_compute; discriminate].
Defined.

(** The spec's scenario: the context ranks the 2023 article, then
    the 2020 one, then the article with year "N/A" and the one whose year
    element has no text (rendered "None"), both keyed "0", in input
    order. *)
Example spec_scenario_order :
  map safe_sort_key (py_split blank_line (sort_context (build_context spec_articles)))
  = ["2023"; "2020"; "0"; "0"]
  /\ map a_title (py_sorted_rev year_key (filter (fun a => eligible a = true) spec_articles))
     = [Some "B"; Some "A"; Some "C"; Some "D"].
Proof. split; vm_compute; reflexivity. Qed.

(** The year keys are compared as strings, not as numbers: a
    three-digit year ranks above a four-digit one, so "newest first"
    holds only among years with the same number of digits. *)
Example year_keys_compare_as_strings :
  map safe_sort_key
      (py_split blank_line
         (sort_context (build_context [sample_article "A" "2023" "Abs."; sample_article "B" "999" "Abs."])))
  = ["999"; "2023"].
Proof. vm_compute. reflexivity. Qed.

(** The lines of a block before the abstract's text. *)
Definition format_head (a : article) : string :=
  "Title: " +:+ py_fmt_opt (a_title a) +:+ nl
  +:+ "Authors: " +:+ py_join ", " (a_authors a) +:+ nl
  +:+ "Published: " +:+ py_fmt_opt (a_published a) +:+ nl
  +:+ "Abstract: ".

(** What the context holds after the first eligible article. *)
Definition context_tail (rest : list article) : string :=
  match filter (fun a => eligible a = true) rest with
  | [] => ""
  | l => blank_line +:+ py_join blank_line (map format_article l)
  end.

Lemma format_article_head a : format_article a = format_head a +:+ py_fmt_opt (a_abstract a).
Proof. unfold format_article, format_head. by autorewrite with pystr. Qed.

(** C30: a blank line inside an abstract cuts its block.  When the first
    article of the context is eligible and its abstract is
    [a1 ++ "\n\n" ++ a2], with no blank line in its block before that
    one, the split of [generate_prompt] yields the block cut after [a1]
    as the first block and makes [a2] the start of the next one: the
    rest of the abstract is ranked apart from its article. *)
Theorem abstract_blank_line_cuts_block a a1 a2 rest :
  eligible a = true -> a_abstract a = Some (a1 +:+ blank_line +:+ a2) ->
  py_contains blank_line (format_head a +:+ a1 +:+ nl) = false ->
  py_split blank_line (build_context (a :: rest))
  = (format_head a +:+ a1) :: py_split blank_line (a2 +:+ context_tail rest).
Proof.
  intros He Ha Hc. rewrite build_context_eq, filter_cons_True by done.
  assert (Hj : py_join blank_line (map format_article (a :: filter (fun a => eligible a = true) rest))
               = format_article a +:+ context_tail rest).
  { unfold context_tail. destruct (filter _ rest) as [|b l]; simpl; [by rewrite str_app_nil_r|done]. }
  rewrite Hj, format_article_head, Ha. simpl py_fmt_opt.
  rewrite !str_app_assoc, <- (str_app_assoc (format_head a)).
  apply py_split_app_sep; [done|]. by rewrite str_app_assoc.
Qed.

(** C29: the key is read after the first ["Published: "] of a block:
    for every block [x ++ "Published: " ++ p ++ "\n" ++ z] in which [x]
    does not contain ["Published: "] and [p] contains neither it nor a
    newline, the key is [p] when that is all digits, else ["0"],
    whatever [z] holds.  So a title containing ["Published: "]
    followed by a year decides the rank instead of the article's year. *)
Theorem safe_sort_key_first_published x p z :
  py_contains "Published: " x = false -> py_contains "Published: " p = false -> py_contains nl p = false ->
  safe_sort_key (x +:+ "Published: " +:+ p +:+ nl +:+ z) = if py_isdigit p then p else "0".
Proof.
  intros Hx Hp Hnl. apply safe_sort_key_at; [|done|done].
  by apply sep_starts_in_sep.
Qed.

(** C31: whatever the block, its key is ["0"] or a non-empty string of
    digits: [safe_sort_key] never returns text that is not a year-like
    number. *)
Theorem safe_sort_key_digits (article : string) :
  safe_sort_key article = "0" \/ py_isdigit (safe_sort_key article) = true.
Proof.
  unfold safe_sort_key. destruct (py_split _ _) as [|p0 [|p1 ps]]; [by left|by left|].
  destruct (py_isdigit _) eqn:E; [by right|by left].
Qed.

Lemma safe_sort_key_first_published_witness :
  format_article (sample_article "Erratum. Published: 1999" "2023" "Abs.")
  = "Title: Erratum. " +:+ "Published: " +:+ "1999" +:+ nl
    +:+ "Authors: Smith John" +:+ nl +:+ "Published: 2023" +:+ nl +:+ "Abstract: Abs." /\
  py_contains "Published: " "Title: Erratum. " = false /\ py_contains "Published: " "1999" = false /\
  py_contains nl "1999" = false /\
  safe_sort_key ("Title: Erratum. " +:+ "Published: " +:+ "1999" +:+ nl
                 +:+ ("Authors: Smith John" +:+ nl +:+ "Published: 2023" +:+ nl +:+ "Abstract: Abs."))
  = if py_isdigit "1999" then "1999" else "0".
Proof.
  split; [reflexivity|]. split; [reflexivity|]. split; [reflexivity|]. split; [reflexivity|].
  apply safe_sort_key_first_published; reflexivity.
Defined.

Lemma abstract_blank_line_cuts_block_witness :
  eligible (sample_article "A" "2019" ("Background." +:+ blank_line +:+ "Results.")) = true /\
  a_abstract (sample_article "A" "2019" ("Background." +:+ blank_line +:+ "Results."))
    = Some ("Background." +:+ blank_line +:+ "Results.") /\
  py_contains blank_line
    (format_head (sample_article "A" "2019" ("Background." +:+ blank_line +:+ "Results."))
     +:+ "Background." +:+ nl) = false /\
  py_split blank_line
    (build_context [sample_article "A" "2019" ("Background." +:+ blank_line +:+ "Results.");
                    sample_article "B" "2023" "Abs."])
  = (format_head (sample_article "A" "2019" ("Background." +:+ blank_line +:+ "Results."))
     +:+ "Background.")
    :: py_split blank_line ("Results." +:+ context_tail [sample_article "B" "2023" "Abs."]).
Proof.
  split; [reflexivity|]. split; [reflexivity|]. split; [vm_compute; reflexivity|].
  apply abstract_blank_line_cuts_block; [reflexivity|reflexivity|vm_compute; reflexivity].
Defined.
