(* ===== verification/Ncbi.v ===== *)
(** * Ncbi: the PubMed literature lookup of [src/app.py]

    [search_ncbi] (lines 491-520) and [fetch_article_details] (522-556)
    against an [HttpServer].  [requests.get] is [http_request]: it logs
    the URL and raises [RequestException] when the server gives no
    response.  [response.json()] and [ElementTree.fromstring] raise on a
    body of the wrong kind; [.get(key, default)] raises
    [AttributeError] on a JSON value that is not an object and, as
    [json.loads] keeps the last of duplicate keys, reads the last
    binding.  [','.join(id_list)] iterates the JSON value the way
    Python iterates it (the strings of a list, the characters of a
    string, the keys of an object) and raises [TypeError] otherwise.
    The NCBI base URL is a section variable.  The theorems also bound
    the number of requests a lookup makes ([gets_at_most]) and relate
    the articles built from PubMed records to the eligibility test of
    [Context]. *)

From S2P Require Import Prelude PyStr Api Context.

(** ** An NCBI server for the witnesses *)

Definition demo_base_url : string := "https://eutils.ncbi.nlm.nih.gov/entrez/eutils/".

(** Answers every esearch with the id list ["111"] and every efetch
    with the given records. *)
Definition demo_http (recs : list pubmed_article) : HttpServer := {|
  http_get := fun url =>
    if py_contains "esearch.fcgi" url
    then Some (mk_response 200 (JsonBody (JObj [("esearchresult", JObj [("idlist", JArr [JStr "111"])])])))
    else Some (mk_response 200 (XmlBody recs))
|}.

(** A record with a title, an id, a year and one author, and no
    abstract. *)
Definition demo_record : pubmed_article :=
  mk_pubmed (Some (Some "Sleep in infants")) None (Some (Some "111")) (Some (Some "2021"))
            [mk_author (Some (Some "Smith")) (Some (Some "John"))].

(** A record whose only author has an empty [LastName] element. *)
Definition textless_record : pubmed_article :=
  mk_pubmed (Some (Some "Night waking")) (Some (Some "Abs.")) (Some (Some "222")) (Some (Some "2019"))
            [mk_author (Some None) (Some (Some "Ann"))].

(** A server that answers every request with [status] and an empty body. *)
Definition demo_http_status (status : Z) : HttpServer := {|
  http_get := fun _ => Some (mk_response status (OtherBody ""))
|}.

(** A server that cannot be reached for esearch and answers efetch
    with [status]. *)
Definition demo_http_down (status : Z) : HttpServer := {|
  http_get := fun url =>
    if py_contains "esearch.fcgi" url then None else Some (mk_response status (OtherBody ""))
|}.

Definition empty_world : world := mk_world [] 0 [] [].

Section Lookup.
Context `{HttpServer} (ncbi_base_url : string).

(** ** HTTP and JSON primitives *)

(** [requests.get(url)]. *)
Definition http_request (url : string) : W http_response :=
  log_call (HttpGet url) ;;
  match http_get url with
  | Some r => ret r
  | None => raise RequestException
  end.

(** [response.json()]. *)
Definition response_json (r : http_response) : W json :=
  match body r with
  | JsonBody j => ret j
  | _ => raise JSONDecodeError
  end.

Fixpoint lookup_last (k : string) (fields : list (string * json)) : option json :=
  match fields with
  | [] => None
  | (k', v) :: fs =>
      match lookup_last k fs with
      | Some v' => Some v'
      | None => if bool_decide (k = k') then Some v else None
      end
  end.

(** [d.get(key, default)]. *)
Definition dict_get (j : json) (k : string) (default : json) : W json :=
  match j with
  | JObj fields => ret (match lookup_last k fields with Some v => v | None => default end)
  | _ => raise AttributeError
  end.

(** Truthiness of a JSON value ([if not id_list]). *)
Definition json_truthy (j : json) : bool :=
  match j with
  | JNull => false
  | JBool b => b
  | JNum n => negb (Z.eqb n 0)
  | JStr s => py_truthy s
  | JArr l => negb (bool_decide (l = []))
  | JObj fs => negb (bool_decide (fs = []))
  end.

Fixpoint str_chars (s : string) : list string :=
  match s with
  | EmptyString => []
  | String c s' => String c EmptyString :: str_chars s'
  end.

(** [','.join(id_list)]. *)
Definition join_ids (j : json) : W string :=
  match j with
  | JArr l =>
      ids <- map_M (fun v => match v with JStr s => ret s | _ => raise TypeError end) l ;;
      ret (py_join "," ids)
  | JStr s => ret (py_join "," (str_chars s))
  | JObj fs => ret (py_join "," (map fst fs))
  | _ => raise TypeError
  end.

(** [ElementTree.fromstring(response.content).findall('.//PubmedArticle')]. *)
Definition parse_records (r : http_response) : W (list pubmed_article) :=
  match body r with
  | XmlBody records => ret records
  | _ => raise XMLParseError
  end.

(** ** [fetch_article_details] (lines 522-556) *)

(** [elem.text if elem is not None else placeholder]. *)
Definition text_or (e : xml_text) (placeholder : string) : option string :=
  match e with
  | Some t => t
  | None => Some placeholder
  end.

(** [author.find('LastName').text + " " + author.find('ForeName').text]
    for the authors that have both elements; a missing text is [None]
    and the concatenation raises [TypeError]. *)
Definition author_names (authors : list author_elem) : W (list string) :=
  map_M (fun au =>
           match au_last au, au_fore au with
           | Some (Some l), Some (Some f) => ret (l +:+ " " +:+ f)
           | _, _ => raise TypeError
           end)
        (filter (fun au => is_Some (au_last au) /\ is_Some (au_fore au)) authors).

(** The dictionary built for one [PubmedArticle] (lines 537-554). *)
Definition article_of (r : pubmed_article) : W article :=
  authors <- author_names (px_authors r) ;;
  ret (mk_article
         (text_or (px_title r) "No title")
         (text_or (px_abstract r) "No abstract")
         (text_or (px_pmid r) "No ID")
         (text_or (px_year r) "No date")
         authors
         "PubMed"
         (match px_pmid r with
          | Some t => "https://pubmed.ncbi.nlm.nih.gov/" +:+ py_fmt_opt t +:+ "/"
          | None => "No URL"
          end)).

Definition efetch_url (ids : string) : string :=
  ncbi_base_url +:+ "efetch.fcgi?db=pubmed&id=" +:+ ids +:+ "&retmode=xml".

Definition fetch_article_details (id_list : json) : W (list article) :=
  if negb (json_truthy id_list) then ret [] else
  ids <- join_ids id_list ;;
  r <- http_request (efetch_url ids) ;;
  if negb (Z.eqb (status_code r) 200) then ret [] else
  records <- parse_records r ;;
  map_M article_of records.

(** ** [search_ncbi] (lines 491-520) *)

Definition esearch_url (query : string) (num_results : nat) : string :=
  ncbi_base_url +:+ "esearch.fcgi?db=pubmed&term=" +:+ query
  +:+ "&retmode=json&retmax=" +:+ py_str_nat num_results +:+ "&sort=relevance".

(** One search: esearch for ids, then efetch their details; a status
    other than 200 contributes no articles. *)
Definition search_attempt (query : string) (num_results : nat) : W (list article) :=
  r <- http_request (esearch_url query num_results) ;;
  if Z.eqb (status_code r) 200 then
    j <- response_json r ;;
    res <- dict_get j "esearchresult" (JObj []) ;;
    ids <- dict_get res "idlist" (JArr []) ;;
    fetch_article_details ids
  else ret [].

Definition search_ncbi (keywords : list string) (num_results : nat) : W (list article) :=
  if bool_decide (keywords = []) then ret [] else
  articles <- search_attempt (py_join "+" keywords) num_results ;;
  if bool_decide (articles = []) then search_attempt (py_join "+OR+" keywords) num_results
  else ret articles.

(** The record fields that a placeholder replaces when the element is
    missing. *)
Definition placeholders_ok (r : pubmed_article) (a : article) : Prop :=
  (px_title r = None -> a_title a = Some "No title")
  /\ (px_abstract r = None -> a_abstract a = Some "No abstract")
  /\ (px_pmid r = None -> a_id a = Some "No ID" /\ a_url a = "No URL")
  /\ (px_year r = None -> a_published a = Some "No date")
  /\ (forall t, px_title r = Some t -> a_title a = t)
  /\ (forall t, px_year r = Some t -> a_published a = t).

(** Every author element that has both name elements has text in both. *)
Definition names_have_text (r : pubmed_article) : Prop :=
  Forall (fun au => is_Some (au_last au) -> is_Some (au_fore au) ->
                    exists l f, au_last au = Some (Some l) /\ au_fore au = Some (Some f))
         (px_authors r).

(** ** Step equations *)

Lemma http_request_ok url r w :
  http_get url = Some r ->
  http_request url w = Done r (mk_world (w_threads w) (w_assistants w)
                                        (w_calls w ++ [HttpGet url]) (w_ui w)).
Proof. intros Hr. unfold http_request, bind, log_call, modify. simpl. by rewrite Hr. Qed.

Lemma preserves_http_request L url : preserves (calls_extend L) (http_request url).
Proof. unfold http_request. solve_preserves. Qed.

Hint Resolve preserves_http_request : pa.

Lemma preserves_fetch L ids : preserves (calls_extend L) (fetch_article_details ids).
Proof.
  unfold fetch_article_details, join_ids, response_json, parse_records, article_of, author_names.
  solve_preserves.
Qed.

Hint Resolve preserves_fetch : pa.

Lemma preserves_search_attempt L q n : preserves (calls_extend L) (search_attempt q n).
Proof.
  unfold search_attempt, response_json, dict_get. solve_preserves.
Qed.

Lemma search_attempt_first_call q n w :
  calls_extend (w_calls w ++ [HttpGet (esearch_url q n)]) (final_state (search_attempt q n w)).
Proof.
  unfold search_attempt, http_request. rewrite bind_assoc.
  rewrite (final_state_bind_Done (log_call (HttpGet (esearch_url q n))) _ w tt _ eq_refl).
  refine (preserves_bind _ _ _ _ _ _ (calls_extend_refl _));
    unfold response_json, dict_get; solve_preserves.
Qed.

(** ** How many requests a lookup makes *)

(** Split a [gets_at_most] goal along binds and case splits whose parts
    make no request. *)
Ltac solve_gets0 :=
  repeat (intros; first
    [ solve [eauto with pa]
    | apply (gets_at_most_bind 0 0)
    | apply gets_at_most_map_M
    | match goal with |- gets_at_most _ (match ?x with _ => _ end) => destruct x end
    | match goal with |- gets_at_most _ (if ?x then _ else _) => destruct x end ]).

Lemma gets_http_request url : gets_at_most 1 (http_request url).
Proof. unfold http_request. apply (gets_at_most_bind 1 0); [auto with pa|]. solve_gets0. Qed.

Lemma gets_article_of r : gets_at_most 0 (article_of r).
Proof. unfold article_of, author_names. solve_gets0. Qed.

Lemma gets_fetch ids : gets_at_most 1 (fetch_article_details ids).
Proof.
  unfold fetch_article_details. destruct (negb _); [apply (gets_at_most_mono 0); auto with pa lia|].
  apply (gets_at_most_bind 0 1); [unfold join_ids; solve_gets0|]. intros s.
  apply (gets_at_most_bind 1 0); [apply gets_http_request|]. intros r.
  unfold parse_records. pose proof gets_article_of. solve_gets0.
Qed.

Lemma gets_search_attempt q n : gets_at_most 2 (search_attempt q n).
Proof.
  unfold search_attempt. apply (gets_at_most_bind 1 1); [apply gets_http_request|]. intros r.
  destruct (Z.eqb _ _); [|apply (gets_at_most_mono 0); auto with pa lia].
  apply (gets_at_most_bind 0 1); [unfold response_json; solve_gets0|]. intros j.
  apply (gets_at_most_bind 0 1); [unfold dict_get; solve_gets0|]. intros res.
  apply (gets_at_most_bind 0 1); [unfold dict_get; solve_gets0|]. intros ids.
  apply gets_fetch.
Qed.

Lemma author_names_ok (authors : list author_elem) w :
  Forall (fun au => is_Some (au_last au) -> is_Some (au_fore au) ->
                    exists l f, au_last au = Some (Some l) /\ au_fore au = Some (Some f)) authors ->
  exists names, author_names authors w = Done names w.
Proof.
  unfold author_names. induction authors as [|au authors IH]; intros Hall; [by eexists|].
  apply Forall_cons in Hall as [Hau Hall]. destruct (IH Hall) as [names Hn].
  rewrite filter_cons. case_decide as Hboth.
  - destruct Hboth as [H1 H2]. destruct (Hau H1 H2) as (l & f & El & Ef).
    cbn [map_M]. rewrite El, Ef. unfold bind at 1, ret at 1. cbv beta iota.
    rewrite (bind_Done _ _ _ _ _ Hn). by eexists.
  - by eexists.
Qed.

Lemma article_of_ok rc w :
  names_have_text rc -> exists a, article_of rc w = Done a w /\ placeholders_ok rc a.
Proof.
  intros Hn. destruct (author_names_ok (px_authors rc) w Hn) as [names Hnm].
  unfold article_of. rewrite (bind_Done _ _ _ _ _ Hnm). eexists. split; [reflexivity|].
  unfold placeholders_ok, text_or. simpl.
  split_and!; [intros E..|intros t E|intros t E]; rewrite E; done.
Qed.

Lemma map_article_of_ok recs w :
  Forall names_have_text recs ->
  exists arts, map_M article_of recs w = Done arts w /\ Forall2 placeholders_ok recs arts.
Proof.
  induction 1 as [|rc recs Hn _ (arts & Hrun & Hall)]; [by exists []|].
  destruct (article_of_ok rc w Hn) as (a & Ha & Hok). simpl.
  rewrite (bind_Done _ _ _ _ _ Ha), (bind_Done _ _ _ _ _ Hrun). eexists. split; [reflexivity|].
  by constructor.
Qed.

(** An author element with a [LastName] element that has no text, and
    a [ForeName] element. *)
Definition textless_name (au : author_elem) : Prop :=
  au_last au = Some None /\ is_Some (au_fore au).

Lemma author_names_textless before au after w :
  Forall (fun au => is_Some (au_last au) -> is_Some (au_fore au) ->
                    exists l f, au_last au = Some (Some l) /\ au_fore au = Some (Some f)) before ->
  textless_name au -> author_names (before ++ au :: after) w = Raised TypeError w.
Proof.
  intros Hb [Hl Hf]. unfold author_names. rewrite filter_app, filter_cons_True
    by (rewrite Hl; split; [by eexists|done]).
  apply map_M_raise_at; [|by rewrite Hl].
  apply Forall_forall. intros y [[Hyl Hyf] Hy]%list_elem_of_filter.
  destruct (proj1 (Forall_forall _ _) Hb y Hy Hyl Hyf) as (l & f & -> & ->). by eexists.
Qed.

Lemma filter_nil_Exists {A} (P : A -> Prop) `{!forall x, Decision (P x)} (l : list A) :
  filter P l <> [] <-> Exists P l.
Proof.
  induction l as [|x l IH]; [split; [done|by inversion 1]|].
  rewrite filter_cons, Exists_cons. case_decide; [split; [by left|done]|].
  rewrite <- IH. split; [by right|]. intros [|]; [done|done].
Qed.

(** A [str] field of an article is truthy exactly when its element is
    missing (the placeholder) or has non-empty text. *)
Lemma text_or_truthy (e : xml_text) (placeholder : string) :
  py_truthy placeholder = true ->
  py_truthy_opt (text_or e placeholder) = true <-> e <> Some None /\ e <> Some (Some "").
Proof.
  intros Hp. destruct e as [[[|c t]|]|]; simpl; rewrite ?Hp; split; try done;
    intros [? ?]; congruence.
Qed.

(** ** Properties of the lookup *)

(** C28: what the context keeps of a fetched record.  The article
    [fetch_article_details] builds from a PubMed record passes the
    eligibility test of the context expression exactly when the record's
    title and abstract elements are each missing or have non-empty text,
    and one of its authors has both name elements.  So a record with no
    title element or no abstract element is not excluded: it enters the
    context as "No title" or "No abstract". *)
Theorem article_of_eligible r w a w' :
  article_of r w = Done a w' ->
  eligible a = true <->
    (px_title r <> Some None /\ px_title r <> Some (Some ""))
    /\ (px_abstract r <> Some None /\ px_abstract r <> Some (Some ""))
    /\ Exists (fun au => is_Some (au_last au) /\ is_Some (au_fore au)) (px_authors r).
Proof.
  unfold article_of. intros Ha. apply bind_Done_inv in Ha as (names & w1 & Hn & Ha).
  injection Ha as <- <-. unfold author_names in Hn. apply map_M_Done_length in Hn.
  unfold eligible. simpl. rewrite !andb_true_iff, !text_or_truthy by done.
  pose proof (filter_nil_Exists (fun au => is_Some (au_last au) /\ is_Some (au_fore au)) (px_authors r)) as HE.
  rewrite <- HE, negb_true_iff, bool_decide_eq_false, <- !length_zero_iff_nil, Hn. tauto.
Qed.

(** C27: no retry beyond the fallback.  Whatever it returns or raises,
    [search_ncbi] makes only HTTP GET requests, and at most four: an
    esearch and an efetch for the relevance query, and at most one more
    of each for the OR query. *)
Theorem search_ncbi_requests kws n w :
  exists l, w_calls (final_state (search_ncbi kws n w)) = w_calls w ++ l
            /\ Forall is_http_get l /\ length l <= 4.
Proof.
  assert (Hs : gets_at_most 4 (search_ncbi kws n)).
  { unfold search_ncbi. destruct (bool_decide _); [apply (gets_at_most_mono 0); auto with pa lia|].
    apply (gets_at_most_bind 2 2); [apply gets_search_attempt|]. intros arts.
    destruct (bool_decide _); [apply gets_search_attempt|apply (gets_at_most_mono 0); auto with pa lia]. }
  apply (Hs (w_calls w) 0 w). exists []. by rewrite app_nil_r.
Qed.

(** C8: with no keywords, [search_ncbi] returns no articles without
    any HTTP request. *)
Theorem search_ncbi_no_keywords n w : search_ncbi [] n w = Done [] w.
Proof. reflexivity. Qed.

(** C7: with keywords, [search_ncbi] first requests the relevance
    query (keywords joined with "+"); it runs the broader query
    (joined with "+OR+") after it, and only when the first search gave
    no article; otherwise the first search's articles are the result. *)
Theorem search_ncbi_relevance_first kws n w arts w' :
  kws <> [] -> search_ncbi kws n w = Done arts w' ->
  exists a1 w1,
    search_attempt (py_join "+" kws) n w = Done a1 w1
    /\ calls_extend (w_calls w ++ [HttpGet (esearch_url (py_join "+" kws) n)]) w1
    /\ match a1 with
       | [] => search_attempt (py_join "+OR+" kws) n w1 = Done arts w'
       | _ => arts = a1 /\ w' = w1
       end.
Proof.
  intros Hne Hrun. unfold search_ncbi in Hrun. rewrite bool_decide_false in Hrun by done.
  pose proof (search_attempt_first_call (py_join "+" kws) n w) as Hfirst.
  destruct (search_attempt (py_join "+" kws) n w) as [a1 w1|e w1|w1] eqn:E;
    [|by rewrite (bind_Raised _ _ _ _ _ E) in Hrun|by rewrite (bind_Diverged _ _ _ _ E) in Hrun].
  rewrite (bind_Done _ _ _ _ _ E) in Hrun. exists a1, w1. split; [done|]. split; [done|].
  destruct a1 as [|a l]; [done|]. rewrite bool_decide_false in Hrun by done.
  by injection Hrun as -> ->.
Qed.

(** C14: each PubMed record becomes one article, in order, with the
    placeholders "No title", "No abstract", "No ID"/"No URL" and
    "No date" for the missing elements, provided every author element
    with both name elements has text in them. *)
Theorem fetch_article_details_placeholders ids s r recs w w1 :
  json_truthy ids = true -> join_ids ids w = Done s w1 ->
  http_get (efetch_url s) = Some r -> status_code r = 200%Z -> body r = XmlBody recs ->
  Forall names_have_text recs ->
  exists arts w',
    fetch_article_details ids w = Done arts w' /\ Forall2 placeholders_ok recs arts.
Proof.
  intros Ht Hj Hr Hs Hb Hnames. unfold fetch_article_details. rewrite Ht. cbn [negb].
  rewrite (bind_Done _ _ _ _ _ Hj), (bind_Done _ _ _ _ _ (http_request_ok _ _ _ Hr)), Hs.
  rewrite Z.eqb_refl. cbn [negb]. unfold parse_records. rewrite Hb, bind_ret_l.
  edestruct map_article_of_ok as (arts & Hrun & Hall); [exact Hnames|].
  eexists _, _. split; [exact Hrun|exact Hall].
Qed.

(** C15: one author element whose [LastName] has no text aborts the
    whole batch: [fetch_article_details] raises [TypeError] and returns
    none of the records, also those parsed before it. *)
Theorem fetch_article_details_textless_author ids s r pre rc post before au after w w1 :
  json_truthy ids = true -> join_ids ids w = Done s w1 ->
  http_get (efetch_url s) = Some r -> status_code r = 200%Z ->
  body r = XmlBody (pre ++ rc :: post) -> Forall names_have_text pre ->
  px_authors rc = before ++ au :: after ->
  Forall (fun au => is_Some (au_last au) -> is_Some (au_fore au) ->
                    exists l f, au_last au = Some (Some l) /\ au_fore au = Some (Some f)) before ->
  textless_name au ->
  exists w', fetch_article_details ids w = Raised TypeError w'.
Proof.
  intros Ht Hj Hr Hs Hb Hpre Ha Hbefore Hau. unfold fetch_article_details. rewrite Ht. cbn [negb].
  rewrite (bind_Done _ _ _ _ _ Hj), (bind_Done _ _ _ _ _ (http_request_ok _ _ _ Hr)), Hs.
  rewrite Z.eqb_refl. cbn [negb]. unfold parse_records. rewrite Hb, bind_ret_l.
  set (w2 := mk_world _ _ _ _). exists w2. apply map_M_raise_at.
  - eapply Forall_impl; [exact Hpre|]. intros x Hx.
    destruct (article_of_ok x w2 Hx) as (a & Hxa & _). by eexists.
  - unfold article_of. by rewrite Ha, (bind_Raised _ _ _ _ _ (author_names_textless _ _ _ _ Hbefore Hau)).
Qed.

(** C33: a failed connection is not caught: when the relevance esearch
    request gets no response, [search_ncbi] raises [RequestException]
    right after sending it, and the OR query is never tried. *)
Theorem search_ncbi_connection_error kws n w :
  kws <> [] -> http_get (esearch_url (py_join "+" kws) n) = None ->
  search_ncbi kws n w
  = Raised RequestException (mk_world (w_threads w) (w_assistants w)
                               (w_calls w ++ [HttpGet (esearch_url (py_join "+" kws) n)]) (w_ui w)).
Proof.
  intros Hne Hn. unfold search_ncbi. rewrite bool_decide_false by done.
  unfold search_attempt, http_request, bind, log_call, modify, raise. simpl. by rewrite Hn.
Qed.

(** C34: the status check is [== 200]: when both esearch requests are
    answered with another status, a success status such as 204 included,
    [search_ncbi] returns no articles. *)
Theorem search_ncbi_non_200 kws n w r1 r2 :
  kws <> [] ->
  http_get (esearch_url (py_join "+" kws) n) = Some r1 ->
  http_get (esearch_url (py_join "+OR+" kws) n) = Some r2 ->
  status_code r1 <> 200%Z -> status_code r2 <> 200%Z ->
  exists w', search_ncbi kws n w = Done [] w'.
Proof.
  intros Hne H1 H2 Hs1 Hs2. unfold search_ncbi. rewrite bool_decide_false by done.
  unfold search_attempt. rewrite bind_assoc, (bind_Done _ _ _ _ _ (http_request_ok _ _ _ H1)).
  rewrite (proj2 (Z.eqb_neq _ _) Hs1), bind_ret_l, bool_decide_true by done.
  rewrite (bind_Done _ _ _ _ _ (http_request_ok _ _ _ H2)), (proj2 (Z.eqb_neq _ _) Hs2).
  by eexists.
Qed.

End Lookup.

Lemma demo_record_names : Forall names_have_text [demo_record].
Proof. repeat constructor. intros _ _. by do 2 eexists. Qed.

Lemma search_ncbi_relevance_first_witness :
  exists arts w',
    @search_ncbi (demo_http [demo_record]) demo_base_url ["infant"; "sleep"] 10 empty_world
      = Done arts w' /\
    exists a1 w1,
      @search_attempt (demo_http [demo_record]) demo_base_url (py_join "+" ["infant"; "sleep"]) 10
        empty_world = Done a1 w1
      /\ calls_extend (w_calls empty_world
                         ++ [HttpGet (esearch_url demo_base_url (py_join "+" ["infant"; "sleep"]) 10)]) w1
      /\ match a1 with
         | [] => @search_attempt (demo_http [demo_record]) demo_base_url
                   (py_join "+OR+" ["infant"; "sleep"]) 10 w1 = Done arts w'
         | _ => arts = a1 /\ w' = w1
         end.
Proof.
  eexists _, _. split; [vm_compute; reflexivity|].
  apply (@search_ncbi_relevance_first (demo_http [demo_record]) demo_base_url); [discriminate|].
  vm_compute. reflexivity.
Defined.

Lemma fetch_article_details_placeholders_witness :
  exists arts w',
    @fetch_article_details (demo_http [demo_record]) demo_base_url (JArr [JStr "111"]) empty_world
      = Done arts w' /\ Forall2 placeholders_ok [demo_record] arts.
Proof.
  apply (@fetch_article_details_placeholders (demo_http [demo_record]) demo_base_url
           (JArr [JStr "111"]) "111"
           (mk_response 200 (XmlBody [demo_record])) [demo_record] empty_world empty_world);
    [reflexivity|vm_compute; reflexivity|vm_compute; reflexivity|reflexivity|reflexivity|].
  exact demo_record_names.
Defined.

Lemma fetch_article_details_textless_author_witness :
  exists w',
    @fetch_article_details (demo_http [demo_record; textless_record]) demo_base_url
      (JArr [JStr "111"]) empty_world = Raised TypeError w'.
Proof.
  apply (@fetch_article_details_textless_author (demo_http [demo_record; textless_record])
           demo_base_url (JArr [JStr "111"]) "111"
           (mk_response 200 (XmlBody [demo_record; textless_record])) [demo_record] textless_record []
           [] (mk_author (Some None) (Some (Some "Ann"))) [] empty_world empty_world);
    [reflexivity|vm_compute; reflexivity|vm_compute; reflexivity|reflexivity|reflexivity
    |exact demo_record_names|reflexivity|constructor|split; [reflexivity|by eexists]].
Defined.

Lemma search_ncbi_connection_error_witness :
  ["peanut"] <> [] /\
  @http_get (demo_http_down 200) (esearch_url demo_base_url (py_join "+" ["peanut"]) 10) = None /\
  @search_ncbi (demo_http_down 200) demo_base_url ["peanut"] 10 empty_world
  = Raised RequestException (mk_world [] 0 [HttpGet (esearch_url demo_base_url (py_join "+" ["peanut"]) 10)] []).
Proof.
  split; [discriminate|]. split; [reflexivity|].
  apply (@search_ncbi_connection_error (demo_http_down 200)); [discriminate|reflexivity].
Defined.

Lemma search_ncbi_non_200_witness :
  exists w', @search_ncbi (demo_http_status 204) demo_base_url ["peanut"] 10 empty_world = Done [] w'.
Proof.
  apply (@search_ncbi_non_200 (demo_http_status 204) demo_base_url ["peanut"] 10 empty_world
           (mk_response 204 (OtherBody "")) (mk_response 204 (OtherBody "")));
    [discriminate|reflexivity|reflexivity|discriminate|discriminate].
Defined.


Lemma article_of_eligible_witness :
  exists a, article_of demo_record empty_world = Done a empty_world /\
    a_abstract a = Some "No abstract" /\
    (eligible a = true <->
      (px_title demo_record <> Some None /\ px_title demo_record <> Some (Some ""))
      /\ (px_abstract demo_record <> Some None /\ px_abstract demo_record <> Some (Some ""))
      /\ Exists (fun au => is_Some (au_last au) /\ is_Some (au_fore au)) (px_authors demo_record)).
Proof.
  eexists. split; [vm_compute; reflexivity|]. split; [reflexivity|].
  apply (article_of_eligible demo_record empty_world _ empty_world). vm_compute. reflexivity.
Defined.
