(* ===== verification/Distill.v ===== *)
(** * Distill: the query distillation of [src/app.py]

    [optimize_question] (lines 343-355) and [extract_keywords] (357-372):
    two chained assistant turns on the session thread, each an
    [add_message_to_thread] followed by [run_assistant].  The first asks
    for a simplified question and falls back to the raw question when
    the reply is empty; the second asks for comma-separated keywords and
    splits and strips the reply.  The session's assistant id
    ([st.session_state.assistant.id]) and the polling fuel are section
    variables. *)

From S2P Require Import Prelude PyStr Stream Api Thread.

Section Distill.
Context `{AssistantServer} (fuel aid : nat).

(** The instruction of [optimize_question] (lines 344-346). *)
Definition optimize_task (question : string) : string :=
  "Transform the question: " +:+ question +:+ " to be a cohesive yet extremely simple question with a few simple, but extremely relevant keywords. Only, I REPEAT: ONLY, output the optimized revised question.".

(** [if response_text: return response_text.strip() else: return
    question] (lines 349-355). *)
Definition optimized_or (question response_text : string) : string :=
  if py_truthy response_text then py_strip response_text else question.

Definition optimize_question (tid : nat) (question : string) : W string :=
  let task := optimize_task question in
  add_message_to_thread fuel tid task "user" ;;
  response_text <- run_assistant tid aid task false ;;
  ret (optimized_or question response_text).

(** The instruction of [extract_keywords] (lines 359-362): two
    adjacent f-strings, concatenated without a separator. *)
Definition keywords_task (optimized_question : string) : string :=
  "Extract the most essential academic keywords from the following research question. Choose the most relevant 4 keywords max. The choices of words will be going into an API call to search PubMed. Make sure the keywords are the most essential keywords for doing a search on PubMeds API"
  +:+ "Research Question: " +:+ optimized_question
  +:+ ". Output keywords separated by commas, ranked from most relevant to least relevant.".

(** [[keyword.strip() for keyword in response_text.split(',')]] when
    the reply is non-empty, else [[]] (lines 365-372). *)
Definition clean_keywords (response_text : string) : list string :=
  if py_truthy response_text then map py_strip (py_split "," response_text) else [].

Definition extract_keywords (tid : nat) (question : string) : W (list string) :=
  optimized_question <- optimize_question tid question ;;
  let task := keywords_task optimized_question in
  add_message_to_thread fuel tid task "user" ;;
  response_text <- run_assistant tid aid task false ;;
  ret (clean_keywords response_text).

(** ** Lemmas *)

Lemma optimize_question_ok tid q w d w' :
  optimize_question tid q w = Done d w' ->
  exists r log, turn_result tid aid (mk_params (Some "gpt-4o-mini") (Some "0.3")) (optimize_task q) r log
                /\ w_calls w' = w_calls w ++ log /\ d = optimized_or q r.
Proof.
  unfold optimize_question. rewrite <- bind_assoc. intros Hrun.
  apply bind_Done_inv in Hrun as (r & w1 & Hturn & Hret).
  destruct (turn_ok _ _ _ _ _ _ _ _ _ Hturn) as (log & Hlog & Hcalls).
  unfold ret in Hret. injection Hret as <- <-. by exists r, log.
Qed.

(** ** Properties of the distillation *)

(** C12: the distillation protocol.  When [extract_keywords] returns,
    it has made exactly two turns on the thread, in order: the
    simplification request for the raw question, then the keyword
    request for the distilled question ([optimized_or] of the first
    reply); the keywords are the second reply split on commas and
    stripped, or none when that reply is empty. *)
Theorem extract_keywords_protocol tid q w kws w' :
  extract_keywords tid q w = Done kws w' ->
  exists r1 r2 l1 l2,
    turn_result tid aid (mk_params (Some "gpt-4o-mini") (Some "0.3")) (optimize_task q) r1 l1
    /\ turn_result tid aid (mk_params (Some "gpt-4o-mini") (Some "0.3")) (keywords_task (optimized_or q r1)) r2 l2
    /\ w_calls w' = w_calls w ++ l1 ++ l2
    /\ kws = clean_keywords r2.
Proof.
  unfold extract_keywords. intros Hrun.
  apply bind_Done_inv in Hrun as (d & w1 & Hopt & Hrun).
  destruct (optimize_question_ok _ _ _ _ _ Hopt) as (r1 & l1 & Ht1 & Hc1 & ->).
  rewrite <- bind_assoc in Hrun. apply bind_Done_inv in Hrun as (r2 & w2 & Hturn & Hret).
  destruct (turn_ok _ _ _ _ _ _ _ _ _ Hturn) as (l2 & Ht2 & Hc2).
  unfold ret in Hret. injection Hret as <- <-.
  exists r1, r2, l1, l2. split_and!; [done|done| |done].
  by rewrite Hc2, Hc1, <- app_assoc.
Qed.

(** C26: the keywords are the reply cut at every comma and stripped.
    An empty reply gives no keyword; any other reply, one of blanks
    included, gives the stripped pieces between its commas, pieces that
    contain no comma and that join back into the reply, one more keyword
    than the reply has commas: nothing drops an empty keyword or bounds
    their number. *)
Theorem clean_keywords_shape r :
  (r = "" -> clean_keywords r = []) /\
  (r <> "" -> exists pieces,
     py_join "," pieces = r /\ Forall (fun p => py_contains "," p = false) pieces
     /\ clean_keywords r = map py_strip pieces
     /\ length (clean_keywords r) = S (py_count_char "," r)).
Proof.
  split; [by intros ->|]. intros Hr. unfold clean_keywords.
  replace (py_truthy r) with true by (by destruct r).
  exists (py_split "," r). split_and!.
  - by apply py_join_split.
  - apply py_split_char_free.
  - done.
  - by rewrite length_map, py_split_char_length.
Qed.

End Distill.

Lemma extract_keywords_protocol_witness :
  exists kws w',
    @extract_keywords demo_server 5 0 0 "Is peanut butter safe?" demo_world = Done kws w' /\
    exists r1 r2 l1 l2,
      @turn_result demo_server 0 0 (mk_params (Some "gpt-4o-mini") (Some "0.3")) (optimize_task "Is peanut butter safe?") r1 l1
      /\ @turn_result demo_server 0 0 (mk_params (Some "gpt-4o-mini") (Some "0.3")) (keywords_task (optimized_or "Is peanut butter safe?" r1)) r2 l2
      /\ w_calls w' = w_calls demo_world ++ l1 ++ l2
      /\ kws = clean_keywords r2.
Proof.
  eexists _, _. split; [vm_compute; reflexivity|].
  apply (@extract_keywords_protocol demo_server 5 0 0 "Is peanut butter safe?" demo_world).
  vm_compute. reflexivity.
Defined.

Lemma clean_keywords_shape_witness :
  "   " <> "" /\
  exists pieces,
    py_join "," pieces = "   " /\ Forall (fun p => py_contains "," p = false) pieces
    /\ clean_keywords "   " = map py_strip pieces
    /\ length (clean_keywords "   ") = S (py_count_char "," "   ").
Proof.
  split; [discriminate|]. apply (proj2 (clean_keywords_shape "   ")). discriminate.
Defined.
