(* ===== verification/Synthesis.v ===== *)
(** * Synthesis: answer synthesis, [generate_response] of [src/app.py]

    [generate_response] (lines 374-489) and its nested
    [generate_prompt] (383-450).  The prompt templates are the source's
    f-strings, copied verbatim with their indentation and line breaks;
    the ranking of the context is [Context.sort_context].  The two runs
    of [generate_response] are streamed directly ([runs.stream] without
    [model] or [temperature]), the first into a handler on the response
    placeholder, the second into a handler without one. *)

From S2P Require Import Prelude PyStr Stream Api Thread Context Distill.

(** ** The prompt templates (lines 406-449) *)

Definition parent_prompt (optimized_question sorted_context : string) : string :=
  "
        You are a helpful brilliant assistant serving low income families. You are a GPT-4o model with access to major journals. Your task is to answer simple parenting questions accurately and clearly for parents. Deliver a simple response to '"
  +:+ optimized_question
  +:+ "', using the context below. 

        IMPORTANT: You MUST cite information from EACH provided article that is relevant to the question. Prioritize information from the most recent studies. The articles are provided in order from newest to oldest. Give more weight to the findings from the newer studies, but don't ignore older studies if they provide crucial information.

        Cite the studies' authors and years immediately after presenting facts. Use the format (Author Year) for citations. Make sure you consider and cite at least one fact from each relevant article abstract provided in the context, with a focus on the most recent ones.

        Use natural language that is easy to understand. Don't use scientific terms. Don't use numbered lists. All answers should be simple. Assume an IQ of 120. Aim for approximately 150 words, focusing on practical advice that parents can easily apply. Synthesize information from the most relevant and recent research. Ensure your answer is grounded in solid research while being accessible. Remember: simple language, I repeat: simple language.

        Prioritize articles by published date and ensure all articles are taken into account before answering the question. This is of the utmost importance. 
        
        Context (ordered from newest to oldest):
        "
  +:+ sorted_context
  +:+ "

        Before outputting your response, verify that you've cited each relevant article provided in the context, with emphasis on the most recent ones. Your response MUST include at least one citation from each article that is relevant to the question. If an article is not relevant to the specific question, explain briefly why you didn't include it.

        After your main response, provide a brief summary of how many articles you cited and why you may not have cited certain articles (if any).

        Remember: DO NOT USE SCIENTIFIC JARGON

        Before outputting, validate that you answered the user's question with a direct and clear response to THEIR question. Answering the question "
  +:+ optimized_question
  +:+ " is the most important aspect of this app.[IMPORTANT]!. For example, if the user asks about baby formula, DO NOT mention breastfeeding. That's not what they are asking about.
        
        IMPORTANT: You MUST cite information from EACH provided article that is relevant to the question. The articles are provided in order of relevance to the question. Give more weight to the findings from the more relevant studies, but don't ignore less relevant studies if they provide crucial information.
        ".

Definition doctor_prompt (optimized_question sorted_context : string) : string :=
  "
        You are Brilliance, a GPT-4o model with access to major journals. Your sole task is to accurately, and I repeat: accurately, answer the user's question with empirical data. You will emulate a wide beam search when considering your choice of words. This is the most important thing to remember. Deliver a brilliant and detailed, scientifically validated response to '"
  +:+ optimized_question
  +:+ "', using the context below. 

        IMPORTANT: Prioritize information from the most recent studies. The articles are provided in order from newest to oldest. Give more weight to the findings from the newer studies, but don't ignore older studies if they provide crucial information or historical context.

        Cite the studies' authors and years immediately after presenting facts. Clarify the mechanisms of action when discussing medicine. Craft the answer in natural, flowing language, avoiding numbered lists or subtopic breakdowns. Synthesize information from recent and cutting-edge research, emphasizing groundbreaking discoveries and their practical implications. Highlight innovative theories or advancements that could revolutionize our understanding, focusing on the unique aspects of the research question within the latest context. 

        Reference the original question frequently, aiming for approximately 1000 words. Include accurate data, values, variables, and relevant names or places. Be specific, avoid generalizations, and eschew repetitive phrasing. Aim to leave the reader with a profound understanding, using a natural academic tone suitable for an audience with an IQ of 200. Extrapolate and synthesize groundbreaking insights. 

        Ensure the question is completely and accurately answered, considering the data from the context provided, with emphasis on the most recent findings. Make sure your results show groundbreaking findings. Remember to synthesize responses with citations in parentheses. Just use relevant author names and year in the prompt.
        Context (ordered from newest to oldest):
        "
  +:+ sorted_context
  +:+ "
        Before outputting your response, verify that you've cited each relevant article provided in the context, with emphasis on the most recent ones. Only cite articles that are directly relevant to answering the user's question. If an article is not relevant to the specific question, you do not need to cite it.

        Prioritize articles by published date and ensure all articles are taken into account before answering the question. This is of the utmost importance. 
        
        IMPORTANT: Prioritize information from the most relevant studies. The articles are provided in order of relevance to the question. Give more weight to the findings from the more relevant studies, but don't ignore less relevant studies if they provide crucial information or historical context.
        ".

(** [prompts.get(length, prompts["Parent"])]: the first binding of the
    key in the dictionary literal, else the default. *)
Fixpoint dict_get_str (d : list (string * string)) (k default : string) : string :=
  match d with
  | [] => default
  | (k', v) :: d' => if bool_decide (k = k') then v else dict_get_str d' k default
  end.

(** [generate_prompt(optimized_question, length, context)]. *)
Definition generate_prompt (optimized_question length context : string) : string :=
  let sorted_context := sort_context context in
  let prompts := [("Parent", parent_prompt optimized_question sorted_context);
                  ("Doctor/Researcher", doctor_prompt optimized_question sorted_context)] in
  dict_get_str prompts length (parent_prompt optimized_question sorted_context).

(** The second instruction of [generate_response] (lines 466-473). *)
Definition text_message_prompt (response : string) : string :=
  "
    Convert the following response into a concise text message of 450 characters or less. 
    Remove all citations and speak in simple language. Make it casual and friendly, as if texting a friend. Use 2 emojis at the end of the text message. Always, I repeat: ALWAYS say this at the end: This is not medical advice, this is research. Always check with your doctor before making any choices based on this response.
    Don't use medical jargon.
    Original response:
    "
  +:+ response
  +:+ "
    ".

Section Synthesis.
Context `{AssistantServer} (fuel aid tid : nat).

(** The parameters of a [runs.stream] call that sets neither [model]
    nor [temperature]. *)
Definition default_params : run_params := mk_params None None.

(** [generate_response(question, length, context, placeholder)]; the
    placeholder is [response_placeholder] in the main script. *)
Definition generate_response (question length context : string) (placeholder : bool)
  : W (string * string) :=
  if negb (py_truthy (py_strip question)) then
    show (UiError "Please enter a valid research question.") ;; ret ("", "")
  else
  let context := if negb (py_truthy (py_strip context)) then sentinel_context else context in
  optimized_question <- optimize_question fuel aid tid question ;;
  let prompt := generate_prompt optimized_question length context in
  add_message_to_thread fuel tid prompt "user" ;;
  handler <- runs_stream tid aid default_params (EventHandler.init placeholder) ;;
  let response := EventHandler.text_accumulated handler in
  add_message_to_thread fuel tid (text_message_prompt response) "user" ;;
  text_message_handler <- runs_stream tid aid default_params (EventHandler.init false) ;;
  ret (response, EventHandler.text_accumulated text_message_handler).

(** ** Properties of the synthesis *)

(** C21: a question of blanks is rejected before any API call:
    [generate_response] shows the error, returns two empty strings and
    leaves the threads and the call log as they were. *)
Theorem generate_response_blank_question q length context ph w :
  py_truthy (py_strip q) = false ->
  generate_response q length context ph w
  = Done ("", "") (mk_world (w_threads w) (w_assistants w) (w_calls w)
                            (w_ui w ++ [UiError "Please enter a valid research question."])).
Proof. intros Hq. unfold generate_response. by rewrite Hq. Qed.

(** C13: the synthesis protocol.  On a question with text,
    [generate_response] makes three turns on the session thread, in
    order: it distils the question again ([optimize_question]), sends
    the prompt built from the distilled question, the complexity level
    and the context (the sentinel sentence when the context is blank),
    then asks for the text-message version of the response it
    received; the last two runs use the assistant's default model and
    temperature, and the result is the pair of the two replies. *)
Theorem generate_response_protocol q length context ph w resp tm w' :
  py_truthy (py_strip q) = true ->
  generate_response q length context ph w = Done (resp, tm) w' ->
  exists r0 l0 l1 l2,
    turn_result tid aid (mk_params (Some "gpt-4o-mini") (Some "0.3")) (optimize_task q) r0 l0
    /\ turn_result tid aid default_params
         (generate_prompt (optimized_or q r0) length
            (if py_truthy (py_strip context) then context else sentinel_context)) resp l1
    /\ turn_result tid aid default_params (text_message_prompt resp) tm l2
    /\ w_calls w' = w_calls w ++ l0 ++ l1 ++ l2.
Proof.
  intros Hq Hrun. unfold generate_response in Hrun. rewrite Hq in Hrun. cbn [negb] in Hrun.
  apply bind_Done_inv in Hrun as (d & w0 & Hopt & Hrun).
  destruct (optimize_question_ok _ _ _ _ _ _ _ Hopt) as (r0 & l0 & Ht0 & Hc0 & ->).
  rewrite <- bind_assoc in Hrun. apply bind_Done_inv in Hrun as (h1 & w1 & Hs1 & Hrun).
  destruct (turn_stream_ok _ _ _ _ _ _ _ _ _ Hs1) as (l1 & Ht1 & Hc1).
  rewrite <- bind_assoc in Hrun. apply bind_Done_inv in Hrun as (h2 & w2 & Hs2 & Hret).
  destruct (turn_stream_ok _ _ _ _ _ _ _ _ _ Hs2) as (l2 & Ht2 & Hc2).
  unfold ret in Hret. injection Hret as <- <- <-.
  exists r0, l0, l1, l2. split_and!; [done| |done|].
  - by destruct (py_truthy (py_strip context)).
  - by rewrite Hc2, Hc1, Hc0, <- !app_assoc.
Qed.

End Synthesis.

(** C32: prompt selection: [generate_prompt] uses the researcher template
    for the level ["Doctor/Researcher"] and the parent template for any
    other level, both on the ranked context. *)
Theorem generate_prompt_select q length context :
  generate_prompt q length context
  = if bool_decide (length = "Doctor/Researcher") then doctor_prompt q (sort_context context)
    else parent_prompt q (sort_context context).
Proof.
  unfold generate_prompt. cbn [dict_get_str].
  case_bool_decide as Hp; case_bool_decide as Hd; subst; done.
Qed.

Lemma generate_response_blank_question_witness :
  py_truthy (py_strip "   ") = false /\
  @generate_response demo_server 5 0 0 "   " "Parent" "" true demo_world
  = Done ("", "") (mk_world (w_threads demo_world) (w_assistants demo_world) (w_calls demo_world)
                            (w_ui demo_world ++ [UiError "Please enter a valid research question."])).
Proof.
  split; [reflexivity|].
  apply (@generate_response_blank_question demo_server 5 0 0). reflexivity.
Defined.

Lemma generate_response_protocol_witness :
  exists resp tm w',
    @generate_response demo_server 5 0 0 "Is peanut butter safe?" "Parent" "" true demo_world
      = Done (resp, tm) w' /\
    exists r0 l0 l1 l2,
      @turn_result demo_server 0 0 (mk_params (Some "gpt-4o-mini") (Some "0.3"))
        (optimize_task "Is peanut butter safe?") r0 l0
      /\ @turn_result demo_server 0 0 default_params
           (generate_prompt (optimized_or "Is peanut butter safe?" r0) "Parent"
              (if py_truthy (py_strip "") then "" else sentinel_context)) resp l1
      /\ @turn_result demo_server 0 0 default_params (text_message_prompt resp) tm l2
      /\ w_calls w' = w_calls demo_world ++ l0 ++ l1 ++ l2.
Proof.
  eexists _, _, _. split; [vm_compute; reflexivity|].
  apply (@generate_response_protocol demo_server 5 0 0 "Is peanut butter safe?" "Parent" "" true
           demo_world); vm_compute; reflexivity.
Defined.
