(* ===== verification/Page.v ===== *)
(** * Page: the presentation code of [src/app.py]

    What the script renders besides the answer: the three page-level
    style sheets (lines 15-96) and the layout style sheet (203-280), the
    JavaScript Enter-key listener (306-317), the article card of
    [display_article_card] (558-613), and [load_lottiefile] (191-199),
    which reads the loading animation through a [FileSystem]: a file is
    missing ([FileNotFoundError], caught), holds text that is not JSON
    ([json.load] raises, not caught), or holds a JSON document.  The
    strings are the source's literals, line breaks and indentation
    included. *)

From S2P Require Import Prelude PyStr Api.

(** ** Files *)

(** What [open(path)] and [json.load] find at a path. *)
Inductive file_content :=
| NotFound
| NotJson (text : string)
| JsonFile (j : json).

Class FileSystem := {
  fs_read : string -> file_content
}.

(** ** Style sheets and scripts (lines 15-96, 203-280, 306-316) *)

Definition dq : string := String "034" EmptyString.

Definition layout_css : string :=
  "
    <style>
        .main-title {
            margin-top: 40px;
            margin-bottom: 20px;
            font-size: 30px;
            line-height: 1.2;
            white-space: nowrap;
        }
        .input-area, .api-selection, .response-section {
            margin-top: 20px;
            margin-bottom: 20px;
            padding: 20px;
            border-radius: 10px;
            background-color: #f9f9f9;
        }
        .custom-button {
            margin-top: 10px;
        }
    </style>
".

Definition color_css : string :=
  "
    <style>
        body {
            background-color: #f0f2f6;
        }
        .main-title {
            color: #4CAF50;
        }
        .input-area, .api-selection, .response-section {
            background-color: #ffffff;
            border: 1px solid #ddd;
        }
        .custom-button {
            background-color: #4CAF50;
            color: white;
        }
        .custom-button:hover {
            background-color: #45a049;
        }
        .search-box {
            width: 100%;
            font-size: 18px;
            padding: 10px;
            border-radius: 5px;
            border: 1px solid #ccc;
            margin-bottom: 20px;
        }
        .options-container {
            display: flex;
            justify-content: space-between;
            margin-bottom: 20px;
        }
        .section-title {
            font-size: 1em;
            font-weight: normal;
            color: #333;
        }
        .options-container label {
            font-size: 1em;
            color: #333;
        }
    </style>
".

Definition responsive_css : string :=
  "
    <style>
        @media screen and (max-width: 600px) {
            .main-title {
                font-size: 25px;
            }
        }
        @media screen and (min-width: 601px) {
            .main-title {
                font-size: 30px;
            }
        }
    </style>
".

Definition title_css : string :=
  "
    <style>
        @media screen and (max-width: 600px) {
            .main-title {
                font-size: 36px;
            }
        }
        @media screen and (min-width: 601px) {
            .main-title {
                font-size: 40px;
            }
        }
        .main-title {
            font-family: 'Courier New', monospace;
            color: #4CAF50;
            text-align: center;
            font-weight: bold;
            background: linear-gradient(to right, blue, pink);
            -webkit-background-clip: text;
            color: transparent;
            margin-top: 40px;
        }
        .disclaimer {
            font-size: 14px;
            color: #888888;
            margin-bottom: 20px;
            text-align: center;
        }
        .input-area {
            font-family: 'Courier New', monospace;
            margin-top: 22px;
        }
        .custom-button {
            background-color: #4CAF50;
            color: white;
            border: none;
            padding: 10px 20px;
            font-size: 16px;
            cursor: pointer;
        }
        .custom-button:hover {
            background-color: #45a049;
        }
        .article-card {
            background-color: #f9f9f9;
            padding: 15px;
            border-radius: 10px;
            margin-bottom: 20px;
            border: 1px solid #ddd;
        }
        .article-title {
            font-size: 1.2em;
            color: #333;
            font-weight: bold;
        }
        .article-authors {
            color: #777;
        }
        .article-details {
            margin-top: 10px;
            font-size: 0.9em;
            color: #555;
        }
        .search-box {
            width: 100%;
            font-size: 18px;
            padding: 10px;
            border-radius: 5px;
            border: 1px solid #ccc;
            margin-bottom: 20px;
        }
        .options-container {
            display: flex;
            justify-content: space-between;
            margin-bottom: 20px;
        }
    </style>
".

Definition js_code : string :=
  "
<script>
document.addEventListener('keydown', function(e) {
    if (e.key == 'Enter') {
        setTimeout(function() {
            document.getElementsByTagName('button')[0].click();
        }, 0);
    }
});
</script>
".

(** The style sheet of the article cards (lines 566-598). *)
Definition card_css : string :=
  "
    <style>
    .article-card {
        background-color: #f9f9f9;
        padding: 20px;
        border-radius: 10px;
        margin-bottom: 20px;
        border: 1px solid #ddd;
        box-shadow: 0 4px 8px rgba(0,0,0,0.1);
        transition: transform 0.2s ease-in-out;
    }
    .article-card:hover {
        transform: translateY(-5px);
    }
    .article-title {
        font-size: 1.5em;
        color: #333;
        font-weight: bold;
        text-decoration: none;
        margin-bottom: 10px;
        display: block;
    }
    .article-title:hover {
        text-decoration: underline;
    }
    .article-authors, .article-details {
        color: #777;
    }
    .article-details p {
        margin: 5px 0;
    }
    </style>
    ".

(** The card of one article (lines 602-612): the title as a link, the
    authors, the publication date, the source and the first lines of
    the abstract; a [None] title or date is shown as ["None"]. *)
Definition card_html (a : article) (first_3_lines : string) : string :=
  "
    <div class='article-card'>
        <a href="
  +:+ dq
  +:+ a_url a
  +:+ dq
  +:+ " class='article-title'>"
  +:+ py_fmt_opt (a_title a)
  +:+ "</a>
        <div class='article-authors'>Authors: "
  +:+ py_join ", " (a_authors a)
  +:+ "</div>
        <div class='article-details'>
            <p>Published: "
  +:+ py_fmt_opt (a_published a)
  +:+ "</p>
            <p>Source: "
  +:+ a_source a
  +:+ "</p>
            <p>"
  +:+ first_3_lines
  +:+ "</p>
        </div>
    </div>
    ".

(** ** [load_lottiefile] (lines 191-199) *)

Section Files.
Context `{FileSystem}.

(** [load_lottiefile(filepath)]: the JSON document, or [None] after an
    error message when the file is missing; text that is not JSON makes
    [json.load] raise. *)
Definition load_lottiefile (filepath : string) : W (option json) :=
  match fs_read filepath with
  | JsonFile j => ret (Some j)
  | NotJson _ => raise JSONDecodeError
  | NotFound => show (UiError ("File " +:+ filepath +:+ " not found.")) ;; ret None
  end.

End Files.

(** ** [display_article_card] (lines 558-613) *)

(** [abstract = article.get('abstract', 'No abstract')], replaced by
    ['No abstract'] when it is not a [str] (lines 559-561). *)
Definition card_abstract (a : article) : string :=
  match a_abstract a with Some s => s | None => "No abstract" end.

(** [abstract_lines = abstract.split('\n')];
    [first_3_lines = '\n'.join(abstract_lines[:3])] (lines 563-564). *)
Definition card_first_lines (a : article) : string :=
  py_join nl (firstn 3 (py_split nl (card_abstract a))).

Definition display_article_card (a : article) : W unit :=
  show (UiMarkdown card_css) ;;
  show (UiMarkdown (card_html a (card_first_lines a))).

(** ** A file system for the witnesses *)

(** [animation.json] holds an (empty) JSON object. *)
Definition demo_fs : FileSystem := {| fs_read := fun _ => JsonFile (JObj []) |}.

(** [animation.json] holds a truncated document. *)
Definition broken_fs : FileSystem := {| fs_read := fun _ => NotJson "{" |}.

(** ** The card shows at most three lines *)

(** C37: the text a card shows is made of the first three lines of the
    abstract, and of nothing else: split on newlines, it gives back
    exactly those lines, so at most three. *)
Theorem card_first_lines_lines (a : article) :
  py_split nl (card_first_lines a) = firstn 3 (py_split nl (card_abstract a))
  /\ length (py_split nl (card_first_lines a)) <= 3.
Proof.
  unfold card_first_lines, nl. rewrite py_split_join_firstn by lia.
  split; [done|]. rewrite length_firstn. lia.
Qed.

