(* ===== verification/App.v ===== *)
(** * App: the Streamlit script of [src/app.py] as a state machine

    Streamlit runs the whole script again on every interaction (a
    rerun); what survives a rerun is [st.session_state].  A rerun is
    modelled as one computation on an [app_state]: the session state and
    the world of the earlier files.  Its input [rerun] is what the
    browser sent: the text of the input box, whether its value was
    committed since the last run (which fires [on_enter_pressed], lines
    289-290, before the script), whether the Generate button was
    clicked, and the complexity level.

    The script ([render_page], [init_session], [script_run]; lines
    15-341 and 616-664): render the style sheets, read and check the two
    secrets, load the animation, render the title, the widgets and the
    Enter-key script, initialise [enter_pressed], the conversation
    history, the assistant and the thread once per session, then, on a
    click or a committed input, either warn about an empty input or run
    the request ([handle_request]): distil the keywords, search PubMed,
    assemble the context, synthesise the answer and display it with one
    card per article.  The widgets are recorded as display events; what
    the browser does with the rendered CSS and JavaScript, and the
    spinner that shows the animation during the request, are not
    modelled.

    The theorems are over the reachable states of a session
    ([reachable], by rule induction): one assistant and one thread
    ([session_inv]), a session bound to its thread ([bound_to], through
    [preserves_post] since the thread id is a returned value); and over
    one or two reruns: the request branch as an equation, a request
    runs once per click or commit ([settled]), what a request displays,
    termination, and the error paths of the configuration and the
    animation. *)

From S2P Require Import Prelude PyStr Stream Api Thread Context Ncbi Distill Synthesis Page.

(** ** Session state *)

Record session := mk_session {
  ss_enter_pressed : option bool;             (** absent, or its value *)
  ss_history : option (list message);        (** [conversation_history] *)
  ss_assistant : option nat;                 (** the id of [assistant] *)
  ss_thread : option nat                     (** the id of [thread] *)
}.

Definition fresh_session : session := mk_session None None None None.

Record app_state := mk_app { as_session : session; as_world : world }.

Definition A := M app_state.

(** Run a computation on the world, keeping the session. *)
Definition lift {X} (c : W X) : A X :=
  fun st =>
    match c (as_world st) with
    | Done x w => Done x (mk_app (as_session st) w)
    | Raised e w => Raised e (mk_app (as_session st) w)
    | Diverged w => Diverged (mk_app (as_session st) w)
    end.

Definition get_session : A session := fun st => Done (as_session st) st.

Definition put_session (s : session) : A unit := fun st => Done tt (mk_app s (as_world st)).

(** An assignment [st.session_state.x = v]. *)
Definition update_session (f : session -> session) : A unit :=
  s <- get_session ;; put_session (f s).

Definition set_enter_pressed (b : bool) : A unit :=
  update_session (fun s => mk_session (Some b) (ss_history s) (ss_assistant s) (ss_thread s)).

(** What the browser sends with a rerun. *)
Record rerun := mk_rerun {
  rr_user_input : string;
  rr_input_committed : bool;
  rr_generate : bool;
  rr_length : string
}.

(** ** Configuration (lines 98-102) *)

(** [st.secrets], a two-level dictionary. *)
Definition secrets := list (string * list (string * string)).

Fixpoint assoc_str {X} (k : string) (d : list (string * X)) : option X :=
  match d with
  | [] => None
  | (k', v) :: d' => if bool_decide (k = k') then Some v else assoc_str k d'
  end.

(** [st.secrets[section][key]], raising [KeyError] when missing. *)
Definition secret_get (sec : secrets) (section key : string) : W string :=
  match assoc_str section sec with
  | Some d => match assoc_str key d with Some v => ret v | None => raise KeyError end
  | None => raise KeyError
  end.

(** [assert X, msg]. *)
Definition py_assert (b : bool) : W unit := if b then ret tt else raise AssertionError.

Definition load_config (sec : secrets) : W (string * string) :=
  openai_api_key <- secret_get sec "openai" "api_key" ;;
  ncbi_base_url <- secret_get sec "ncbi" "base_url" ;;
  py_assert (py_truthy openai_api_key) ;;
  py_assert (py_truthy ncbi_base_url) ;;
  ret (openai_api_key, ncbi_base_url).

(** ** Page and messages *)

Definition title_html : string :=
  "<h1 class='main-title'>Parenting Assistance Demo</h1>".

(** ["Please enter a message ⚠️"], the warning sign in UTF-8. *)
Definition empty_input_warning : string :=
  "Please enter a message " +:+
  String "226" (String "154" (String "160" (String "239" (String "184" (String "143" EmptyString))))).

Definition no_articles_warning : string :=
  "No specific articles found. The response will be based on general knowledge.".

Definition initial_history : list message := [mk_message "system" "You are a helpful assistant."].

Section Script.
Context `{AssistantServer} `{HttpServer} `{FileSystem} (fuel : nat).

(** The request (lines 623-664), on the session's assistant and
    thread and the configured NCBI base URL. *)
Definition handle_request (aid tid : nat) (ncbi_base_url user_input length : string) : W unit :=
  keywords <- extract_keywords fuel aid tid user_input ;;
  let num_results := if bool_decide (length = "Parent") then 10 else 15 in
  ncbi_articles <- search_ncbi ncbi_base_url keywords num_results ;;
  let all_articles := [] ++ ncbi_articles in
  (if bool_decide (all_articles = []) then show (UiWarning no_articles_warning) else ret tt) ;;
  let context := build_context all_articles in
  responses <- generate_response fuel aid tid user_input length context true ;;
  let '(full_response, text_message) := responses in
  show (UiSubheader "") ;;
  show (UiPlaceholder full_response) ;;
  show (UiSubheader "Text Message Version") ;;
  show (UiMarkdown text_message) ;;
  show (UiSubheader "Considered Articles") ;;
  iter_M display_article_card all_articles.

(** [if 'assistant' not in st.session_state: ... = create_assistant()]
    and the same for the thread (lines 338-341). *)
Definition ensure_session : A (nat * nat) :=
  s <- get_session ;;
  aid <- match ss_assistant s with
         | Some aid => ret aid
         | None => aid <- lift create_assistant ;;
                   update_session (fun s => mk_session (ss_enter_pressed s) (ss_history s)
                                                       (Some aid) (ss_thread s)) ;;
                   ret aid
         end ;;
  s <- get_session ;;
  tid <- match ss_thread s with
         | Some tid => ret tid
         | None => tid <- lift create_thread ;;
                   update_session (fun s => mk_session (ss_enter_pressed s) (ss_history s)
                                                       (ss_assistant s) (Some tid)) ;;
                   ret tid
         end ;;
  ret (aid, tid).

(** The page down to the complexity selector (lines 15-330): the style
    sheets, the configuration check, the loading animation, the title,
    the [enter_pressed] default, the widgets and the Enter-key script.
    It returns the NCBI base URL. *)
Definition render_page (sec : secrets) : A string :=
  lift (show (UiMarkdown layout_css)) ;;
  lift (show (UiMarkdown color_css)) ;;
  lift (show (UiMarkdown responsive_css)) ;;
  cfg <- lift (load_config sec) ;;
  let '(_, ncbi_base_url) := cfg in
  _ <- lift (load_lottiefile "animation.json") ;;
  lift (show (UiMarkdown title_css)) ;;
  lift (show (UiMarkdown title_html)) ;;
  s <- get_session ;;
  match ss_enter_pressed s with Some _ => ret tt | None => set_enter_pressed false end ;;
  lift (show (UiWidget "text_input")) ;;
  lift (show (UiWidget "button")) ;;
  lift (show (UiHtml js_code)) ;;
  lift (show (UiMarkdown "<div class='options-container'>")) ;;
  lift (show (UiWidget "radio")) ;;
  lift (show (UiMarkdown "</div>")) ;;
  ret ncbi_base_url.

(** The session state set up once per session (lines 333-341). *)
Definition init_session : A (nat * nat) :=
  s <- get_session ;;
  match ss_history s with
  | Some _ => ret tt
  | None => update_session (fun s => mk_session (ss_enter_pressed s) (Some initial_history)
                                                (ss_assistant s) (ss_thread s))
  end ;;
  ensure_session.

(** One run of the script: the [on_change] callback when the input was
    committed, the page, the session set-up, and the main logic (lines
    616-622). *)
Definition script_run (sec : secrets) (inp : rerun) : A unit :=
  (if rr_input_committed inp then set_enter_pressed true else ret tt) ;;
  ncbi_base_url <- render_page sec ;;
  ids <- init_session ;;
  let '(aid, tid) := ids in
  s <- get_session ;;
  if rr_generate inp || bool_decide (ss_enter_pressed s = Some true) then
    if bool_decide (rr_user_input inp = "") then lift (show (UiWarning empty_input_warning))
    else
      set_enter_pressed false ;;
      lift (handle_request aid tid ncbi_base_url (rr_user_input inp) (rr_length inp))
  else ret tt.

End Script.

(** ** Sessions and servers used by the witnesses *)

Definition demo_secrets : secrets :=
  [("openai", [("api_key", "sk-demo")]); ("ncbi", [("base_url", demo_base_url)])].

(** The secrets file without the NCBI base URL. *)
Definition secrets_without_url : secrets := [("openai", [("api_key", "sk-demo")]); ("ncbi", [])].

(** A session whose assistant 0 and thread 0 exist, after a first run. *)
Definition ready_state : app_state :=
  mk_app (mk_session (Some false) (Some initial_history) (Some 0) (Some 0)) demo_world.

Definition click (text : string) : rerun := mk_rerun text false true "Parent".

(** The assistant of the spec's end-to-end scenario: it answers the
    distillation turn with a simpler question, the keyword turn with
    the four keywords, and any other turn with a fixed text. *)
Definition spec_reply (msgs : list message) : string :=
  match last msgs with
  | Some m =>
      if py_contains "Extract the most essential" (msg_content m)
      then "peanut butter, infant, allergy, introduction"
      else if py_contains "Transform the question" (msg_content m)
      then "Is peanut butter safe for infants?"
      else "Introduce peanut early (Smith 2023; Doe 2019)."
  | None => ""
  end.

Definition spec_assistant : AssistantServer := {|
  srv_tick := map progress_run;
  srv_reply := fun _ msgs => ([EventHandler.TextDelta (spec_reply msgs)], Completed)
|}.

(** PubMed answers with the 2019 study first and the 2023 one second. *)
Definition record_2019 : pubmed_article :=
  mk_pubmed (Some (Some "Early peanut introduction")) (Some (Some "Infants fed peanut early."))
            (Some (Some "2019")) (Some (Some "2019")) [mk_author (Some (Some "Doe")) (Some (Some "Jane"))].

Definition record_2023 : pubmed_article :=
  mk_pubmed (Some (Some "Peanut allergy prevention")) (Some (Some "Peanut at 6 months."))
            (Some (Some "2023")) (Some (Some "2023")) [mk_author (Some (Some "Smith")) (Some (Some "John"))].

(** The article dictionaries [fetch_article_details] builds for them. *)
Definition article_2019 : article :=
  mk_article (Some "Early peanut introduction") (Some "Infants fed peanut early.") (Some "2019")
             (Some "2019") ["Doe Jane"] "PubMed" "https://pubmed.ncbi.nlm.nih.gov/2019/".

Definition article_2023 : article :=
  mk_article (Some "Peanut allergy prevention") (Some "Peanut at 6 months.") (Some "2023")
             (Some "2023") ["Smith John"] "PubMed" "https://pubmed.ncbi.nlm.nih.gov/2023/".

(** The display events of [render_page] when the animation loads. *)
Definition page_events : list ui_event :=
  [UiMarkdown layout_css; UiMarkdown color_css; UiMarkdown responsive_css; UiMarkdown title_css;
   UiMarkdown title_html; UiWidget "text_input"; UiWidget "button"; UiHtml js_code;
   UiMarkdown "<div class='options-container'>"; UiWidget "radio"; UiMarkdown "</div>"].

(** ** One assistant and one thread per session *)

Definition is_create_thread (c : api_call) : bool :=
  match c with CreateThread => true | _ => false end.

Definition threads_created (w : world) : nat :=
  length (filter (fun c => is_create_thread c = true) (w_calls w)).

(** A world in which [n] assistants and [m] threads have been created. *)
Definition created (n m : nat) (w : world) : Prop :=
  w_assistants w = n /\ threads_created w = m.

Definition count_some {X} (o : option X) : nat := match o with Some _ => 1 | None => 0 end.

(** The session holds an assistant exactly when one has been created,
    and a thread exactly when one has been created. *)
Definition session_inv (st : app_state) : Prop :=
  created (count_some (ss_assistant (as_session st))) (count_some (ss_thread (as_session st)))
          (as_world st).

(** The world has at least [n] threads. *)
Definition threads_at_least (n : nat) (w : world) : Prop := n <= length (w_threads w).

(** The thread id the session holds names a thread of the server. *)
Definition thread_valid (st : app_state) : Prop :=
  match ss_thread (as_session st) with
  | Some tid => tid < length (w_threads (as_world st))
  | None => True
  end.

(** The states a browser session reaches: it starts with a fresh
    session state on a world where nothing was created, and each rerun
    takes it wherever the script ends, by a return, an exception or a
    request that never completes. *)
Inductive reachable `{AssistantServer} `{HttpServer} `{FileSystem} (fuel : nat) (sec : secrets) : app_state -> Prop :=
| reach_init w : created 0 0 w -> reachable fuel sec (mk_app fresh_session w)
| reach_rerun st inp :
    reachable fuel sec st -> reachable fuel sec (final_state (script_run fuel sec inp st)).

(** ** The request keeps the turn serialisation of the call log *)

Section RequestSerial.
Context `{AssistantServer} `{HttpServer} (fuel : nat).

Lemma search_ncbi_serial url kws n : preserves serial (search_ncbi url kws n).
Proof.
  unfold search_ncbi, search_attempt, fetch_article_details, http_request, response_json,
    dict_get, join_ids, parse_records, article_of, author_names.
  solve_preserves.
Qed.

Lemma extract_keywords_serial aid tid q : preserves serial (extract_keywords fuel aid tid q).
Proof. unfold extract_keywords, optimize_question, run_assistant. solve_preserves. Qed.

Lemma generate_response_serial aid tid q l c ph :
  preserves serial (generate_response fuel aid tid q l c ph).
Proof. unfold generate_response, optimize_question, run_assistant. solve_preserves. Qed.

Hint Resolve search_ncbi_serial extract_keywords_serial generate_response_serial : pa.

(** C3: turn serialisation holds for a whole request: whatever
    [handle_request] returns or raises, every message it appends to
    the thread comes right after a listing of the thread that saw no
    queued or in-progress run, HTTP requests and displays in between
    included. *)
Theorem handle_request_serial aid tid url q l :
  preserves serial (handle_request fuel aid tid url q l).
Proof. unfold handle_request, display_article_card. solve_preserves. Qed.
End RequestSerial.

(** ** What a request displays *)

(** The two markdown elements of one article card. *)
Definition card_events (a : article) : list ui_event :=
  [UiMarkdown card_css; UiMarkdown (card_html a (card_first_lines a))].

Lemma iter_M_display_cards arts w :
  iter_M display_article_card arts w
  = Done tt (mk_world (w_threads w) (w_assistants w) (w_calls w) (w_ui w ++ concat (map card_events arts))).
Proof.
  revert w. induction arts as [|a arts IH]; intros [ts n cs ui]; simpl.
  - by rewrite app_nil_r.
  - unfold display_article_card, bind, show, modify. simpl. rewrite IH. simpl.
    by rewrite <- !app_assoc.
Qed.

Section Display.
Context `{AssistantServer} `{HttpServer} (fuel : nat).

(** C25: what a request shows.  When [handle_request] returns, the page
    ends with the answer and the text-message version that
    [generate_response] returned for the context built from the articles
    the search returned, then one card per one of those articles, in
    search order, the articles the context left out included. *)
Theorem handle_request_display aid tid url q l w w' :
  handle_request fuel aid tid url q l w = Done tt w' ->
  exists kws w1 arts w2 full tm w4,
    extract_keywords fuel aid tid q w = Done kws w1
    /\ search_ncbi url kws (if bool_decide (l = "Parent") then 10 else 15) w1 = Done arts w2
    /\ generate_response fuel aid tid q l (build_context arts) true
         (if bool_decide (arts = []) then mk_world (w_threads w2) (w_assistants w2) (w_calls w2)
                                                   (w_ui w2 ++ [UiWarning no_articles_warning])
          else w2) = Done (full, tm) w4
    /\ w_ui w' = w_ui w4 ++ [UiSubheader ""; UiPlaceholder full; UiSubheader "Text Message Version";
                             UiMarkdown tm; UiSubheader "Considered Articles"] ++ concat (map card_events arts).
Proof.
  unfold handle_request. intros Hr.
  apply bind_Done_inv in Hr as (kws & w1 & Hk & Hr).
  apply bind_Done_inv in Hr as (arts & w2 & Hs & Hr).
  apply bind_Done_inv in Hr as ([] & w3 & Hw & Hr). rewrite app_nil_l in Hr, Hw.
  apply bind_Done_inv in Hr as ([full tm] & w4 & Hg & Hr).
  unfold bind, show, modify in Hr. simpl in Hr. rewrite iter_M_display_cards in Hr.
  injection Hr as <-. exists kws, w1, arts, w2, full, tm, w4.
  split_and!; [done|done| |simpl; by rewrite <- !app_assoc].
  unfold show, modify, ret in Hw. by case_bool_decide; injection Hw as <-.
Qed.
End Display.

(** ** Proof of the session invariant *)

Lemma threads_created_snoc (l : list api_call) c :
  length (filter (fun c => is_create_thread c = true) (l ++ [c]))
  = length (filter (fun c => is_create_thread c = true) l) + (if is_create_thread c then 1 else 0).
Proof. rewrite filter_app, length_app. by destruct c. Qed.

Section Created.
Context (n m : nat).

Lemma preserves_log_call_created c :
  is_create_thread c = false -> preserves (created n m) (log_call c).
Proof.
  intros Hc w [Ha Ht]. split; [done|]. unfold threads_created in *. simpl.
  by rewrite threads_created_snoc, Hc, Nat.add_0_r.
Qed.

Lemma preserves_show_created u : preserves (created n m) (show u).
Proof. by intros w. Qed.

Lemma preserves_set_threads_created ts : preserves (created n m) (set_threads ts).
Proof. by intros w. Qed.
End Created.

#[export] Hint Resolve preserves_log_call_created preserves_show_created
  preserves_set_threads_created : pa.
#[export] Hint Extern 1 (is_create_thread _ = false) => reflexivity : pa.

Section RequestCreated.
Context `{AssistantServer} `{HttpServer} (fuel : nat) (n m : nat).

Lemma wait_idle_created f tid : preserves (created n m) (wait_idle f tid).
Proof. induction f; rewrite wait_idle_eq; solve_preserves. Qed.

Hint Resolve wait_idle_created : pa.

(** The request creates neither an assistant nor a thread. *)
Lemma handle_request_created aid tid url q l :
  preserves (created n m) (handle_request fuel aid tid url q l).
Proof.
  unfold handle_request, extract_keywords, optimize_question, generate_response, search_ncbi,
    search_attempt, fetch_article_details, http_request, response_json, dict_get, join_ids,
    parse_records, article_of, author_names, display_article_card.
  solve_preserves.
Qed.
End RequestCreated.

Lemma lift_Done {X} (c : W X) s w x w' :
  c w = Done x w' -> lift c (mk_app s w) = Done x (mk_app s w').
Proof. intros Hc. unfold lift. simpl. by rewrite Hc. Qed.

Lemma lift_Raised {X} (c : W X) s w e w' :
  c w = Raised e w' -> lift c (mk_app s w) = Raised e (mk_app s w').
Proof. intros Hc. unfold lift. simpl. by rewrite Hc. Qed.

(** Without a non-empty NCBI base URL the configuration step raises,
    [KeyError] or [AssertionError], and changes nothing. *)
Lemma load_config_missing_url sec :
  match assoc_str "ncbi" sec with
  | Some d => match assoc_str "base_url" d with Some v => py_truthy v = false | None => True end
  | None => True
  end ->
  exists e, forall w, load_config sec w = Raised e w.
Proof.
  unfold load_config, secret_get.
  destruct (assoc_str "openai" sec) as [d1|]; [|by eexists].
  destruct (assoc_str "api_key" d1) as [k|]; [|by eexists].
  destruct (assoc_str "ncbi" sec) as [d2|]; [|by eexists].
  destruct (assoc_str "base_url" d2) as [u|]; [|by eexists].
  intros Hu. unfold bind, ret, py_assert. rewrite Hu.
  by destruct (py_truthy k); eexists; intros w.
Qed.

Lemma load_config_created sec n m : preserves (created n m) (load_config sec).
Proof. unfold load_config, secret_get, py_assert. solve_preserves. Qed.

Lemma load_lottiefile_created `{FileSystem} path n m : preserves (created n m) (load_lottiefile path).
Proof. unfold load_lottiefile. solve_preserves. Qed.

Lemma lift_inv {X} (c : W X) :
  (forall n m, preserves (created n m) c) -> preserves session_inv (lift c).
Proof.
  intros Hc [s w] Hw. specialize (Hc _ _ w Hw). unfold lift. simpl.
  by destruct (c w).
Qed.

Lemma update_session_inv f :
  (forall s, ss_assistant (f s) = ss_assistant s /\ ss_thread (f s) = ss_thread s) ->
  preserves session_inv (update_session f).
Proof. intros Hf [s w]. unfold session_inv. simpl. by destruct (Hf s) as [-> ->]. Qed.

Lemma ensure_session_inv `{AssistantServer} : preserves session_inv ensure_session.
Proof.
  intros [[ep hi [aid|] [tid|]] w] [Ha Ht]; cbn in *;
    unfold session_inv, created, threads_created in *; simpl; rewrite ?threads_created_snoc; simpl; lia.
Qed.

#[export] Hint Resolve load_config_created load_lottiefile_created handle_request_created lift_inv update_session_inv
  ensure_session_inv : pa.
#[export] Hint Extern 1 (forall _, ss_assistant _ = _ /\ ss_thread _ = _) =>
  intros; split; reflexivity : pa.

Lemma script_run_inv `{AssistantServer} `{HttpServer} `{FileSystem} fuel sec inp :
  preserves session_inv (script_run fuel sec inp).
Proof. unfold script_run, render_page, init_session, set_enter_pressed. solve_preserves. Qed.

(** ** The session's thread id stays valid *)

Section ThreadsGrow.
Context (n : nat).

Lemma preserves_log_call_len c : preserves (threads_at_least n) (log_call c).
Proof. by intros w. Qed.

Lemma preserves_show_len u : preserves (threads_at_least n) (show u).
Proof. by intros w. Qed.

Lemma preserves_update_thread_len `{AssistantServer} tid t :
  preserves (threads_at_least n) (update_thread tid t).
Proof. intros w Hw. unfold threads_at_least in *. simpl. by rewrite length_insert. Qed.

Lemma preserves_sleep1_len `{AssistantServer} : preserves (threads_at_least n) sleep1.
Proof. intros w Hw. unfold threads_at_least in *. simpl. by rewrite length_map. Qed.
End ThreadsGrow.

#[export] Hint Resolve preserves_log_call_len preserves_show_len preserves_update_thread_len
  preserves_sleep1_len : pa.

Section RequestThreads.
Context `{AssistantServer} `{HttpServer} (fuel : nat) (n : nat).

Lemma wait_idle_len f tid : preserves (threads_at_least n) (wait_idle f tid).
Proof. induction f; rewrite wait_idle_eq; solve_preserves. Qed.

#[local] Hint Resolve wait_idle_len : pa.

(** The request removes no thread. *)
Lemma handle_request_len aid tid url q l :
  preserves (threads_at_least n) (handle_request fuel aid tid url q l).
Proof.
  unfold handle_request, extract_keywords, optimize_question, generate_response, search_ncbi,
    search_attempt, fetch_article_details, http_request, response_json, dict_get, join_ids,
    parse_records, article_of, author_names, display_article_card.
  solve_preserves.
Qed.
End RequestThreads.

Lemma lift_valid {X} (c : W X) :
  (forall n, preserves (threads_at_least n) c) -> preserves thread_valid (lift c).
Proof.
  intros Hc [s w] Hw. unfold lift, thread_valid in *. simpl in *.
  destruct (ss_thread s) as [tid|] eqn:E; [|destruct (c w); simpl; by rewrite ?E].
  specialize (Hc (S tid) w Hw). unfold threads_at_least in Hc. destruct (c w); simpl in *; rewrite E; lia.
Qed.

Lemma update_session_valid f :
  (forall s, ss_thread (f s) = ss_thread s) -> preserves thread_valid (update_session f).
Proof. intros Hf [s w]. unfold thread_valid. simpl. by rewrite Hf. Qed.

Lemma load_config_len sec n : preserves (threads_at_least n) (load_config sec).
Proof. unfold load_config, secret_get, py_assert. solve_preserves. Qed.

Lemma load_lottiefile_len `{FileSystem} path n : preserves (threads_at_least n) (load_lottiefile path).
Proof. unfold load_lottiefile. solve_preserves. Qed.

Lemma ensure_session_valid `{AssistantServer} : preserves thread_valid ensure_session.
Proof.
  intros [[ep hi [aid|] [tid|]] w] Hw; cbn in *; unfold thread_valid in *; simpl in *;
    rewrite ?length_app; simpl; lia.
Qed.

#[export] Hint Resolve lift_valid update_session_valid load_config_len load_lottiefile_len
  handle_request_len ensure_session_valid : pa.
#[export] Hint Extern 1 (forall _, ss_thread _ = ss_thread _) => intros; reflexivity : pa.

Lemma script_run_valid `{AssistantServer} `{HttpServer} `{FileSystem} fuel sec inp :
  preserves thread_valid (script_run fuel sec inp).
Proof. unfold script_run, render_page, init_session, set_enter_pressed. solve_preserves. Qed.

(** ** A session stays bound to its thread *)

(** The session holds the thread [tid], which exists, and the calls made
    since the log [L] address no other thread. *)
Definition bound_to (L : list api_call) (tid : nat) (st : app_state) : Prop :=
  ss_thread (as_session st) = Some tid /\ tid < length (w_threads (as_world st))
  /\ calls_on L tid (as_world st).

Section BoundTo.
Context `{AssistantServer} `{HttpServer} (fuel : nat) (L : list api_call) (tid : nat).

Lemma wait_idle_on f : preserves (calls_on L tid) (wait_idle f tid).
Proof. induction f; rewrite wait_idle_eq; solve_preserves. Qed.

#[local] Hint Resolve wait_idle_on : pa.

(** A request on thread [tid] addresses no other thread. *)
Lemma handle_request_on aid url q l : preserves (calls_on L tid) (handle_request fuel aid tid url q l).
Proof.
  unfold handle_request, extract_keywords, optimize_question, generate_response, search_ncbi,
    search_attempt, fetch_article_details, http_request, response_json, dict_get, join_ids,
    parse_records, article_of, author_names, display_article_card, add_message_to_thread,
    run_assistant, runs_stream, messages_create, runs_list, thread_of, update_thread.
  solve_preserves.
Qed.

Lemma load_config_on sec : preserves (calls_on L tid) (load_config sec).
Proof. unfold load_config, secret_get, py_assert. solve_preserves. Qed.

Lemma load_lottiefile_on `{FileSystem} path : preserves (calls_on L tid) (load_lottiefile path).
Proof. unfold load_lottiefile. solve_preserves. Qed.

Lemma lift_bound {X} (c : W X) :
  (forall n, preserves (threads_at_least n) c) -> preserves (calls_on L tid) c ->
  preserves (bound_to L tid) (lift c).
Proof.
  intros Hn Hc [s w] (Hs & Hlt & Hw). specialize (Hn (S tid) w Hlt). specialize (Hc w Hw).
  unfold lift, threads_at_least in *. simpl in *. by destruct (c w); simpl in *.
Qed.

Lemma update_session_bound f :
  (forall s, ss_thread (f s) = ss_thread s) -> preserves (bound_to L tid) (update_session f).
Proof. intros Hf [s w]. unfold bound_to. simpl. by rewrite Hf. Qed.

(** A session that holds its thread keeps it: [init_session] creates
    at most the assistant and returns the session's thread. *)
Lemma init_session_bound : preserves_post (bound_to L tid) init_session (fun ids => snd ids = tid).
Proof.
  intros [[ep [hi|] [aid|] [t|]] w] (Hs & Hlt & Hw); simpl in Hs; try discriminate; injection Hs as <-;
    (split; [|done]); repeat split; try done; simpl; rewrite ?app_assoc; apply preserves_log_call_on;
    auto with pa.
Qed.
End BoundTo.

#[export] Hint Resolve handle_request_on load_config_on load_lottiefile_on lift_bound
  update_session_bound : pa.

Lemma script_run_bound `{AssistantServer} `{HttpServer} `{FileSystem} fuel sec inp L tid :
  preserves (bound_to L tid) (script_run fuel sec inp).
Proof.
  unfold script_run. apply preserves_bind; [unfold set_enter_pressed; solve_preserves|]. intros [].
  apply preserves_bind; [unfold render_page, set_enter_pressed; solve_preserves|]. intros url.
  apply (preserves_bind_post _ _ _ _ (init_session_bound L tid)). intros [aid t] <-.
  unfold set_enter_pressed. solve_preserves.
Qed.

(** ** A request runs once per click or commit *)

(** The session after a rerun that has reached its main logic with a
    non-empty text: [enter_pressed] cleared, the history, the assistant
    and the thread set. *)
Definition settled (s : session) : Prop :=
  ss_enter_pressed s = Some false /\ is_Some (ss_history s) /\ is_Some (ss_assistant s)
  /\ is_Some (ss_thread s).

Section Once.
Context `{AssistantServer} `{HttpServer} `{FileSystem} (fuel : nat) (sec : secrets).
Context (cfg : string * string) (Hcfg : forall w, load_config sec w = Done cfg w).
Context (Hfs : forall t, fs_read "animation.json" <> NotJson t).

Lemma script_run_settles inp st :
  rr_user_input inp <> "" -> settled (as_session (final_state (script_run fuel sec inp st))).
Proof.
  intros Hin. destruct st as [[ep hi aid tid] w]. destruct cfg as [k url].
  unfold script_run, render_page, init_session, load_lottiefile.
  destruct (fs_read "animation.json") as [|t|j] eqn:Ef; [|by destruct (Hfs t)|];
  destruct (rr_input_committed inp);
    unfold bind, ret, lift, show, modify, get_session, put_session, update_session, set_enter_pressed,
      ensure_session, create_assistant, create_thread, log_call, set_threads, get;
    simpl; rewrite ?Hcfg; simpl;
    destruct ep as [[]|], hi, aid, tid, (rr_generate inp); simpl; try rewrite (bool_decide_false _ Hin);
    simpl; try match goal with |- context [handle_request ?f ?a ?t ?u ?q ?l ?w] =>
                                   destruct (handle_request f a t u q l w) end;
    unfold settled; simpl; by split_and!.
Qed.

Lemma script_run_quiet inp st :
  settled (as_session st) -> rr_generate inp = false -> rr_input_committed inp = false ->
  exists st', script_run fuel sec inp st = Done tt st' /\ w_calls (as_world st') = w_calls (as_world st).
Proof.
  destruct st as [[ep hi aid tid] w]. intros (Hep & [hi' Hhi] & [aid' Haid] & [tid' Htid]) Hg Hc.
  simpl in *. subst. destruct cfg as [k url].
  unfold script_run, render_page, init_session, load_lottiefile. rewrite Hc.
  destruct (fs_read "animation.json") as [|t|j] eqn:Ef; [|by destruct (Hfs t)|];
    unfold bind, ret, lift, show, modify, get_session, put_session, update_session, set_enter_pressed,
      ensure_session; simpl; rewrite ?Hcfg; simpl; rewrite Hg; simpl; by eexists.
Qed.
End Once.

(** ** Termination of a rerun *)

Lemma lift_terminates {X} (c : W X) : terminates c -> terminates (lift c).
Proof. intros Hc [s w]. specialize (Hc w). unfold lift. simpl. by destruct (c w). Qed.

Lemma get_session_terminates : terminates get_session.
Proof. by intros st. Qed.

Lemma put_session_terminates s : terminates (put_session s).
Proof. by intros st. Qed.

Lemma load_config_terminates sec : terminates (load_config sec).
Proof. unfold load_config, secret_get, py_assert. solve_terminates. Qed.

Lemma load_lottiefile_terminates `{FileSystem} path : terminates (load_lottiefile path).
Proof. unfold load_lottiefile, show. solve_terminates. Qed.

#[export] Hint Resolve lift_terminates get_session_terminates put_session_terminates
  load_config_terminates load_lottiefile_terminates : pa.

Section Termination.
Context `{AssistantServer} `{!AssistantServerSettles} `{HttpServer} `{FileSystem}.
Context (fuel : nat) (Hfuel : srv_settle_time <= fuel).

#[local] Hint Extern 1 (terminates (wait_idle _ _)) => apply wait_idle_total; lia : pa.

Lemma handle_request_terminates aid tid url q l : terminates (handle_request fuel aid tid url q l).
Proof.
  unfold handle_request, extract_keywords, optimize_question, generate_response, search_ncbi,
    search_attempt, fetch_article_details, http_request, response_json, dict_get, join_ids,
    parse_records, article_of, author_names, display_article_card, add_message_to_thread,
    run_assistant, runs_stream, messages_create, runs_list, thread_of, update_thread, sleep1,
    log_call, show, set_threads.
  solve_terminates.
Qed.

#[local] Hint Resolve handle_request_terminates : pa.

(** C35: a rerun always ends.  On a server whose runs settle within
    [srv_settle_time] seconds, with at least that many sleeps allowed,
    [script_run] returns or raises from every state: the polling loops
    of all the turns of a request end. *)
Theorem script_run_terminates sec inp : terminates (script_run fuel sec inp).
Proof.
  unfold script_run, render_page, init_session, ensure_session, set_enter_pressed, update_session,
    create_assistant, create_thread, log_call, show, set_threads.
  solve_terminates.
Qed.
End Termination.

(** ** Properties of the script *)

(** C11: one assistant and one thread per browser session: in every
    state a session reaches, however many reruns, requests, exceptions
    or unfinished requests came before, at most one assistant and at
    most one thread have been created, and the session state holds them
    exactly when they have been. *)
Theorem reachable_one_assistant_one_thread `{AssistantServer} `{HttpServer} `{FileSystem} fuel sec st :
  reachable fuel sec st ->
  session_inv st /\ w_assistants (as_world st) <= 1 /\ threads_created (as_world st) <= 1.
Proof.
  intros Hr. assert (Hinv : session_inv st).
  { induction Hr as [w Hw|st inp _ IH]; [exact Hw|]. by apply script_run_inv. }
  split; [done|]. destruct Hinv as [-> ->].
  destruct (ss_assistant (as_session st)), (ss_thread (as_session st)); simpl; lia.
Qed.

(** C19: a session stays bound to its thread.  From every reachable
    state whose session holds the thread [tid], a rerun (whatever it
    returns, raises or leaves unfinished) keeps [tid] as the session's
    thread, [tid] names an existing thread of the server, and every call
    the rerun makes to a thread (listing runs, creating a message,
    streaming a run) addresses [tid]. *)
Theorem script_run_keeps_thread `{AssistantServer} `{HttpServer} `{FileSystem} fuel sec inp st tid :
  reachable fuel sec st -> ss_thread (as_session st) = Some tid ->
  let st' := final_state (script_run fuel sec inp st) in
  ss_thread (as_session st') = Some tid /\ tid < length (w_threads (as_world st'))
  /\ exists l, w_calls (as_world st') = w_calls (as_world st) ++ l
               /\ Forall (fun c => call_thread c = None \/ call_thread c = Some tid) l.
Proof.
  intros Hr Htid. assert (Hv : thread_valid st).
  { clear Htid. induction Hr as [w _|st' inp' _ IH]; [done|]. by apply script_run_valid. }
  unfold thread_valid in Hv. rewrite Htid in Hv.
  exact (script_run_bound fuel sec inp (w_calls (as_world st)) tid st (conj Htid (conj Hv (calls_on_refl _ _)))).
Qed.

(** C22: a request runs once per click or commit.  When the
    configuration and the animation load, after a rerun with a
    non-empty text, whatever it returned, raised or left unfinished, a
    rerun caused by another widget (no click, no commit) returns without
    any API call: [enter_pressed] was cleared before the request
    started, so a request that failed is not repeated. *)
Theorem script_run_request_once `{AssistantServer} `{HttpServer} `{FileSystem} fuel sec cfg inp1 inp2 st :
  (forall w, load_config sec w = Done cfg w) -> (forall t, fs_read "animation.json" <> NotJson t) ->
  rr_user_input inp1 <> "" -> rr_generate inp2 = false -> rr_input_committed inp2 = false ->
  let st1 := final_state (script_run fuel sec inp1 st) in
  exists st2, script_run fuel sec inp2 st1 = Done tt st2 /\ w_calls (as_world st2) = w_calls (as_world st1).
Proof.
  intros Hcfg Hfs Hin Hg Hc st1. apply (script_run_quiet fuel sec cfg Hcfg Hfs); [|done|done].
  by apply (script_run_settles fuel sec cfg Hcfg Hfs).
Qed.

(** C23: an empty input only warns.  On a session that has its
    assistant and thread, a click or a committed input with an empty
    text box makes no API call, leaves the threads alone and ends the
    page with the warning; a committed input leaves [enter_pressed] set,
    since the reset happens only on the request branch. *)
Theorem script_run_empty_input `{AssistantServer} `{HttpServer} `{FileSystem} fuel sec inp ep hi aid tid w cfg :
  (forall w, load_config sec w = Done cfg w) -> (forall t, fs_read "animation.json" <> NotJson t) ->
  rr_user_input inp = "" -> rr_generate inp || rr_input_committed inp || bool_decide (ep = Some true) ->
  exists st',
    script_run fuel sec inp (mk_app (mk_session ep (Some hi) (Some aid) (Some tid)) w) = Done tt st'
    /\ w_calls (as_world st') = w_calls w /\ w_threads (as_world st') = w_threads w
    /\ last (w_ui (as_world st')) = Some (UiWarning empty_input_warning)
    /\ (rr_input_committed inp = true -> ss_enter_pressed (as_session st') = Some true).
Proof.
  intros Hcfg Hfs Hin Hgo. destruct cfg as [k url].
  unfold script_run, render_page, init_session, load_lottiefile. rewrite Hin.
  destruct (fs_read "animation.json") as [|t|j] eqn:Ef; [|by destruct (Hfs t)|];
  destruct (rr_input_committed inp) eqn:Hc;
    unfold bind, ret, lift, show, modify, get_session, put_session, update_session, set_enter_pressed,
      ensure_session; simpl; rewrite ?Hcfg; simpl.
  all: destruct ep as [[]|], (rr_generate inp); simpl in Hgo |- *; try done.
  all: eexists; split; [reflexivity|]; simpl; split_and!; try done; by rewrite last_snoc.
Qed.

(** C20: a non-empty input runs the request.  On a session that has its
    assistant and thread, when the configuration and the animation load,
    a click or a committed input with any non-empty text (one of blanks
    included: the script only tests [user_input == ""]) renders the
    page, resets [enter_pressed] and then does exactly what
    [handle_request] does on the session's assistant and thread, the
    configured base URL, the text and the level. *)
Theorem script_run_request `{AssistantServer} `{HttpServer} `{FileSystem} fuel sec inp ep hi aid tid w key url j :
  (forall w, load_config sec w = Done (key, url) w) -> fs_read "animation.json" = JsonFile j ->
  rr_user_input inp <> "" -> rr_generate inp || rr_input_committed inp || bool_decide (ep = Some true) ->
  script_run fuel sec inp (mk_app (mk_session ep (Some hi) (Some aid) (Some tid)) w)
  = lift (handle_request fuel aid tid url (rr_user_input inp) (rr_length inp))
         (mk_app (mk_session (Some false) (Some hi) (Some aid) (Some tid))
                 (mk_world (w_threads w) (w_assistants w) (w_calls w) (w_ui w ++ page_events))).
Proof.
  intros Hcfg Hfs Hin Hgo. unfold script_run, render_page, init_session, load_lottiefile. rewrite Hfs.
  destruct (rr_input_committed inp) eqn:Hc;
    unfold bind, ret, lift, show, modify, get_session, put_session, update_session, set_enter_pressed,
      ensure_session; simpl; rewrite ?Hcfg; simpl; rewrite (bool_decide_false _ Hin).
  all: destruct ep as [[]|], (rr_generate inp); simpl in Hgo |- *; try done.
  all: by rewrite <- !app_assoc.
Qed.

(** The end-to-end scenario of the spec.  For the question "Is it
    safe to give my 6-month-old peanut butter?" at the Parent level,
    with keywords "peanut butter, infant, allergy, introduction" and a
    search that returns a 2019 and a 2023 study in that order, the
    prompt sent to the assistant is the Parent template whose context
    places the 2023 article first, and the answer is displayed. *)
Example spec_end_to_end :
  exists st',
    @script_run spec_assistant (demo_http [record_2019; record_2023]) demo_fs 5 demo_secrets
      (click "Is it safe to give my 6-month-old peanut butter?") ready_state = Done tt st'
    /\ CreateMessage 0 "user"
         (parent_prompt "Is peanut butter safe for infants?"
            (format_article article_2023 +:+ blank_line +:+ format_article article_2019))
       ∈ w_calls (as_world st')
    /\ UiPlaceholder "Introduce peanut early (Smith 2023; Doe 2019)." ∈ w_ui (as_world st').
Proof.
  eexists. split; [vm_compute; reflexivity|].
  split; vm_compute; by repeat (first [left | right]).
Qed.

(** C24: a missing or empty NCBI base URL is fatal before the page has
    input controls: the run raises after rendering only the three page
    style sheets, without any widget, API call or thread change. *)
Theorem script_run_missing_url `{AssistantServer} `{HttpServer} `{FileSystem} fuel sec inp s w :
  match assoc_str "ncbi" sec with
  | Some d => match assoc_str "base_url" d with Some v => py_truthy v = false | None => True end
  | None => True
  end ->
  exists e s',
    script_run fuel sec inp (mk_app s w)
    = Raised e (mk_app s' (mk_world (w_threads w) (w_assistants w) (w_calls w)
                             (w_ui w ++ [UiMarkdown layout_css; UiMarkdown color_css;
                                         UiMarkdown responsive_css]))).
Proof.
  intros Hu. destruct (load_config_missing_url sec Hu) as [e He].
  exists e. unfold script_run, render_page.
  destruct (rr_input_committed inp); unfold bind, ret, lift, show, modify, get_session, put_session,
    update_session, set_enter_pressed; simpl; rewrite He; simpl; rewrite <- !app_assoc; by eexists.
Qed.

Lemma reachable_one_assistant_one_thread_witness :
  reachable (H := demo_server) (H0 := demo_http [demo_record]) (H1 := demo_fs) 5 demo_secrets
    (final_state (@script_run demo_server (demo_http [demo_record]) demo_fs 5 demo_secrets (click "q")
                   (mk_app fresh_session empty_world)))
  /\ (let st := final_state (@script_run demo_server (demo_http [demo_record]) demo_fs 5 demo_secrets (click "q")
                              (mk_app fresh_session empty_world)) in
      session_inv st /\ w_assistants (as_world st) <= 1 /\ threads_created (as_world st) <= 1).
Proof.
  assert (Hr : reachable (H := demo_server) (H0 := demo_http [demo_record]) (H1 := demo_fs) 5 demo_secrets
    (final_state (@script_run demo_server (demo_http [demo_record]) demo_fs 5 demo_secrets (click "q")
                   (mk_app fresh_session empty_world)))).
  { apply reach_rerun, reach_init. split; reflexivity. }
  split; [exact Hr|]. exact (reachable_one_assistant_one_thread _ _ _ Hr).
Defined.

Lemma script_run_empty_input_witness :
  (forall w, load_config demo_secrets w = Done ("sk-demo", demo_base_url) w) /\
  (forall t, @fs_read demo_fs "animation.json" <> NotJson t) /\
  rr_user_input (click "") = "" /\
  rr_generate (click "") || rr_input_committed (click "") || bool_decide (Some false = Some true) /\
  exists st',
    @script_run demo_server (demo_http []) demo_fs 5 demo_secrets (click "")
      (mk_app (mk_session (Some false) (Some initial_history) (Some 0) (Some 0)) demo_world) = Done tt st'
    /\ w_calls (as_world st') = w_calls demo_world /\ w_threads (as_world st') = w_threads demo_world
    /\ last (w_ui (as_world st')) = Some (UiWarning empty_input_warning)
    /\ (rr_input_committed (click "") = true -> ss_enter_pressed (as_session st') = Some true).
Proof.
  split; [intros w; reflexivity|]. split; [intros t; discriminate|].
  split; [reflexivity|]. split; [reflexivity|].
  apply (@script_run_empty_input demo_server (demo_http []) demo_fs 5 demo_secrets (click "") (Some false)
           initial_history 0 0 demo_world ("sk-demo", demo_base_url));
    [intros w; reflexivity|intros t; discriminate|reflexivity|reflexivity].
Defined.

Lemma script_run_missing_url_witness :
  exists e s',
    @script_run demo_server (demo_http []) demo_fs 5 secrets_without_url (click "q")
      (mk_app fresh_session empty_world)
    = Raised e (mk_app s' (mk_world [] 0 [] [UiMarkdown layout_css; UiMarkdown color_css;
                                             UiMarkdown responsive_css])).
Proof.
  apply (@script_run_missing_url demo_server (demo_http []) demo_fs 5 secrets_without_url (click "q")
           fresh_session empty_world). exact I.
Defined.

Lemma script_run_terminates_witness :
  @srv_settle_time demo_server demo_server_settles <= 5 /\
  terminates (@script_run demo_server (demo_http [demo_record]) demo_fs 5 demo_secrets (click "q")).
Proof.
  split; [simpl; lia|].
  apply (@script_run_terminates demo_server demo_server_settles (demo_http [demo_record]) demo_fs 5).
  simpl. lia.
Defined.

(** C36: a loading animation that is not JSON is fatal: [json.load]
    raises inside [load_lottiefile], whose handler catches only a
    missing file, so the run stops after the three page style sheets,
    before the title and any input control. *)
Theorem script_run_bad_animation `{AssistantServer} `{HttpServer} `{FileSystem} fuel sec inp s w cfg t :
  (forall w, load_config sec w = Done cfg w) -> fs_read "animation.json" = NotJson t ->
  exists s',
    script_run fuel sec inp (mk_app s w)
    = Raised JSONDecodeError (mk_app s' (mk_world (w_threads w) (w_assistants w) (w_calls w)
                                           (w_ui w ++ [UiMarkdown layout_css; UiMarkdown color_css;
                                                       UiMarkdown responsive_css]))).
Proof.
  intros Hcfg Hfs. destruct cfg as [k url]. unfold script_run, render_page, load_lottiefile. rewrite Hfs.
  destruct (rr_input_committed inp); unfold bind, ret, lift, show, modify, get_session, put_session,
    update_session, set_enter_pressed, raise; simpl; rewrite Hcfg; simpl; rewrite <- !app_assoc;
    by eexists.
Qed.

Lemma script_run_bad_animation_witness :
  (forall w, load_config demo_secrets w = Done ("sk-demo", demo_base_url) w) /\
  @fs_read broken_fs "animation.json" = NotJson "{" /\
  exists s',
    @script_run demo_server (demo_http []) broken_fs 5 demo_secrets (click "q") ready_state
    = Raised JSONDecodeError (mk_app s' (mk_world (w_threads demo_world) (w_assistants demo_world)
                                           (w_calls demo_world)
                                           (w_ui demo_world ++ [UiMarkdown layout_css; UiMarkdown color_css;
                                                                UiMarkdown responsive_css]))).
Proof.
  split; [intros w; reflexivity|]. split; [reflexivity|].
  apply (@script_run_bad_animation demo_server (demo_http []) broken_fs 5 demo_secrets (click "q")
           _ demo_world ("sk-demo", demo_base_url) "{"); [intros w; reflexivity|reflexivity].
Defined.

Lemma script_run_keeps_thread_witness :
  let st := final_state (@script_run demo_server (demo_http [demo_record]) demo_fs 5 demo_secrets
                           (click "q") (mk_app fresh_session empty_world)) in
  reachable (H := demo_server) (H0 := demo_http [demo_record]) (H1 := demo_fs) 5 demo_secrets st
  /\ ss_thread (as_session st) = Some 0
  /\ (let st' := final_state (@script_run demo_server (demo_http [demo_record]) demo_fs 5 demo_secrets
                                 (click "Is peanut butter safe?") st) in
      ss_thread (as_session st') = Some 0 /\ 0 < length (w_threads (as_world st'))
      /\ exists l, w_calls (as_world st') = w_calls (as_world st) ++ l
                   /\ Forall (fun c => call_thread c = None \/ call_thread c = Some 0) l).
Proof.
  intros st. assert (Hr : reachable (H := demo_server) (H0 := demo_http [demo_record]) (H1 := demo_fs)
                            5 demo_secrets st).
  { apply reach_rerun, reach_init. split; reflexivity. }
  assert (Ht : ss_thread (as_session st) = Some 0) by (vm_compute; reflexivity).
  split; [exact Hr|]. split; [exact Ht|].
  exact (script_run_keeps_thread _ _ _ _ _ Hr Ht).
Defined.

Lemma script_run_request_witness :
  (forall w, load_config demo_secrets w = Done ("sk-demo", demo_base_url) w) /\
  @fs_read demo_fs "animation.json" = JsonFile (JObj []) /\
  rr_user_input (mk_rerun "   " true false "Parent") <> "" /\
  @script_run demo_server (demo_http [demo_record]) demo_fs 5 demo_secrets (mk_rerun "   " true false "Parent")
    (mk_app (mk_session (Some false) (Some initial_history) (Some 0) (Some 0)) demo_world)
  = lift (@handle_request demo_server (demo_http [demo_record]) 5 0 0 demo_base_url "   " "Parent")
         (mk_app (mk_session (Some false) (Some initial_history) (Some 0) (Some 0))
                 (mk_world (w_threads demo_world) (w_assistants demo_world) (w_calls demo_world)
                           (w_ui demo_world ++ page_events))).
Proof.
  split; [intros w; reflexivity|]. split; [reflexivity|]. split; [discriminate|].
  apply (@script_run_request demo_server (demo_http [demo_record]) demo_fs 5 demo_secrets
           (mk_rerun "   " true false "Parent") (Some false) initial_history 0 0 demo_world
           "sk-demo" demo_base_url (JObj [])); [intros w; reflexivity|reflexivity|discriminate|reflexivity].
Defined.

Lemma script_run_request_once_witness :
  (forall w, load_config demo_secrets w = Done ("sk-demo", demo_base_url) w) /\
  (forall t, @fs_read demo_fs "animation.json" <> NotJson t) /\
  rr_user_input (mk_rerun "Is peanut butter safe?" true false "Parent") <> "" /\
  let st1 := final_state (@script_run demo_server (demo_http [demo_record]) demo_fs 5 demo_secrets
                            (mk_rerun "Is peanut butter safe?" true false "Parent") ready_state) in
  exists st2, @script_run demo_server (demo_http [demo_record]) demo_fs 5 demo_secrets
                (mk_rerun "Is peanut butter safe?" false false "Doctor/Researcher") st1 = Done tt st2
              /\ w_calls (as_world st2) = w_calls (as_world st1).
Proof.
  split; [intros w; reflexivity|]. split; [intros t; discriminate|]. split; [discriminate|].
  apply (@script_run_request_once demo_server (demo_http [demo_record]) demo_fs 5 demo_secrets
           ("sk-demo", demo_base_url)); [intros w; reflexivity|intros t; discriminate|discriminate|reflexivity|reflexivity].
Defined.

Lemma handle_request_display_witness :
  exists w',
    @handle_request demo_server (demo_http [demo_record]) 5 0 0 demo_base_url "Is peanut butter safe?" "Parent"
      demo_world = Done tt w' /\
    exists kws w1 arts w2 full tm w4,
      @extract_keywords demo_server 5 0 0 "Is peanut butter safe?" demo_world = Done kws w1
      /\ @search_ncbi (demo_http [demo_record]) demo_base_url kws 10 w1 = Done arts w2
      /\ @generate_response demo_server 5 0 0 "Is peanut butter safe?" "Parent" (build_context arts) true
           (if bool_decide (arts = []) then mk_world (w_threads w2) (w_assistants w2) (w_calls w2)
                                                     (w_ui w2 ++ [UiWarning no_articles_warning])
            else w2) = Done (full, tm) w4
      /\ w_ui w' = w_ui w4 ++ [UiSubheader ""; UiPlaceholder full; UiSubheader "Text Message Version";
                               UiMarkdown tm; UiSubheader "Considered Articles"] ++ concat (map card_events arts).
Proof.
  eexists. split; [vm_compute; reflexivity|].
  apply (@handle_request_display demo_server (demo_http [demo_record]) 5 0 0 demo_base_url
           "Is peanut butter safe?" "Parent" demo_world). vm_compute. reflexivity.
Defined.
